(** * ObserverAI: the session-scoped decision tracker and its adapters

    A shallow embedding of

    - [observer/core/observer.py]        (class [Observer]),
    - [observer/adapters/swarm_adapter.py] (class [SwarmAdapter]),
    - [observer/adapters/enhanced_agent.py] (class [EnhancedAgent]),
    - [observer/adapters/base.py]        (class [GenericAgentAdapter]),
    - [observer/adapters/swarms.py]      (class [SwarmObserver]),
    - [observer/core/decision.py]        (class [DecisionPath]),

    followed by the properties of the specification that concern them and
    by further properties of the same code.

    Conventions of the embedding.

    - A Python [str] is a Rocq [string]; every character stands for the
      code point of the same number (the Latin-1 range of [str]).
    - A Python [int] is a [Z].  A Python [float] is a [pyfloat]: a finite
      float is a rational, the one that its decimal numeral in the source
      or in the input denotes ([0.4] is 4/10); the two infinities and NaN
      are separate constructors.  Comparisons are those of the rationals;
      rounding and overflow of float arithmetic are not part of the model.
    - A [datetime] is the number of microseconds since the epoch, a [Z];
      [datetime.now()] reads the next value of a clock oracle.
    - A [dict] with string keys is a [gmap string _]; a [set] of strings is
      a [gset string].
    - A method that can raise returns a [Result]; a method that mutates
      [self] or reads the clock lives in the state monad [M]. *)

From Stdlib Require Import ZArith QArith Lqa String Ascii List.
From stdpp Require Import gmap strings list fin_maps.

Open Scope Z_scope.
Open Scope string_scope.

(** ** Python values *)

Module Py.

Inductive pyfloat :=
| Finite (q : Q)
| Inf (negative : bool)
| NaN.

(** The dynamically typed payloads ([Any]) that travel through the
    observer: metadata entries, agent outputs, step dictionaries. *)
#[warnings="-register-all"]
Inductive Value :=
| VNone
| VBool (b : bool)
| VInt (z : Z)
| VFloat (f : pyfloat)
| VStr (s : string)
| VList (l : list Value)
| VDict (d : gmap string Value).

Inductive exn :=
| RuntimeError (msg : string)
| KeyError (key : string)
| TypeError
| AttributeError
| IndexError
| ValueError
| ZeroDivisionError
| Exception (msg : string).

Inductive Result (A : Type) :=
| Ok (a : A)
| Raise (e : exn).
Arguments Ok {A} a.
Arguments Raise {A} e.

Definition and_then {A B} (r : Result A) (k : A -> Result B) : Result B :=
  match r with
  | Ok a => k a
  | Raise e => Raise e
  end.

(** [bool(v)] *)
Definition truthy (v : Value) : bool :=
  match v with
  | VNone => false
  | VBool b => b
  | VInt z => negb (z =? 0)%Z
  | VFloat (Finite q) => negb (Qeq_bool q 0)
  | VFloat _ => true
  | VStr s => negb (String.eqb s "")
  | VList l => match l with [] => false | _ => true end
  | VDict d => negb (bool_decide (d = ∅))
  end.

Definition fadd (a b : pyfloat) : pyfloat :=
  match a, b with
  | NaN, _ | _, NaN => NaN
  | Finite x, Finite y => Finite (x + y)%Q
  | Inf s, Finite _ | Finite _, Inf s => Inf s
  | Inf s, Inf t => if Bool.eqb s t then Inf s else NaN
  end.

(** The operand of an arithmetic operator: [bool] and [int] are integers,
    [float] is a float, everything else is a [TypeError]. *)
Inductive number :=
| NInt (z : Z)
| NFloat (f : pyfloat).

Definition as_number (v : Value) : option number :=
  match v with
  | VBool b => Some (NInt (if b then 1 else 0))
  | VInt z => Some (NInt z)
  | VFloat f => Some (NFloat f)
  | _ => None
  end.

Definition to_float (n : number) : pyfloat :=
  match n with
  | NInt z => Finite (inject_Z z)
  | NFloat f => f
  end.

Definition of_number (n : number) : Value :=
  match n with
  | NInt z => VInt z
  | NFloat f => VFloat f
  end.

(** [a + b] on numbers: integer when both are, float otherwise. *)
Definition py_add (a b : Value) : Result Value :=
  match as_number a, as_number b with
  | Some (NInt x), Some (NInt y) => Ok (VInt (x + y))
  | Some x, Some y => Ok (VFloat (fadd (to_float x) (to_float y)))
  | _, _ => Raise TypeError
  end.

(** [a / n] for an integer [n]: true division, always a float. *)
Definition py_truediv (a : Value) (n : Z) : Result Value :=
  match as_number a with
  | None => Raise TypeError
  | Some x =>
      if (n =? 0)%Z then Raise ZeroDivisionError
      else Ok (VFloat match to_float x with
                      | Finite q => Finite (q / inject_Z n)%Q
                      | Inf s => Inf (xorb s (n <? 0)%Z)
                      | NaN => NaN
                      end)
  end.

(** [a * n] for a positive integer [n]. *)
Definition py_mul_pos (a : Value) (n : positive) : Result Value :=
  match as_number a with
  | None => Raise TypeError
  | Some (NInt x) => Ok (VInt (x * Z.pos n))
  | Some (NFloat (Finite q)) => Ok (VFloat (Finite (q * inject_Z (Z.pos n))%Q))
  | Some (NFloat f) => Ok (VFloat f)
  end.

(** The rational that a finite number denotes ([True] is 1, [False] is 0). *)
Definition Q_of_value (v : Value) : option Q :=
  match v with
  | VBool b => Some (if b then 1 else 0)%Q
  | VInt z => Some (inject_Z z)
  | VFloat (Finite q) => Some q
  | _ => None
  end.

End Py.
Export Py.

(** ** Python string methods *)

Module PyStr.

Definition code (c : ascii) : N := N_of_ascii c.

Definition between (lo hi : N) (c : ascii) : bool :=
  ((lo <=? code c) && (code c <=? hi))%N.

(** [c.isspace()] for a character of a [str]. *)
Definition is_space (c : ascii) : bool :=
  between 9 13 c || between 28 32 c || (code c =? 133)%N || (code c =? 160)%N.

Definition is_digit (c : ascii) : bool := between 48 57 c.

Definition digit_value (c : ascii) : Z := Z.of_N (code c) - 48.

Fixpoint lstrip (s : string) : string :=
  match s with
  | String c rest => if is_space c then lstrip rest else s
  | EmptyString => EmptyString
  end.

Fixpoint rstrip (s : string) : string :=
  match s with
  | String c rest =>
      match rstrip rest with
      | EmptyString => if is_space c then EmptyString else String c EmptyString
      | kept => String c kept
      end
  | EmptyString => EmptyString
  end.

(** [s.strip()] *)
Definition strip (s : string) : string := rstrip (lstrip s).

(** [s.startswith(p)] *)
Definition startswith (s p : string) : bool := String.prefix p s.

Fixpoint drop (n : nat) (s : string) : string :=
  match n, s with
  | S k, String _ rest => drop k rest
  | _, _ => s
  end.

(** [sep in s] *)
Fixpoint contains (sep s : string) : bool :=
  if String.prefix sep s then true
  else match s with
       | String _ rest => contains sep rest
       | EmptyString => false
       end.

(** [s.split(sep)[0]] for a non-empty [sep]: the text before the first
    occurrence of [sep], all of [s] when there is none. *)
Fixpoint before (sep s : string) : string :=
  if String.prefix sep s then EmptyString
  else match s with
       | String c rest => String c (before sep rest)
       | EmptyString => EmptyString
       end.

(** [s.split(sep, 1)[1]] for a non-empty [sep]: the text after the first
    occurrence of [sep]; an [IndexError] when there is none. *)
Fixpoint after (sep s : string) : Result string :=
  if String.prefix sep s then Ok (drop (String.length sep) s)
  else match s with
       | String _ rest => after sep rest
       | EmptyString => Raise IndexError
       end.

(** [s.split(c)] for a one-character separator. *)
Fixpoint split (c : ascii) (s : string) : list string :=
  match s with
  | EmptyString => [EmptyString]
  | String a rest =>
      if Ascii.eqb a c then EmptyString :: split c rest
      else match split c rest with
           | first :: others => String a first :: others
           | [] => [String a EmptyString]
           end
  end.

Definition map_chars (f : ascii -> ascii) : string -> string :=
  fix go (s : string) : string :=
    match s with
    | String c rest => String (f c) (go rest)
    | EmptyString => EmptyString
    end.

Definition shift_case (delta : Z) (c : ascii) : ascii :=
  ascii_of_N (Z.to_N (Z.of_N (code c) + delta)).

(** [s.lower()]: the letters A-Z and the upper-case letters of Latin-1
    (all of 192-222 but the multiplication sign 215) move 32 places up. *)
Definition lower_char (c : ascii) : ascii :=
  if between 65 90 c || (between 192 222 c && negb (code c =? 215)%N)
  then shift_case 32 c else c.

Definition lower : string -> string := map_chars lower_char.

(** [s.upper()]: the letters a-z and the lower-case letters of Latin-1
    (all of 224-254 but the division sign 247) move 32 places down, the
    sharp s (223) becomes "SS".  The upper-case forms of the micro sign
    (181) and of y with diaeresis (255) are no Latin-1 characters; they
    are left in place, which no comparison with an ASCII word can tell. *)
Fixpoint upper (s : string) : string :=
  match s with
  | String c rest =>
      if (code c =? 223)%N then String "S" (String "S" (upper rest))
      else if between 97 122 c || (between 224 254 c && negb (code c =? 247)%N)
           then String (shift_case (-32) c) (upper rest)
           else String c (upper rest)
  | EmptyString => EmptyString
  end.

(** *** [int(s)] *)

(** The white space that [int] and [float] skip at both ends: the space
    characters of C, after the two space characters above 127 were turned
    into blanks. *)
Definition blank_wide (c : ascii) : ascii :=
  if (code c =? 133)%N || (code c =? 160)%N then " "%char else c.

Definition is_cspace (c : ascii) : bool :=
  between 9 13 c || (code c =? 32)%N.

Fixpoint ltrim (s : string) : string :=
  match s with
  | String c rest => if is_cspace c then ltrim rest else s
  | EmptyString => EmptyString
  end.

Fixpoint rtrim (s : string) : string :=
  match s with
  | String c rest =>
      match rtrim rest with
      | EmptyString => if is_cspace c then EmptyString else String c EmptyString
      | kept => String c kept
      end
  | EmptyString => EmptyString
  end.

Definition trim (s : string) : string := rtrim (ltrim (map_chars blank_wide s)).

(** The default of [sys.int_max_str_digits]. *)
Definition int_max_str_digits : nat := 4300.

(** A digit part: digits with single underscores between them.  [acc] is
    the value and [count] the number of the digits read so far; [open] says
    that the previous character was a digit. *)
Fixpoint digitpart (s : string) (acc : Z) (count : nat) (open : bool) : option (Z * nat) :=
  match s with
  | EmptyString => if open then Some (acc, count) else None
  | String c rest =>
      if is_digit c then digitpart rest (10 * acc + digit_value c) (S count) true
      else if Ascii.eqb c "_" then (if open then digitpart rest acc count false else None)
           else None
  end.

Definition unsigned_int (s : string) : option Z :=
  match digitpart s 0 0 false with
  | Some (v, count) => if (count <=? int_max_str_digits)%nat then Some v else None
  | None => None
  end.

(** [int(s)] in base 10; [None] stands for the [ValueError]. *)
Definition int (s : string) : option Z :=
  match trim s with
  | String "+" rest => unsigned_int rest
  | String "-" rest => Z.opp <$> unsigned_int rest
  | digits => unsigned_int digits
  end.

(** *** [float(s)] *)

(** The underscores of a numeric literal are dropped; each of them must
    stand between two digits. *)
Fixpoint drop_underscores (s : string) (after_digit after_underscore : bool) : option string :=
  match s with
  | EmptyString => if after_underscore then None else Some EmptyString
  | String c rest =>
      if Ascii.eqb c "_" then
        if after_digit then drop_underscores rest false true else None
      else if after_underscore && negb (is_digit c) then None
           else String c <$> drop_underscores rest (is_digit c) false
  end.

(** The longest run of digits at the front of [s]: its value, its length
    and what follows it. *)
Fixpoint digits_prefix (s : string) (acc : Z) (count : nat) : Z * nat * string :=
  match s with
  | String c rest =>
      if is_digit c then digits_prefix rest (10 * acc + digit_value c) (S count)
      else (acc, count, s)
  | EmptyString => (acc, count, s)
  end.

(** An exponent: nothing, or [e] or [E], an optional sign and digits. *)
Definition exponent (s : string) : option Z :=
  match s with
  | EmptyString => Some 0
  | String c rest =>
      if Ascii.eqb c "e" || Ascii.eqb c "E" then
        let '(negative, digits) :=
          match rest with
          | String "+" r => (false, r)
          | String "-" r => (true, r)
          | r => (false, r)
          end in
        match digits_prefix digits 0 0 with
        | (_, O, _) => None
        | (v, _, EmptyString) => Some (if negative then - v else v)
        | _ => None
        end
      else None
  end.

(** A decimal number without sign: digits, an optional point with more
    digits, an optional exponent; at least one digit before the exponent. *)
Definition decimal (s : string) : option Q :=
  let '(int_value, int_count, after_int) := digits_prefix s 0 0 in
  let '(mantissa, frac_count, after_frac) :=
    match after_int with
    | String "." rest => digits_prefix rest int_value 0
    | _ => (int_value, O, after_int)
    end in
  match int_count, frac_count with
  | O, O => None
  | _, _ =>
      match exponent after_frac with
      | Some e => Some (inject_Z mantissa * Qpower (inject_Z 10) (e - Z.of_nat frac_count))%Q
      | None => None
      end
  end.

Definition unsigned_float (negative : bool) (s : string) : option pyfloat :=
  let word := lower s in
  if String.eqb word "inf" || String.eqb word "infinity" then Some (Inf negative)
  else if String.eqb word "nan" then Some NaN
  else match decimal s with
       | Some q => Some (Finite (if negative then - q else q)%Q)
       | None => None
       end.

(** [float(s)]; [None] stands for the [ValueError]. *)
Definition float (s : string) : option pyfloat :=
  match drop_underscores (trim s) false false with
  | None => None
  | Some (String "+" rest) => unsigned_float false rest
  | Some (String "-" rest) => unsigned_float true rest
  | Some body => unsigned_float false body
  end.

End PyStr.

(** ** observer/core/observer.py *)

Module Observer.

(** One element of [session['decisions']]. *)
Record Decision := {
  timestamp : Z;
  agent_id : string;
  inputs : gmap string Value;
  outputs : gmap string Value;
  metadata : gmap string Value
}.

(** [session['metrics']], the four running counters. *)
Record Counters := {
  total_tokens : Z;
  total_time : Z;
  success_count : Z;
  failure_count : Z
}.

(** One value of [self.observations]. *)
Record Session := {
  start_time : Z;
  end_time : option Z;
  decisions : list Decision;
  metrics : Counters
}.

(** The attributes of an [Observer] instance. *)
Record Self := {
  observations : gmap string Session;
  current_session : option string
}.

(** [Observer.__init__] *)
Definition __init__ : Self :=
  {| observations := ∅; current_session := None |}.

(** The observer together with the position reached in the two oracles it
    consults: the clock behind [datetime.now()] and the generator behind
    [uuid.uuid4()]. *)
Record World := {
  self : Self;
  now_calls : nat;
  uuid_calls : nat
}.

Definition M (A : Type) : Type := World -> Result A * World.

Definition ret {A} (a : A) : M A := fun w => (Ok a, w).

Definition bind {A B} (m : M A) (k : A -> M B) : M B :=
  fun w =>
    match m w with
    | (Ok a, w') => k a w'
    | (Raise e, w') => (Raise e, w')
    end.

Definition raise {A} (e : exn) : M A := fun w => (Raise e, w).

(** [try: m finally: fin]: [fin] runs whatever [m] did; an exception of
    [fin] replaces the outcome of [m]. *)
Definition try_finally {A} (m : M A) (fin : M unit) : M A :=
  fun w =>
    let '(r, w1) := m w in
    match fin w1 with
    | (Ok _, w2) => (r, w2)
    | (Raise e, w2) => (Raise e, w2)
    end.

Definition get_self : M Self := fun w => (Ok (self w), w).

Definition put_self (s : Self) : M unit :=
  fun w => (Ok tt, {| self := s; now_calls := now_calls w; uuid_calls := uuid_calls w |}).

Notation "x <- m ;; k" := (bind m (fun x => k))
  (at level 100, m at next level, right associativity).
Notation "m ;; k" := (bind m (fun _ => k))
  (at level 100, right associativity).

(** [str(u)] for a UUID: 32 lower-case hexadecimal digits of the 128-bit
    number in groups of 8-4-4-4-12. *)
Definition hex_digit (n : N) : ascii :=
  match n with
  | 0%N => "0" | 1%N => "1" | 2%N => "2" | 3%N => "3"
  | 4%N => "4" | 5%N => "5" | 6%N => "6" | 7%N => "7"
  | 8%N => "8" | 9%N => "9" | 10%N => "a" | 11%N => "b"
  | 12%N => "c" | 13%N => "d" | 14%N => "e" | _ => "f"
  end%char.

Fixpoint hex_fixed (digits : nat) (n : N) (acc : string) : string :=
  match digits with
  | O => acc
  | S k => hex_fixed k (N.div n 16) (String (hex_digit (N.modulo n 16)) acc)
  end.

Definition str_uuid (u : N) : string :=
  let h := hex_fixed 32 u "" in
  substring 0 8 h ++ "-" ++ substring 8 4 h ++ "-" ++ substring 12 4 h
    ++ "-" ++ substring 16 4 h ++ "-" ++ substring 20 12 h.

(** [not self.current_session]: [None] and the empty string are false. *)
Definition no_session (cur : option string) : bool :=
  match cur with
  | None => true
  | Some s => String.eqb s ""
  end.

(** The dictionary [totals] of [_calculate_averages]; its key
    ['success_rate'] is the field [tot_success_rate]. *)
Record Totals := {
  tot_response_time : Value;
  tot_token_usage : Value;
  tot_success_rate : Value
}.

(** The dictionary returned by [_calculate_averages]. *)
Record Averages := {
  avg_response_time : Value;
  avg_token_usage : Value;
  success_rate : Value
}.

(** The dictionary returned by [get_session_metrics]. *)
Record Metrics := {
  duration : pyfloat;
  decision_count : nat;
  agents : gset string;
  averages : Averages
}.

(** The body of the loop of [_calculate_averages]: lines 94 to 97. *)
Definition accumulate (totals : Totals) (decision : Decision) : Result Totals :=
  let metadata := metadata decision in
  and_then (py_add (tot_response_time totals)
                   (default (VInt 0) (metadata !! "response_time"))) (fun rt =>
  and_then (py_add (tot_token_usage totals)
                   (default (VInt 0) (metadata !! "token_usage"))) (fun tu =>
  and_then (py_add (tot_success_rate totals)
                   (VInt (if truthy (default (VBool false) (metadata !! "success"))
                          then 1 else 0))) (fun sr =>
  Ok {| tot_response_time := rt; tot_token_usage := tu; tot_success_rate := sr |}))).

Fixpoint accumulate_all (totals : Totals) (decisions : list Decision) : Result Totals :=
  match decisions with
  | [] => Ok totals
  | decision :: rest => and_then (accumulate totals decision) (fun t => accumulate_all t rest)
  end.

(** [Observer._calculate_averages] *)
Definition _calculate_averages (decisions : list Decision) : Result Averages :=
  match decisions with
  | [] => Ok {| avg_response_time := VInt 0;
                avg_token_usage := VInt 0;
                success_rate := VInt 0 |}
  | _ =>
      and_then (accumulate_all {| tot_response_time := VInt 0;
                                  tot_token_usage := VInt 0;
                                  tot_success_rate := VInt 0 |} decisions) (fun totals =>
      let count := Z.of_nat (length decisions) in
      and_then (py_truediv (tot_response_time totals) count) (fun art =>
      and_then (py_truediv (tot_token_usage totals) count) (fun atu =>
      and_then (py_truediv (tot_success_rate totals) count) (fun ratio =>
      and_then (py_mul_pos ratio 100) (fun rate =>
      Ok {| avg_response_time := art;
            avg_token_usage := atu;
            success_rate := rate |})))))
  end.

(** [timedelta.total_seconds()] of a difference of two datetimes. *)
Definition total_seconds (microseconds : Z) : pyfloat :=
  Finite (inject_Z microseconds / inject_Z 1000000)%Q.

Section WithOracles.

(** The value of the [i]-th call of [datetime.now()] and of [uuid.uuid4()]. *)
Variable clock : nat -> Z.
Variable uuid4 : nat -> N.

Definition datetime_now : M Z :=
  fun w => (Ok (clock (now_calls w)),
            {| self := self w; now_calls := S (now_calls w); uuid_calls := uuid_calls w |}).

Definition uuid_uuid4 : M N :=
  fun w => (Ok (uuid4 (uuid_calls w)),
            {| self := self w; now_calls := now_calls w; uuid_calls := S (uuid_calls w) |}).

(** The part of [Observer.session] before the [yield]: lines 17 to 29. *)
Definition session_enter (session_name : option string) : M string :=
  session_id <- match session_name with
                | Some n => if String.eqb n "" then u <- uuid_uuid4 ;; ret (str_uuid u)
                            else ret n
                | None => u <- uuid_uuid4 ;; ret (str_uuid u)
                end ;;
  s <- get_self ;;
  put_self {| observations := observations s; current_session := Some session_id |} ;;
  now <- datetime_now ;;
  s <- get_self ;;
  put_self {| observations :=
                <[session_id := {| start_time := now;
                                   end_time := None;
                                   decisions := [];
                                   metrics := {| total_tokens := 0; total_time := 0;
                                                 success_count := 0; failure_count := 0 |} |}]>
                  (observations s);
              current_session := current_session s |} ;;
  ret session_id.

(** The [finally] block of [Observer.session]: lines 34 to 36. *)
Definition session_exit : M unit :=
  s <- get_self ;;
  if no_session (current_session s) then ret tt
  else
    now <- datetime_now ;;
    s <- get_self ;;
    match current_session s ≫= (fun cur => observations s !! cur ≫= fun sess => Some (cur, sess)) with
    | None => raise (KeyError (default "" (current_session s)))
    | Some (cur, sess) =>
        put_self {| observations :=
                      <[cur := {| start_time := start_time sess;
                                  end_time := Some now;
                                  decisions := decisions sess;
                                  metrics := metrics sess |}]> (observations s);
                    current_session := current_session s |} ;;
        s <- get_self ;;
        put_self {| observations := observations s; current_session := None |}
    end.

(** [with observer.session(session_name) as session_id: body session_id] *)
Definition session {A} (session_name : option string) (body : string -> M A) : M A :=
  session_id <- session_enter session_name ;;
  try_finally (body session_id) session_exit.

(** [Observer.track_decision] *)
Definition track_decision (agent_id : string) (inputs outputs : gmap string Value)
    (metadata : option (gmap string Value)) : M unit :=
  s <- get_self ;;
  if no_session (current_session s)
  then raise (RuntimeError "No active session. Use 'with observer.session():' to create one.")
  else
    now <- datetime_now ;;
    let decision := {| timestamp := now;
                       agent_id := agent_id;
                       inputs := inputs;
                       outputs := outputs;
                       metadata := default ∅ metadata |} in
    s <- get_self ;;
    match current_session s ≫= (fun cur => observations s !! cur ≫= fun sess => Some (cur, sess)) with
    | None => raise (KeyError (default "" (current_session s)))
    | Some (cur, sess) =>
        put_self {| observations :=
                      <[cur := {| start_time := start_time sess;
                                  end_time := end_time sess;
                                  decisions := decisions sess ++ [decision];
                                  metrics := metrics sess |}]> (observations s);
                    current_session := current_session s |}
    end.

(** [Observer.get_session_metrics] *)
Definition get_session_metrics (session_id : string) : M Metrics :=
  s <- get_self ;;
  match observations s !! session_id with
  | None => raise (KeyError ("Session " ++ session_id ++ " not found"))
  | Some session =>
      let decisions := decisions session in
      end_time <- match end_time session with
                  | Some e => ret e
                  | None => datetime_now
                  end ;;
      let duration := total_seconds (end_time - start_time session) in
      match _calculate_averages decisions with
      | Raise e => raise e
      | Ok avgs =>
          ret {| duration := duration;
                 decision_count := length decisions;
                 agents := list_to_set (agent_id <$> decisions);
                 averages := avgs |}
      end
  end.

(** *** Client code

    The work enclosed by a [with observer.session(...)] block, as far as
    the observer sees it: calls of its methods, nested blocks, [return]
    and [raise]. *)
#[warnings="-register-all"]
Inductive Stmt :=
| TrackDecision (agent_id : string) (inputs outputs : gmap string Value)
    (metadata : option (gmap string Value))
| GetSessionMetrics (session_id : string)
| WithSession (session_name : option string) (body : list Stmt)
| Return
| RaiseStmt (e : exn).

(** How a block ends when it does not raise. *)
Inductive Flow :=
| Fallthrough
| Returned.

Fixpoint exec (st : Stmt) : M Flow :=
  match st with
  | TrackDecision a i o m => track_decision a i o m ;; ret Fallthrough
  | GetSessionMetrics sid => get_session_metrics sid ;; ret Fallthrough
  | WithSession name body =>
      session name (fun _ =>
        (fix exec_block (sts : list Stmt) : M Flow :=
           match sts with
           | [] => ret Fallthrough
           | st' :: rest =>
               f <- exec st' ;;
               match f with
               | Fallthrough => exec_block rest
               | Returned => ret Returned
               end
           end) body)
  | Return => ret Returned
  | RaiseStmt e => raise e
  end.

Fixpoint exec_block (sts : list Stmt) : M Flow :=
  match sts with
  | [] => ret Fallthrough
  | st :: rest =>
      f <- exec st ;;
      match f with
      | Fallthrough => exec_block rest
      | Returned => ret Returned
      end
  end.

End WithOracles.

End Observer.

(** ** observer/adapters/enhanced_agent.py: the data classes *)

Inductive DecisionConfidence :=
| LOW
| MEDIUM
| HIGH.

(** The arguments of the pydantic class [ThoughtStep] are kept as they are
    given; its validation of their types is not part of the model. *)
Record ThoughtStep := {
  thought : Value;
  reasoning : Value;
  confidence : DecisionConfidence;
  supporting_evidence : Value;
  alternatives_considered : Value
}.

Record DecisionPath := {
  task : string;
  context : gmap string Value;
  steps : list ThoughtStep;
  final_decision : Value;
  confidence_score : Value;
  reasoning_chain : Value
}.

(** [DecisionPath(task=task, context=context)] with the defaults of the
    other fields. *)
Definition new_decision_path (task : string) (context : gmap string Value) : DecisionPath :=
  {| task := task;
     context := context;
     steps := [];
     final_decision := VNone;
     confidence_score := VFloat (Finite 0);
     reasoning_chain := VNone |}.

(** ** observer/adapters/swarm_adapter.py *)

Module SwarmAdapter.

(** [confidence < bound] for a float literal [bound]. *)
Definition less_than (confidence : Value) (bound : Q) : Result bool :=
  match as_number confidence with
  | Some (NInt z) => Ok (if Qlt_le_dec (inject_Z z) bound then true else false)
  | Some (NFloat (Finite q)) => Ok (if Qlt_le_dec q bound then true else false)
  | Some (NFloat (Inf negative)) => Ok negative
  | Some (NFloat NaN) => Ok false
  | None => Raise TypeError
  end.

(** [SwarmAdapter._convert_swarm_confidence] *)
Definition _convert_swarm_confidence (confidence : Value) : Result DecisionConfidence :=
  and_then (less_than confidence (4 # 10)) (fun low =>
  if low then Ok LOW
  else and_then (less_than confidence (7 # 10)) (fun medium =>
       if medium then Ok MEDIUM
       else Ok HIGH)).

End SwarmAdapter.

(** ** observer/adapters/enhanced_agent.py: class [EnhancedAgent] *)

Module EnhancedAgent.

Import PyStr.

(** [EnhancedAgent._determine_confidence] *)
Definition _determine_confidence (text : string) : DecisionConfidence :=
  if contains "uncertain" (lower text) || contains "unclear" (lower text) then LOW
  else if contains "likely" (lower text) || contains "probably" (lower text) then MEDIUM
  else HIGH.

(** The [try] block of [_parse_alternatives] with its handler: lines 247
    to 257, as a function of [feasibility_text]. *)
Definition parse_feasibility (feasibility_text : string) : Z :=
  let attempt :=
    if contains "/" feasibility_text then
      let numerator := strip (before "/" feasibility_text) in
      int numerator
    else if contains "out of" feasibility_text then
      let numerator := strip (before "out of" feasibility_text) in
      int numerator
    else int feasibility_text in
  match attempt with
  | Some value => value
  | None => 5
  end.

(** The state of the loop of [_parse_alternatives].  The dictionaries live
    in [heap]; [current_alt] and the elements of [alternatives] are
    references into it, so that a dictionary appended twice, or written
    after it was appended, is one object. *)
Record AltLoop := {
  heap : list (gmap string Value);
  current_alt : nat;
  alternatives : list nat
}.

(** [current_alt[key] = value] *)
Definition store (key : string) (value : Value) (st : AltLoop) : AltLoop :=
  {| heap := alter (insert key value) (current_alt st) (heap st);
     current_alt := current_alt st;
     alternatives := alternatives st |}.

(** The body of the loop: one line of the text. *)
Definition alternatives_line (line : string) (st : AltLoop) : Result AltLoop :=
  if startswith line "START_ALTERNATIVE" then
    Ok {| heap := heap st ++ [∅];
          current_alt := length (heap st);
          alternatives := alternatives st |}
  else if startswith line "Approach:" then
    and_then (after ":" line) (fun text => Ok (store "approach" (VStr (strip text)) st))
  else if startswith line "Advantages:" then
    and_then (after ":" line) (fun text => Ok (store "advantages" (VStr (strip text)) st))
  else if startswith line "Disadvantages:" then
    and_then (after ":" line) (fun text => Ok (store "disadvantages" (VStr (strip text)) st))
  else if startswith line "Feasibility:" then
    and_then (after ":" line) (fun text =>
      let feasibility_text := strip text in
      Ok (store "feasibility" (VInt (parse_feasibility feasibility_text)) st))
  else if startswith line "END_ALTERNATIVE" then
    Ok {| heap := heap st;
          current_alt := current_alt st;
          alternatives := alternatives st ++ [current_alt st] |}
  else Ok st.

Fixpoint alternatives_lines (lines : list string) (st : AltLoop) : Result AltLoop :=
  match lines with
  | [] => Ok st
  | line :: rest => and_then (alternatives_line line st) (alternatives_lines rest)
  end.

(** [EnhancedAgent._parse_alternatives] *)
Definition _parse_alternatives (alternatives_text : string) : Result (list (gmap string Value)) :=
  and_then (alternatives_lines (split "010" alternatives_text)
              {| heap := [∅]; current_alt := 0; alternatives := [] |}) (fun st =>
  Ok ((fun ref => default ∅ (heap st !! ref)) <$> alternatives st)).

(** The dictionary [decision_data] of [_parse_final_decision]; its keys
    ["decision"], ["confidence"] and ["reasoning"] are the fields
    [data_decision], [data_confidence] and [data_reasoning]. *)
Record DecisionData := {
  data_decision : string;
  data_confidence : pyfloat;
  data_reasoning : string
}.

Definition final_decision_line (line : string) (data : DecisionData) : Result DecisionData :=
  if startswith line "Decision:" then
    and_then (after ":" line) (fun text =>
      Ok {| data_decision := strip text;
            data_confidence := data_confidence data;
            data_reasoning := data_reasoning data |})
  else if startswith line "Confidence:" then
    and_then (after ":" line) (fun text =>
      Ok {| data_decision := data_decision data;
            data_confidence := match float (strip text) with
                          | Some value => value
                          | None => Finite 0
                          end;
            data_reasoning := data_reasoning data |})
  else if startswith line "Reasoning:" then
    and_then (after ":" line) (fun text =>
      Ok {| data_decision := data_decision data;
            data_confidence := data_confidence data;
            data_reasoning := strip text |})
  else Ok data.

Fixpoint final_decision_lines (lines : list string) (data : DecisionData) : Result DecisionData :=
  match lines with
  | [] => Ok data
  | line :: rest => and_then (final_decision_line line data) (final_decision_lines rest)
  end.

(** [EnhancedAgent._parse_final_decision] *)
Definition _parse_final_decision (decision_text : string) : Result DecisionData :=
  final_decision_lines (split "010" decision_text)
    {| data_decision := ""; data_confidence := Finite 0; data_reasoning := "" |}.

(** [EnhancedAgent.analyze_task], as a function of the four answers that
    [_get_llm_response] returns, in the order of the calls. *)
Definition analyze_task (task : string) (context : gmap string Value)
    (initial_analysis alternatives tradeoff_analysis final_decision : string)
    : Result DecisionPath :=
  let step1 := {| thought := VStr "Initial Problem Analysis";
                  reasoning := VStr initial_analysis;
                  confidence := _determine_confidence initial_analysis;
                  supporting_evidence := VDict {[ "context" := VDict context ]};
                  alternatives_considered := VList [] |} in
  and_then (_parse_alternatives alternatives) (fun parsed_alternatives =>
  let step2 := {| thought := VStr "Alternative Solutions";
                  reasoning := VStr "Exploring different approaches";
                  confidence := _determine_confidence alternatives;
                  supporting_evidence := VDict {[ "initial_analysis" := VStr initial_analysis ]};
                  alternatives_considered := VList (VDict <$> parsed_alternatives) |} in
  let step3 := {| thought := VStr "Trade-off Analysis";
                  reasoning := VStr tradeoff_analysis;
                  confidence := _determine_confidence tradeoff_analysis;
                  supporting_evidence := VDict {[ "alternatives" := VStr alternatives ]};
                  alternatives_considered := VList [] |} in
  and_then (_parse_final_decision final_decision) (fun parsed_decision =>
  Ok {| task := task;
        context := context;
        steps := [step1; step2; step3];
        final_decision := VStr (data_decision parsed_decision);
        confidence_score := VFloat (data_confidence parsed_decision);
        reasoning_chain :=
          VDict {[ "initial_analysis" := VStr initial_analysis;
                   "alternatives" := VStr alternatives;
                   "tradeoffs" := VStr tradeoff_analysis;
                   "final_reasoning" := VStr (data_reasoning parsed_decision) ]} |})).

End EnhancedAgent.

(** ** observer/adapters/base.py: class [GenericAgentAdapter]

    Of this class the label reader [_determine_confidence] is embedded.
    Its [convert_to_decision_path] is not: it builds its result with the
    classes that [base.py] imports from [core/decision.py], where no
    [ThoughtStep] is defined and [DecisionPath] has no [final_decision]
    and no [confidence_score]. *)

Module GenericAgentAdapter.

Import PyStr.

(** [GenericAgentAdapter._determine_confidence]; the label it returns is
    given as the member of [DecisionConfidence] that [ThoughtStep] makes
    of it. *)
Definition _determine_confidence (step : gmap string Value) : Result DecisionConfidence :=
  match default (VStr "") (step !! "confidence") with
  | VStr text =>
      let confidence := upper text in
      if String.eqb confidence "LOW" then Ok LOW
      else if String.eqb confidence "MEDIUM" then Ok MEDIUM
      else if String.eqb confidence "HIGH" then Ok HIGH
      else Ok MEDIUM
  | _ => Raise AttributeError
  end.

(** The elements that [for step in v] visits. *)
Definition iterate (v : Value) : Result (list Value) :=
  match v with
  | VList l => Ok l
  | VDict d => Ok ((fun entry => VStr (fst entry)) <$> map_to_list d)
  | VStr s => Ok ((fun c => VStr (String c EmptyString)) <$> list_ascii_of_string s)
  | _ => Raise TypeError
  end.

End GenericAgentAdapter.

(** ** observer/adapters/swarm_adapter.py: the conversion of a SWARM output

    The loop over the execution path (lines 23 to 32) is embedded with the
    arguments of [ThoughtStep] kept as they are given.  The path is the
    record above; what the class that the file imports does on the
    assignments of lines 36 to 38 is not part of the embedding, and no
    property below speaks of it. *)

Module SwarmConversion.

Import SwarmAdapter.

(** The attributes of a SWARM output that the adapter looks at; [None]
    stands for an attribute that the object does not have. *)
Record SwarmOutput := {
  attr_execution_path : option Value;
  attr_result : option Value;
  attr_confidence : option Value;
  attr_reasoning : option Value;
  attr_metrics : option Value
}.

(** The body of the loop of [_extract_swarm_alternatives]: lines 59 to 64. *)
Definition alternative_of (action : Value) : Result (gmap string Value) :=
  match action with
  | VDict a =>
      Ok (<["feasibility" := default (VInt 5) (a !! "feasibility_score")]>
            (<["disadvantages" := default (VList []) (a !! "cons")]>
               (<["advantages" := default (VList []) (a !! "pros")]>
                  (<["approach" := default (VStr "Unknown") (a !! "name")]> ∅))))
  | _ => Raise AttributeError
  end.

Fixpoint alternatives_of (actions : list Value) : Result (list (gmap string Value)) :=
  match actions with
  | [] => Ok []
  | action :: rest =>
      and_then (alternative_of action) (fun first =>
      and_then (alternatives_of rest) (fun others => Ok (first :: others)))
  end.

(** [SwarmAdapter._extract_swarm_alternatives] *)
Definition _extract_swarm_alternatives (step : gmap string Value)
    : Result (list (gmap string Value)) :=
  match step !! "considered_actions" with
  | Some actions => and_then (GenericAgentAdapter.iterate actions) alternatives_of
  | None => Ok []
  end.

(** The body of the loop over [swarm_output.execution_path]: lines 24 to
    32. *)
Definition convert_step (step : Value) : Result ThoughtStep :=
  match step with
  | VDict d =>
      and_then (_convert_swarm_confidence
                  (default (VFloat (Finite (5 # 10))) (d !! "confidence"))) (fun level =>
      and_then (_extract_swarm_alternatives d) (fun alternatives =>
      Ok {| thought := default (VStr "Unknown action") (d !! "action");
            reasoning := default (VStr "No reasoning provided") (d !! "reasoning");
            confidence := level;
            supporting_evidence := VDict {[ "swarm_data" := default (VDict ∅) (d !! "data") ]};
            alternatives_considered := VList (VDict <$> alternatives) |}))
  | _ => Raise AttributeError
  end.

Fixpoint convert_steps (items : list Value) : Result (list ThoughtStep) :=
  match items with
  | [] => Ok []
  | step :: rest =>
      and_then (convert_step step) (fun first =>
      and_then (convert_steps rest) (fun others => Ok (first :: others)))
  end.

Section WithStr.

(** [str(v)], the text that Python prints for a value. *)
Variable str : Value -> string.

(** [SwarmAdapter.convert_to_decision_path] *)
Definition convert_to_decision_path (task : string) (swarm_output : SwarmOutput)
    (context : option (gmap string Value)) : Result DecisionPath :=
  let decision := new_decision_path task (default ∅ context) in
  and_then (match attr_execution_path swarm_output with
            | Some path => and_then (GenericAgentAdapter.iterate path) convert_steps
            | None => Ok []
            end) (fun new_steps =>
  match attr_result swarm_output with
  | Some result =>
      Ok {| task := task;
            context := default ∅ context;
            steps := new_steps;
            final_decision := VStr (str result);
            confidence_score :=
              default (VFloat (Finite (5 # 10))) (attr_confidence swarm_output);
            reasoning_chain :=
              VDict {[ "swarm_reasoning" := default (VDict ∅) (attr_reasoning swarm_output);
                       "swarm_metrics" := default (VDict ∅) (attr_metrics swarm_output) ]} |}
  | None =>
      Ok {| task := task;
            context := default ∅ context;
            steps := new_steps;
            final_decision := final_decision decision;
            confidence_score := confidence_score decision;
            reasoning_chain := reasoning_chain decision |}
  end).

End WithStr.

End SwarmConversion.

(** ** observer/core/decision.py *)

Module CoreDecision.

(** One element of [DecisionPath.steps]. *)
Record Step := {
  name : string;
  timestamp : Z;
  inputs : gmap string Value;
  outputs : gmap string Value;
  reasoning : option (gmap string Value)
}.

(** The dictionary that [set_outcome] stores. *)
Record Outcome := {
  decision : Value;
  outcome_timestamp : Z;
  confidence : option Value;
  outcome_reasoning : option (gmap string Value)
}.

(** The fields of the class [DecisionPath] of [core/decision.py].  The
    field [outcome] is [None] for the empty dictionary it starts with. *)
Record DecisionPath := {
  task : string;
  task_id : string;
  created : Z;
  context : gmap string Value;
  steps : list Step;
  outcome : option Outcome;
  path_reasoning : option (list (gmap string Value));
  metrics : option (gmap string Value);
  metadata : option (gmap string Value)
}.

(** [DecisionPath.add_step]; [now] is what [datetime.now()] returns. *)
Definition add_step (now : Z) (step_name : string) (step_inputs step_outputs : gmap string Value)
    (step_reasoning : option (gmap string Value)) (self : DecisionPath) : DecisionPath :=
  {| task := task self; task_id := task_id self; created := created self;
     context := context self;
     steps := steps self ++ [ {| name := step_name; timestamp := now;
                                 inputs := step_inputs; outputs := step_outputs;
                                 reasoning := step_reasoning |} ];
     outcome := outcome self; path_reasoning := path_reasoning self;
     metrics := metrics self; metadata := metadata self |}.

(** [DecisionPath.set_outcome] *)
Definition set_outcome (now : Z) (answer : Value) (answer_confidence : option Value)
    (answer_reasoning : option (gmap string Value)) (self : DecisionPath) : DecisionPath :=
  {| task := task self; task_id := task_id self; created := created self;
     context := context self; steps := steps self;
     outcome := Some {| decision := answer; outcome_timestamp := now;
                        confidence := answer_confidence;
                        outcome_reasoning := answer_reasoning |};
     path_reasoning := path_reasoning self;
     metrics := metrics self; metadata := metadata self |}.

(** [DecisionPath.add_metric] *)
Definition add_metric (metric : string) (value : Value) (self : DecisionPath) : DecisionPath :=
  let current := match metrics self with
                 | None => ∅
                 | Some m => m
                 end in
  {| task := task self; task_id := task_id self; created := created self;
     context := context self; steps := steps self; outcome := outcome self;
     path_reasoning := path_reasoning self;
     metrics := Some (<[metric := value]> current);
     metadata := metadata self |}.

End CoreDecision.

(** ** Coroutines over the observer

    [swarms.py] awaits the agents of a workflow.  An awaited call can end
    in a way that a plain call of this embedding cannot: with an
    exception outside the class [Exception]. *)

Module Coroutine.

Import Observer.

(** How an awaited call ends: it settles, with a value or with an
    exception of the class [Exception], or it is interrupted by an
    exception outside that class ([asyncio.CancelledError],
    [KeyboardInterrupt]), which no [except Exception] catches. *)
Inductive awaited (A : Type) :=
| Settled (r : Result A)
| Interrupted (name : string).
Arguments Settled {A} r.
Arguments Interrupted {A} name.

Coercion Settled : Result >-> awaited.

(** A coroutine over the state of the observer. *)
Definition C (A : Type) : Type := World -> awaited A * World.

Definition cbind {A B} (m : C A) (k : A -> C B) : C B :=
  fun w =>
    match m w with
    | (Settled (Ok a), w') => k a w'
    | (Settled (Raise e), w') => (Settled (Raise e), w')
    | (Interrupted name, w') => (Interrupted name, w')
    end.

Notation "x <~ m ;; k" := (cbind m (fun x => k))
  (at level 100, m at next level, right associativity).
Notation "m ;;; k" := (cbind m (fun _ => k))
  (at level 100, right associativity).

(** A call of a method of the observer, or another step that cannot be
    interrupted. *)
Definition call {A} (m : M A) : C A :=
  fun w => let '(r, w') := m w in (Settled r, w').

(** An awaited call. *)
Definition await {A} (outcome : awaited A) : C A := fun w => (outcome, w).

(** [try: m except Exception as e: handler e] *)
Definition try_except {A} (m : C A) (handler : exn -> C A) : C A :=
  fun w =>
    match m w with
    | (Settled (Raise e), w') => handler e w'
    | done => done
    end.

(** [try: m finally: fin], as in [Observer.session]: [fin] runs however
    [m] ended. *)
Definition cfinally {A} (m : C A) (fin : M unit) : C A :=
  fun w =>
    let '(r, w1) := m w in
    match fin w1 with
    | (Ok _, w2) => (r, w2)
    | (Raise e, w2) => (Settled (Raise e), w2)
    end.

(** Reading an attribute that the object may lack. *)
Definition attribute {A} (value : option A) : C A :=
  match value with
  | Some a => call (ret a)
  | None => call (raise AttributeError)
  end.

End Coroutine.
Export Coroutine.

(** ** observer/adapters/swarms.py: class [SwarmObserver]

    The coroutine [wrapped_run] is followed from its start to its end;
    what it awaits, the [run] of an agent or of the workflow, is a call
    that does not use the observer. *)

Module SwarmObserver.

Import Observer.

(** An agent of a workflow: whether it has a [run] attribute, its
    [agent_name] ([None] when it has no such attribute), and how awaiting
    its [run] ends. *)
Record Agent := {
  has_run : bool;
  agent_name : option string;
  run : awaited Value
}.

(** A workflow: the decimal text of [id(workflow)], its agents, and how
    awaiting its own [run] ends. *)
Record Workflow := {
  id_text : string;
  agents : list Agent;
  original_run : awaited Value
}.

Section WithEnvironment.

Variable clock : nat -> Z.
Variable uuid4 : nat -> N.

(** [str(e)], the message of an exception. *)
Variable str : exn -> string.

(** [with self.observer.session(name) as session_id: body session_id]
    around the body of a coroutine: the two halves of [Observer.session]
    around it. *)
Definition with_session {A} (session_name : option string) (body : string -> C A) : C A :=
  session_id <~ call (session_enter clock uuid4 session_name) ;;
  cfinally (body session_id) (session_exit clock).

(** The body of the loop over [workflow.agents]: lines 22 to 52. *)
Definition run_agent (task : string) (agent : Agent) : C unit :=
  if has_run agent then
    start_time <~ call (datetime_now clock) ;;
    try_except
      (result <~ await (run agent) ;;
       name <~ attribute (agent_name agent) ;;
       now <~ call (datetime_now clock) ;;
       call (track_decision clock name
               {[ "task" := VStr task ]}
               {[ "result" := result ]}
               (Some {[ "response_time" := VFloat (total_seconds (now - start_time));
                        "success" := VBool true ]})))
      (fun e =>
         name <~ attribute (agent_name agent) ;;
         now <~ call (datetime_now clock) ;;
         call (track_decision clock name
                 {[ "task" := VStr task ]}
                 {[ "error" := VStr (str e) ]}
                 (Some {[ "response_time" := VFloat (total_seconds (now - start_time));
                          "success" := VBool false ]})) ;;;
         call (raise e))
  else call (ret tt).

Fixpoint run_agents (task : string) (agents : list Agent) : C unit :=
  match agents with
  | [] => call (ret tt)
  | agent :: rest => run_agent task agent ;;; run_agents task rest
  end.

(** The coroutine [wrapped_run] that [observe_workflow] installs. *)
Definition wrapped_run (workflow : Workflow) (task : string) : C Value :=
  with_session (Some ("workflow_" ++ id_text workflow)) (fun session_id =>
    try_except
      (run_agents task (agents workflow) ;;;
       result <~ await (original_run workflow) ;;
       call (ret result))
      (fun e =>
         call (track_decision clock "workflow"
                 {[ "task" := VStr task ]}
                 {[ "error" := VStr (str e) ]}
                 (Some {[ "success" := VBool false ]})) ;;;
         call (raise e))).

(** [SwarmObserver.get_metrics] *)
Definition get_metrics (session_id : string) : M Metrics :=
  get_session_metrics clock session_id.

End WithEnvironment.

End SwarmObserver.

(** ** observer/adapters/enhanced_agent.py: the calls of the language model *)

Module LanguageModel.

Section WithStr.

(** [str(e)], the message of an exception. *)
Variable str : exn -> string.

(** [EnhancedAgent._get_llm_response], as a function of what the call of
    the client gives: the content of the first choice, or an exception.
    The handler prints the message and returns it as the answer. *)
Definition _get_llm_response (completion : Result string) : string :=
  match completion with
  | Ok content => content
  | Raise e => "Error: " ++ str e
  end.

(** [EnhancedAgent.analyze_task] with its four calls of
    [_get_llm_response], in their order. *)
Definition analyze_task (task : string) (context : gmap string Value)
    (analysis_call alternatives_call tradeoff_call decision_call : Result string)
    : Result DecisionPath :=
  EnhancedAgent.analyze_task task context
    (_get_llm_response analysis_call)
    (_get_llm_response alternatives_call)
    (_get_llm_response tradeoff_call)
    (_get_llm_response decision_call).

End WithStr.

End LanguageModel.

(** * Vocabulary of the properties

    The notions in which the properties below are stated, and the concrete
    runs on which they are exercised. *)

Import Observer.

(** ** The observer *)

(** The world right after [Observer()], before any oracle was consulted. *)
Definition fresh_world : World :=
  {| self := __init__; now_calls := O; uuid_calls := O |}.

(** The session dictionary that [Observer.session] stores on entry. *)
Definition new_session (now : Z) : Session :=
  {| start_time := now;
     end_time := None;
     decisions := [];
     metrics := {| total_tokens := 0; total_time := 0;
                   success_count := 0; failure_count := 0 |} |}.

Definition zero_averages : Averages :=
  {| avg_response_time := VInt 0; avg_token_usage := VInt 0; success_rate := VInt 0 |}.

(** *** The averages in the specification's words *)

(** The value of a numeric metadata key, a missing key counting as 0. *)
Definition metadata_number (key : string) (d : Decision) : Q :=
  match metadata d !! key with
  | Some v => default 0%Q (Q_of_value v)
  | None => 0%Q
  end.

(** [metadata.success == true] *)
Definition succeeded (d : Decision) : bool :=
  match metadata d !! "success" with
  | Some (VBool true) => true
  | _ => false
  end.

Fixpoint Qsum (l : list Q) : Q :=
  match l with
  | [] => 0
  | x :: rest => x + Qsum rest
  end%Q.

Definition arithmetic_mean (l : list Q) : Q :=
  (Qsum l / inject_Z (Z.of_nat (length l)))%Q.

Definition successes (ds : list Decision) : nat :=
  length (List.filter succeeded ds).

(** The two numeric metadata keys hold finite numbers where present;
    ["success"] may hold anything. *)
Definition numeric_metadata (d : Decision) : Prop :=
  (forall v, metadata d !! "response_time" = Some v -> is_Some (Q_of_value v))
  /\ (forall v, metadata d !! "token_usage" = Some v -> is_Some (Q_of_value v)).

(** [bool(metadata.get('success', False))] *)
Definition counted (d : Decision) : bool :=
  truthy (default (VBool false) (metadata d !! "success")).

(** *** Where floats are exact

    The numbers of this embedding are rationals and its operations are
    exact.  Python's floats are the rationals [m * 2 ^ e] below, and an
    operation on them gives the float nearest to the exact result, which
    is the exact result when that is a float.  Where every operand and
    every result of a computation is such a rational, Python computes
    what the embedding computes. *)
Definition binary64 (q : Q) : Prop :=
  exists m e : Z,
    Z.abs m < 2 ^ 53 /\ -1074 <= e <= 971 /\ (q == inject_Z m * 2 ^ e)%Q.

(** Every term and every running total of the sum is a float. *)
Fixpoint exact_sums (total : Q) (terms : list Q) : Prop :=
  match terms with
  | [] => True
  | x :: rest =>
      binary64 x /\ binary64 (total + x)%Q /\ exact_sums (total + x)%Q rest
  end.

(** No step of [_calculate_averages] rounds: the count, the terms and
    running totals of the two sums, the two means, the share of the
    successes and that share times 100 are floats. *)
Definition exact_averages (ds : list Decision) : Prop :=
  let n := inject_Z (Z.of_nat (length ds)) in
  let k := inject_Z (Z.of_nat (length (List.filter counted ds))) in
  binary64 n
  /\ exact_sums 0 (metadata_number "response_time" <$> ds)
  /\ exact_sums 0 (metadata_number "token_usage" <$> ds)
  /\ binary64 (arithmetic_mean (metadata_number "response_time" <$> ds))
  /\ binary64 (arithmetic_mean (metadata_number "token_usage" <$> ds))
  /\ binary64 (k / n)%Q
  /\ binary64 (k / n * 100)%Q.

(** The identifier chosen on line 17: the given name unless it is missing
    or empty, else the text of a new UUID. *)
Definition chosen_id (uuid4 : nat -> N) (session_name : option string) (w : World) : string :=
  match session_name with
  | Some n => if String.eqb n "" then str_uuid (uuid4 (uuid_calls w)) else n
  | None => str_uuid (uuid4 (uuid_calls w))
  end.

(** A block that opens no session scope of its own. *)
Definition opens_scope (st : Stmt) : bool :=
  match st with
  | WithSession _ _ => true
  | _ => false
  end.

Definition flat (body : list Stmt) : Prop :=
  Forall (fun st => opens_scope st = false) body.

(** The current-session pointer, when set, names a stored session. *)
Definition pointer_valid (w : World) : Prop :=
  match current_session (self w) with
  | None => True
  | Some cur => cur <> "" /\ is_Some (observations (self w) !! cur)
  end.

(** Every stored session started no later than the next clock reading,
    and ended, if it has, no earlier than it started. *)
Definition timely (clock : nat -> Z) (w : World) : Prop :=
  forall sid s,
    observations (self w) !! sid = Some s ->
    start_time s <= clock (now_calls w)
    /\ (forall e, end_time s = Some e -> start_time s <= e).

(** The world in which the enclosed block starts. *)
Definition entered (clock : nat -> Z) (uuid4 : nat -> N) (name : option string) (w : World)
    : World :=
  {| self := {| observations :=
                  <[chosen_id uuid4 name w := new_session (clock (now_calls w))]>
                    (observations (self w));
                current_session := Some (chosen_id uuid4 name w) |};
     now_calls := S (now_calls w);
     uuid_calls := match name with
                   | Some n => if String.eqb n "" then S (uuid_calls w) else uuid_calls w
                   | None => S (uuid_calls w)
                   end |}.

(** The world left by the [finally] block when the pointer is valid. *)
Definition closed (clock : nat -> Z) (cur : string) (sess : Session) (w : World) : World :=
  {| self := {| observations :=
                  <[cur := {| start_time := start_time sess;
                              end_time := Some (clock (now_calls w));
                              decisions := decisions sess;
                              metrics := metrics sess |}]> (observations (self w));
                current_session := None |};
     now_calls := S (now_calls w);
     uuid_calls := uuid_calls w |}.

(** What a statement other than a nested scope leaves alone. *)
Definition keeps (w w' : World) : Prop :=
  current_session (self w') = current_session (self w)
  /\ (now_calls w <= now_calls w')%nat
  /\ (forall sid s,
        observations (self w) !! sid = Some s ->
        exists s', observations (self w') !! sid = Some s'
                   /\ start_time s' = start_time s
                   /\ end_time s' = end_time s).

(** What every statement preserves. *)
Definition preserves (clock : nat -> Z) (w w' : World) : Prop :=
  (now_calls w <= now_calls w')%nat
  /\ (pointer_valid w -> pointer_valid w')
  /\ (timely clock w -> timely clock w').

(** ** Text *)

(** [sep] occurs somewhere in [s]. *)
Definition occurs (sep s : string) : Prop :=
  exists front back, s = front ++ sep ++ back.

(** A decimal numeral is a non-empty string of the digits 0 to 9; its
    value is read from the left. *)
Fixpoint all_digits (s : string) : bool :=
  match s with
  | String c rest => PyStr.is_digit c && all_digits rest
  | EmptyString => true
  end.

Definition numeral (s : string) : Prop :=
  s <> "" /\ all_digits s = true.

(** Some character of the text is one of the digits 0 to 9. *)
Fixpoint has_digit (s : string) : bool :=
  match s with
  | String c rest => PyStr.is_digit c || has_digit rest
  | EmptyString => false
  end.

Fixpoint decimal_value (s : string) (acc : Z) : Z :=
  match s with
  | String c rest => decimal_value rest (10 * acc + PyStr.digit_value c)
  | EmptyString => acc
  end.

(** An answer of the language model, line by line. *)
Definition text_of (lines : list string) : string :=
  String.concat (String "010" "") lines.

(** ** Confidence scores *)

(** The score is a finite number between 0 and 1. *)
Definition in_unit_interval (v : Value) : Prop :=
  exists q, Q_of_value v = Some q /\ (0 <= q <= 1)%Q.

(** The confidence held by [decision_data] is the initial 0.0 (also the
    fallback of the handler), or what [float] read on a "Confidence:"
    line of the text. *)
Definition confidence_from (lines : list string) (value : pyfloat) : Prop :=
  value = Finite 0
  \/ exists line text,
       In line lines
       /\ PyStr.startswith line "Confidence:" = true
       /\ PyStr.after ":" line = Ok text
       /\ PyStr.float (PyStr.strip text) = Some value.

(** ** Concrete runs *)

(** A clock that advances by one second per reading, and a UUID source
    that counts. *)
Definition second_clock (i : nat) : Z := 1000000 * Z.of_nat i.

Definition counting_uuid (i : nat) : N := N.of_nat i.

(** The scenario of the specification: two decisions of one agent in
    session "s1", one successful after 1.0 s, one failed after 3.0 s. *)
Definition scenario : Stmt :=
  WithSession (Some "s1")
    [ TrackDecision "agentA" ∅ ∅
        (Some {[ "success" := VBool true; "response_time" := VFloat (Finite 1) ]});
      TrackDecision "agentA" ∅ ∅
        (Some {[ "success" := VBool false; "response_time" := VFloat (Finite 3) ]}) ].

Definition after_scenario : World :=
  snd (exec second_clock counting_uuid scenario fresh_world).

Definition scenario_session : Session :=
  {| start_time := 0;
     end_time := Some 3000000;
     decisions :=
       [ {| timestamp := 1000000; agent_id := "agentA"; inputs := ∅; outputs := ∅;
            metadata := {[ "success" := VBool true; "response_time" := VFloat (Finite 1) ]} |};
         {| timestamp := 2000000; agent_id := "agentA"; inputs := ∅; outputs := ∅;
            metadata := {[ "success" := VBool false; "response_time" := VFloat (Finite 3) ]} |} ];
     metrics := {| total_tokens := 0; total_time := 0;
                   success_count := 0; failure_count := 0 |} |}.

(** Two decisions whose ["success"] is no boolean: a non-empty string and
    the integer 0; and the session "s4" that holds them. *)
Definition loose_scenario : Stmt :=
  WithSession (Some "s4")
    [ TrackDecision "agentA" ∅ ∅ (Some {[ "success" := VStr "no" ]});
      TrackDecision "agentB" ∅ ∅
        (Some {[ "success" := VInt 0; "response_time" := VInt 2 ]}) ].

Definition after_loose_scenario : World :=
  snd (exec second_clock counting_uuid loose_scenario fresh_world).

Definition loose_records : list Decision :=
  [ {| timestamp := 1000000; agent_id := "agentA"; inputs := ∅; outputs := ∅;
       metadata := {[ "success" := VStr "no" ]} |};
    {| timestamp := 2000000; agent_id := "agentB"; inputs := ∅; outputs := ∅;
       metadata := {[ "success" := VInt 0; "response_time" := VInt 2 ]} |} ].

(** A session that was opened and closed without any decision. *)
Definition after_idle_session : World :=
  snd (exec second_clock counting_uuid (WithSession (Some "idle") []) fresh_world).

(** An answer to the decision prompt that states its confidence as a
    percentage, and one that states it on the scale the prompt asks for. *)
Definition percent_answer : string :=
  text_of ["START_DECISION"; "Decision: invest"; "Confidence: 85";
           "Reasoning: strong growth"; "END_DECISION"].

Definition unit_answer : string :=
  text_of ["START_DECISION"; "Decision: invest"; "Confidence: 0.8";
           "Reasoning: strong growth"; "END_DECISION"].

(** ** More on the observer *)

(** The arguments of one call of [track_decision]. *)
Record Call := {
  call_agent : string;
  call_inputs : gmap string Value;
  call_outputs : gmap string Value;
  call_metadata : option (gmap string Value)
}.

Definition track (c : Call) : Stmt :=
  TrackDecision (call_agent c) (call_inputs c) (call_outputs c) (call_metadata c).

(** The records that a run of calls leaves, the first one stamped with the
    clock reading number [first]. *)
Fixpoint records (clock : nat -> Z) (first : nat) (calls : list Call) : list Decision :=
  match calls with
  | [] => []
  | c :: rest =>
      {| timestamp := clock first;
         agent_id := call_agent c;
         inputs := call_inputs c;
         outputs := call_outputs c;
         metadata := default ∅ (call_metadata c) |} :: records clock (S first) rest
  end.

(** A key of the metadata holds something that is no number. *)
Definition not_a_number (key : string) (d : Decision) : Prop :=
  exists v, metadata d !! key = Some v /\ as_number v = None.

(** ** More on the parsers of [EnhancedAgent] *)

(** A text without a line break. *)
Definition single_line (s : string) : Prop :=
  PyStr.contains (String "010" "") s = false.

(** A text that fits on one line and has no white space at its ends. *)
Definition plain (s : string) : Prop :=
  single_line s /\ PyStr.strip s = s.

(** A line that is empty or starts with a white-space character. *)
Definition indented (line : string) : Prop :=
  match line with
  | EmptyString => True
  | String c _ => PyStr.is_space c = true
  end.

(** One alternative as the prompt of [_create_alternatives_prompt] asks
    for it (lines 156 to 162, without the indentation of the prompt): the
    three texts and the feasibility as a numeral over 10. *)
Record Alternative := {
  alt_approach : string;
  alt_advantages : string;
  alt_disadvantages : string;
  alt_feasibility : string
}.

Definition well_formed (a : Alternative) : Prop :=
  plain (alt_approach a) /\ plain (alt_advantages a) /\ plain (alt_disadvantages a)
  /\ numeral (alt_feasibility a)
  /\ (String.length (alt_feasibility a) <= PyStr.int_max_str_digits)%nat.

Definition render (a : Alternative) : list string :=
  [ "START_ALTERNATIVE";
    "Approach: " ++ alt_approach a;
    "Advantages: " ++ alt_advantages a;
    "Disadvantages: " ++ alt_disadvantages a;
    "Feasibility: " ++ alt_feasibility a ++ "/10";
    "END_ALTERNATIVE" ].

(** The dictionary that stands for an alternative. *)
Definition as_dict (a : Alternative) : gmap string Value :=
  <["feasibility" := VInt (decimal_value (alt_feasibility a) 0)]>
    (<["disadvantages" := VStr (alt_disadvantages a)]>
       (<["advantages" := VStr (alt_advantages a)]>
          (<["approach" := VStr (alt_approach a)]> ∅))).

(** What one line writes to the dictionary it finds: the text after its
    colon, under the key of its label; a line without one of the four
    labels writes nothing. *)
Definition written_by (line : string) (d : gmap string Value) : gmap string Value :=
  match PyStr.after ":" line with
  | Ok text =>
      if PyStr.startswith line "Approach:" then
        <["approach" := VStr (PyStr.strip text)]> d
      else if PyStr.startswith line "Advantages:" then
        <["advantages" := VStr (PyStr.strip text)]> d
      else if PyStr.startswith line "Disadvantages:" then
        <["disadvantages" := VStr (PyStr.strip text)]> d
      else if PyStr.startswith line "Feasibility:" then
        <["feasibility" := VInt (EnhancedAgent.parse_feasibility (PyStr.strip text))]> d
      else d
  | Raise _ => d
  end.

(** What the lines of a text write, one after the other, to a dictionary
    that starts empty. *)
Definition written (lines : list string) : gmap string Value :=
  foldl (fun d line => written_by line d) ∅ lines.

(** A final decision as the prompt of [_create_decision_prompt] asks for
    it (lines 196 to 200, without the indentation of the prompt). *)
Definition render_decision (decision confidence reasoning : string) : list string :=
  [ "START_DECISION";
    "Decision: " ++ decision;
    "Confidence: " ++ confidence;
    "Reasoning: " ++ reasoning;
    "END_DECISION" ].

(** ** More on the decision path of the core *)

(** [path.add_metric(k, v)] for each pair of a list, in its order. *)
Definition add_metrics (pairs : list (string * Value)) (path : CoreDecision.DecisionPath)
    : CoreDecision.DecisionPath :=
  foldl (fun p pair => CoreDecision.add_metric (fst pair) (snd pair) p) path pairs.

(** The value of the last pair with the key [metric], if any. *)
Definition last_added (metric : string) (pairs : list (string * Value)) : option Value :=
  foldl (fun found pair => if String.eqb (fst pair) metric then Some (snd pair) else found)
    None pairs.

(** ** The observed workflow *)

(** What a record says about whom and with what success. *)
Definition summary (d : Decision) : string * option Value :=
  (agent_id d, metadata d !! "success").

(** An agent whose turn ends well: it has no [run] and is skipped, or it
    has a name and its [run] returns. *)
Definition returns (agent : SwarmObserver.Agent) : Prop :=
  SwarmObserver.has_run agent = true ->
  exists (name : string) (value : Value),
    SwarmObserver.agent_name agent = Some name
    /\ SwarmObserver.run agent = Ok value.

(** One successful record for each agent that has a [run], in order. *)
Definition successes_of (agents : list SwarmObserver.Agent) : list (string * option Value) :=
  omap (fun agent =>
          if SwarmObserver.has_run agent
          then (fun name => (name, Some (VBool true))) <$> SwarmObserver.agent_name agent
          else None) agents.

(** A session with more records at its end. *)
Definition extend (sess : Session) (more : list Decision) : Session :=
  {| start_time := start_time sess;
     end_time := end_time sess;
     decisions := decisions sess ++ more;
     metrics := metrics sess |}.

(** The session [cur] is current in [w] and stored as [sess]. *)
Definition recording (w : World) (cur : string) (sess : Session) : Prop :=
  current_session (self w) = Some cur
  /\ observations (self w) !! cur = Some sess.

(** ** More concrete runs *)

(** A session with one record whose response time is a text. *)
Definition after_text_time : World :=
  snd (exec second_clock counting_uuid
         (WithSession (Some "s3")
            [TrackDecision "agentA" ∅ ∅ (Some {[ "response_time" := VStr "fast" ]})])
         fresh_world).

Definition text_time_session : Session :=
  {| start_time := 0;
     end_time := Some 2000000;
     decisions :=
       [ {| timestamp := 1000000; agent_id := "agentA"; inputs := ∅; outputs := ∅;
            metadata := {[ "response_time" := VStr "fast" ]} |} ];
     metrics := {| total_tokens := 0; total_time := 0;
                   success_count := 0; failure_count := 0 |} |}.

Definition two_alternatives : list Alternative :=
  [ {| alt_approach := "pilot first"; alt_advantages := "cheap: no licence";
       alt_disadvantages := "slow"; alt_feasibility := "8" |};
    {| alt_approach := "full rollout"; alt_advantages := "fast";
       alt_disadvantages := "costly"; alt_feasibility := "10" |} ].

(** An answer without start markers. *)
Definition unmarked_answer : string :=
  text_of ["Approach: pilot first"; "Feasibility: 8/10"; "END_ALTERNATIVE";
           "Approach: full rollout"; "END_ALTERNATIVE"].

(** An answer that keeps the indentation of the prompt. *)
Definition indented_answer : string :=
  text_of ["  START_ALTERNATIVE"; "  Approach: pilot first"; "  Feasibility: 8/10";
           "  END_ALTERNATIVE"; ""; "  Decision: invest"; "  Confidence: 0.8"].

(** Outputs of a SWARM agent. *)
Definition swarm_text (v : Value) : string := "done".

Definition swarm_two_steps : SwarmConversion.SwarmOutput :=
  {| SwarmConversion.attr_execution_path :=
       Some (VList [ VDict {[ "action" := VStr "search"; "confidence" := VFloat (Finite (9 # 10)) ]};
                     VDict {[ "action" := VStr "rank" ]} ]);
     SwarmConversion.attr_result := Some (VStr "done");
     SwarmConversion.attr_confidence := Some (VFloat (Finite (9 # 10)));
     SwarmConversion.attr_reasoning := None;
     SwarmConversion.attr_metrics := None |}.

(** Workflows of three agents, the second of which has no [run]. *)
Definition exception_text (e : exn) : string :=
  match e with
  | RuntimeError msg | Exception msg => msg
  | _ => "error"
  end.

Definition good_agents : list SwarmObserver.Agent :=
  [ {| SwarmObserver.has_run := true; SwarmObserver.agent_name := Some "planner";
       SwarmObserver.run := Ok (VStr "plan") |};
    {| SwarmObserver.has_run := false; SwarmObserver.agent_name := None;
       SwarmObserver.run := Raise AttributeError |};
    {| SwarmObserver.has_run := true; SwarmObserver.agent_name := Some "writer";
       SwarmObserver.run := Ok (VStr "text") |} ].

Definition failing_agent : SwarmObserver.Agent :=
  {| SwarmObserver.has_run := true; SwarmObserver.agent_name := Some "critic";
     SwarmObserver.run := Raise (Exception "timeout") |}.

Definition good_workflow : SwarmObserver.Workflow :=
  {| SwarmObserver.id_text := "140231";
     SwarmObserver.agents := good_agents;
     SwarmObserver.original_run := Ok (VStr "report") |}.

Definition agent_failure_workflow : SwarmObserver.Workflow :=
  {| SwarmObserver.id_text := "140232";
     SwarmObserver.agents := good_agents ++ failing_agent :: good_agents;
     SwarmObserver.original_run := Ok (VStr "report") |}.

(** A workflow whose fourth agent is cancelled while it runs. *)
Definition cancelled_agent : SwarmObserver.Agent :=
  {| SwarmObserver.has_run := true; SwarmObserver.agent_name := Some "critic";
     SwarmObserver.run := Interrupted "CancelledError" |}.

Definition cancelled_workflow : SwarmObserver.Workflow :=
  {| SwarmObserver.id_text := "140234";
     SwarmObserver.agents := good_agents ++ cancelled_agent :: good_agents;
     SwarmObserver.original_run := Ok (VStr "report") |}.

Definition own_failure_workflow : SwarmObserver.Workflow :=
  {| SwarmObserver.id_text := "140233";
     SwarmObserver.agents := good_agents;
     SwarmObserver.original_run := Raise (Exception "no quorum") |}.

(** A decision path without metrics, and three calls of [add_metric],
    two of them for the same name. *)
Definition blank_path : CoreDecision.DecisionPath :=
  {| CoreDecision.task := "rank offers"; CoreDecision.task_id := "t1";
     CoreDecision.created := 0; CoreDecision.context := ∅;
     CoreDecision.steps := []; CoreDecision.outcome := None;
     CoreDecision.path_reasoning := None; CoreDecision.metrics := None;
     CoreDecision.metadata := None |}.

Definition three_metrics : list (string * Value) :=
  [ ("latency", VInt 3); ("tokens", VInt 10); ("latency", VInt 5) ].

(** * Properties of the observer core *)

Section ObserverFacts.

Variable clock : nat -> Z.
Variable uuid4 : nat -> N.

(** *** Arithmetic of the running totals *)

(** String literals inside an arithmetic goal confuse the reification of
    [lra]; the terms that carry them are generalised first. *)
Ltac hide_atoms :=
  repeat match goal with
         | |- context [Qsum ?l] => generalize (Qsum l); intro
         | |- context [metadata_number ?k ?d] => generalize (metadata_number k d); intro
         end;
  repeat match goal with
         | H : _ |- _ => clear H
         end.

Lemma py_add_finite (a b : Value) (x y : Q) :
  Q_of_value a = Some x ->
  Q_of_value b = Some y ->
  exists v z, py_add a b = Ok v /\ Q_of_value v = Some z /\ (z == x + y)%Q.
Proof.
  intros Ha Hb.
  destruct a as [|[]| |[]| | |]; try discriminate;
    destruct b as [|[]| |[]| | |]; try discriminate;
    cbn in Ha, Hb; injection Ha as <-; injection Hb as <-;
    cbn; eexists _, _; (split; [reflexivity|]); (split; [reflexivity|]);
    rewrite ?inject_Z_plus; reflexivity.
Qed.

Lemma py_truediv_finite (a : Value) (x : Q) (n : Z) :
  Q_of_value a = Some x ->
  n <> 0 ->
  exists q, py_truediv a n = Ok (VFloat (Finite q)) /\ (q == x / inject_Z n)%Q.
Proof.
  intros Ha Hn. apply Z.eqb_neq in Hn.
  destruct a as [|[]| |[]| | |]; try discriminate;
    cbn in Ha; injection Ha as <-;
    unfold py_truediv; cbn; rewrite Hn; eexists; (split; [reflexivity|]); reflexivity.
Qed.

Ltac only_numbers :=
  repeat match goal with
         | |- context [Qsum ?l] => generalize (Qsum l); intro
         | |- context [metadata_number ?k ?d] => generalize (metadata_number k d); intro
         | |- context [inject_Z ?z] => generalize (inject_Z z); intro
         end;
  repeat match goal with
         | H : _ |- _ => clear H
         end.

Lemma counted_cons (d : Decision) (ds : list Decision) :
  Z.of_nat (length (List.filter counted (d :: ds)))
  = (if counted d then 1 else 0) + Z.of_nat (length (List.filter counted ds)).
Proof. cbn [List.filter]. destruct (counted d); cbn [length]; lia. Qed.

Lemma accumulate_all_counts (ds : list Decision) (t : Totals) (r u s : Q) :
  Forall numeric_metadata ds ->
  Q_of_value (tot_response_time t) = Some r ->
  Q_of_value (tot_token_usage t) = Some u ->
  Q_of_value (tot_success_rate t) = Some s ->
  exists t' r' u' s',
    accumulate_all t ds = Ok t'
    /\ Q_of_value (tot_response_time t') = Some r'
    /\ Q_of_value (tot_token_usage t') = Some u'
    /\ Q_of_value (tot_success_rate t') = Some s'
    /\ (r' == r + Qsum (metadata_number "response_time" <$> ds))%Q
    /\ (u' == u + Qsum (metadata_number "token_usage" <$> ds))%Q
    /\ (s' == s + inject_Z (Z.of_nat (length (List.filter counted ds))))%Q.
Proof.
  intros Hty. revert t r u s.
  induction Hty as [|d ds [Hrt Htu] _ IH]; intros t r u s Hr Hu Hs.
  - exists t, r, u, s.
    split; [reflexivity|]. repeat (split; [assumption|]).
    change (Qsum (metadata_number "response_time" <$> [])) with 0%Q.
    change (Qsum (metadata_number "token_usage" <$> [])) with 0%Q.
    change (inject_Z (Z.of_nat (length (List.filter counted [])))) with 0%Q.
    repeat split; only_numbers; lra.
  - assert (Hx : exists x, Q_of_value (default (VInt 0) (metadata d !! "response_time")) = Some x
                           /\ x = metadata_number "response_time" d).
    { unfold metadata_number. destruct (metadata d !! "response_time") as [v|] eqn:E.
      - destruct (Hrt v eq_refl) as [x Hx]. exists x. cbn. rewrite Hx. auto.
      - exists 0%Q. auto. }
    assert (Hy : exists y, Q_of_value (default (VInt 0) (metadata d !! "token_usage")) = Some y
                           /\ y = metadata_number "token_usage" d).
    { unfold metadata_number. destruct (metadata d !! "token_usage") as [v|] eqn:E.
      - destruct (Htu v eq_refl) as [y Hy]. exists y. cbn. rewrite Hy. auto.
      - exists 0%Q. auto. }
    destruct Hx as (x & Hx & ->). destruct Hy as (y & Hy & ->).
    destruct (py_add_finite _ _ _ _ Hr Hx) as (vr & zr & Er & Qr & Sr).
    destruct (py_add_finite _ _ _ _ Hu Hy) as (vu & zu & Eu & Qu & Su).
    destruct (py_add_finite (tot_success_rate t) (VInt (if counted d then 1 else 0))
                _ _ Hs eq_refl) as (vs & zs & Es & Qs & Ss).
    destruct (IH {| tot_response_time := vr; tot_token_usage := vu; tot_success_rate := vs |}
                 zr zu zs Qr Qu Qs)
      as (t' & r' & u' & s' & Eall & Hr' & Hu' & Hs' & Sr' & Su' & Ss').
    exists t', r', u', s'.
    split.
    { cbn [accumulate_all]. unfold accumulate, and_then at 1.
      rewrite Er. cbn [and_then]. rewrite Eu. cbn [and_then].
      fold (counted d). rewrite Es. cbn [and_then]. exact Eall. }
    repeat (split; [assumption|]).
    rewrite !fmap_cons. cbn [Qsum].
    split; [rewrite Sr', Sr; only_numbers; lra|].
    split; [rewrite Su', Su; only_numbers; lra|].
    rewrite Ss', Ss, counted_cons, inject_Z_plus. only_numbers; lra.
Qed.

Lemma counted_le (ds : list Decision) :
  (length (List.filter counted ds) <= length ds)%nat.
Proof. apply List.filter_length_le. Qed.

Lemma calculate_averages_nonempty (ds : list Decision) :
  ds <> [] ->
  Forall numeric_metadata ds ->
  exists art atu rate,
    _calculate_averages ds
    = Ok {| avg_response_time := VFloat (Finite art);
            avg_token_usage := VFloat (Finite atu);
            success_rate := VFloat (Finite rate) |}
    /\ (art == arithmetic_mean (metadata_number "response_time" <$> ds))%Q
    /\ (atu == arithmetic_mean (metadata_number "token_usage" <$> ds))%Q
    /\ (rate == 100 * inject_Z (Z.of_nat (length (List.filter counted ds)))
                 / inject_Z (Z.of_nat (length ds)))%Q
    /\ (0 <= rate <= 100)%Q.
Proof.
  intros Hne Hty.
  destruct (accumulate_all_counts ds
              {| tot_response_time := VInt 0; tot_token_usage := VInt 0;
                 tot_success_rate := VInt 0 |} 0 0 0 Hty eq_refl eq_refl eq_refl)
    as (t & r & u & k & Eall & Hr & Hu & Hk & Sr & Su & Sk).
  assert (Hcount : Z.of_nat (length ds) <> 0) by (destruct ds; [congruence | cbn; lia]).
  destruct (py_truediv_finite _ _ _ Hr Hcount) as (art & Eart & Qart).
  destruct (py_truediv_finite _ _ _ Hu Hcount) as (atu & Eatu & Qatu).
  destruct (py_truediv_finite _ _ _ Hk Hcount) as (ratio & Eratio & Qratio).
  exists art, atu, (ratio * inject_Z 100)%Q.
  split.
  { unfold _calculate_averages. destruct ds as [|d ds']; [congruence|].
    rewrite Eall. cbn [and_then]. rewrite Eart. cbn [and_then].
    rewrite Eatu. cbn [and_then]. rewrite Eratio. reflexivity. }
  assert (Hn : (0 < inject_Z (Z.of_nat (length ds)))%Q).
  { change 0%Q with (inject_Z 0). rewrite <- Zlt_Qlt. lia. }
  assert (Hk0 : (0 <= inject_Z (Z.of_nat (length (List.filter counted ds))))%Q).
  { change 0%Q with (inject_Z 0). rewrite <- Zle_Qle. lia. }
  assert (Hkn : (inject_Z (Z.of_nat (length (List.filter counted ds)))
                 <= inject_Z (Z.of_nat (length ds)))%Q).
  { rewrite <- Zle_Qle. pose proof (counted_le ds). lia. }
  unfold arithmetic_mean. rewrite !length_fmap.
  split; [rewrite Qart, Sr; apply Qdiv_comp; [ring | reflexivity]|].
  split; [rewrite Qatu, Su; apply Qdiv_comp; [ring | reflexivity]|].
  change (inject_Z 100) with 100%Q.
  assert (Hratio : (ratio == inject_Z (Z.of_nat (length (List.filter counted ds)))
                             / inject_Z (Z.of_nat (length ds)))%Q).
  { rewrite Qratio, Sk. apply Qdiv_comp; [ring | reflexivity]. }
  revert Hn Hk0 Hkn Hratio.
  generalize (inject_Z (Z.of_nat (length (List.filter counted ds)))) as k'.
  generalize (inject_Z (Z.of_nat (length ds))) as n'.
  clear. intros n' k' Hn Hk0 Hkn Hratio.
  assert (Hrate : (ratio * 100 == 100 * k' / n')%Q).
  { rewrite Hratio. field. intros E. rewrite E in Hn. discriminate. }
  split; [exact Hrate|].
  rewrite Hrate.
  split.
  - apply Qle_shift_div_l; [exact Hn|]. lra.
  - apply Qle_shift_div_r; [exact Hn|]. lra.
Qed.

(** C1. With no current session, [track_decision] raises the "no active
    session" [RuntimeError] and the observer is left exactly as it was: no
    session is created, no decision is appended, no oracle is consulted. *)
Theorem track_decision_requires_session
    (w : World) (agent : string) (ins outs : gmap string Value)
    (meta : option (gmap string Value)) :
  current_session (self w) = None ->
  track_decision clock agent ins outs meta w
  = (Raise (RuntimeError "No active session. Use 'with observer.session():' to create one."), w).
Proof.
  intros Hcur.
  unfold track_decision, bind, get_self, raise.
  rewrite Hcur. reflexivity.
Qed.

(** C5. For an identifier that is not a key of [observations],
    [get_session_metrics] raises the "not found" [KeyError]; it returns no
    metrics and leaves the observer as it was. *)
Theorem get_session_metrics_unknown (w : World) (session_id : string) :
  observations (self w) !! session_id = None ->
  get_session_metrics clock session_id w
  = (Raise (KeyError ("Session " ++ session_id ++ " not found")), w).
Proof.
  intros Hnone.
  unfold get_session_metrics, bind, get_self, raise.
  rewrite Hnone. reflexivity.
Qed.

(** C3. For a stored session without decisions, [get_session_metrics]
    returns a count of 0, the empty set of agents and the three averages
    fixed at the integer 0; nothing is divided. *)
Theorem get_session_metrics_empty (w : World) (session_id : string) (s : Session) :
  observations (self w) !! session_id = Some s ->
  decisions s = [] ->
  exists (m : Metrics) (w' : World),
    get_session_metrics clock session_id w = (Ok m, w')
    /\ decision_count m = O
    /\ agents m = ∅
    /\ averages m = zero_averages
    /\ self w' = self w.
Proof.
  intros Hs Hd.
  unfold get_session_metrics, bind, get_self.
  rewrite Hs, Hd. cbn.
  destruct (end_time s) as [e|]; cbn; eexists _, _; repeat split; reflexivity.
Qed.


(** C10. Opening a session under a name that is already a key of
    [observations] succeeds and overwrites the stored session with a new
    one: start time read from the clock, no end time, no decisions.  The
    other sessions are kept, the name becomes the current session, and
    the enclosed block then runs in that world. *)
Theorem session_reopen_replaces (w : World) (n : string) :
  n <> "" ->
  is_Some (observations (self w) !! n) ->
  let w1 := {| self := {| observations :=
                            <[n := new_session (clock (now_calls w))]> (observations (self w));
                          current_session := Some n |};
               now_calls := S (now_calls w);
               uuid_calls := uuid_calls w |} in
  session_enter clock uuid4 (Some n) w = (Ok n, w1)
  /\ observations (self w1) !! n = Some (new_session (clock (now_calls w)))
  /\ (forall other, other <> n ->
        observations (self w1) !! other = observations (self w) !! other)
  /\ (forall (A : Type) (body : string -> M A),
        session clock uuid4 (Some n) body w
        = try_finally (body n) (session_exit clock) w1).
Proof.
  intros Hn _ w1.
  assert (Henter : session_enter clock uuid4 (Some n) w = (Ok n, w1)).
  { unfold session_enter, bind, ret, get_self, put_self, datetime_now.
    apply String.eqb_neq in Hn. rewrite Hn. reflexivity. }
  split; [exact Henter|].
  split; [apply lookup_insert_eq|].
  split.
  - intros other Hother. cbn. apply lookup_insert_ne. congruence.
  - intros A body. unfold session, bind. rewrite Henter. reflexivity.
Qed.

End ObserverFacts.

(** * The session scope *)

(** Induction on statements that reaches into the bodies of nested
    scopes. *)
Lemma Stmt_nested_ind (P : Stmt -> Prop) :
  (forall a i o m, P (TrackDecision a i o m)) ->
  (forall sid, P (GetSessionMetrics sid)) ->
  (forall name body, Forall P body -> P (WithSession name body)) ->
  P Return ->
  (forall e, P (RaiseStmt e)) ->
  forall st, P st.
Proof.
  intros Htrack Hmetrics Hwith Hreturn Hraise.
  fix IH 1. intros [a i o m|sid|name body| |e].
  - apply Htrack.
  - apply Hmetrics.
  - apply Hwith. induction body as [|st' rest IHrest].
    + apply List.Forall_nil.
    + apply List.Forall_cons; [apply IH | exact IHrest].
  - apply Hreturn.
  - apply Hraise.
Qed.

Section ScopeFacts.

Variable clock : nat -> Z.
Variable uuid4 : nat -> N.

Lemma str_uuid_nonempty (u : N) : str_uuid u <> "".
Proof.
  unfold str_uuid. destruct (substring 0 8 (hex_fixed 32 u "")); discriminate.
Qed.

Lemma chosen_id_nonempty (name : option string) (w : World) :
  chosen_id uuid4 name w <> "".
Proof.
  unfold chosen_id. destruct name as [n|]; [|apply str_uuid_nonempty].
  destruct (String.eqb n "") eqn:E; [apply str_uuid_nonempty|].
  apply String.eqb_neq. exact E.
Qed.

Lemma exec_with (name : option string) (body : list Stmt) :
  exec clock uuid4 (WithSession name body)
  = session clock uuid4 name (fun _ => exec_block clock uuid4 body).
Proof. reflexivity. Qed.

Lemma session_enter_spec (name : option string) (w : World) :
  session_enter clock uuid4 name w = (Ok (chosen_id uuid4 name w), entered clock uuid4 name w).
Proof.
  unfold session_enter, entered, chosen_id, bind, ret, get_self, put_self,
    datetime_now, uuid_uuid4.
  destruct name as [n|]; [destruct (String.eqb n "")|]; reflexivity.
Qed.

Lemma session_exit_none (w : World) :
  current_session (self w) = None ->
  session_exit clock w = (Ok tt, w).
Proof.
  intros H. unfold session_exit, bind, get_self, ret. rewrite H. reflexivity.
Qed.

Lemma session_exit_some (w : World) (cur : string) (sess : Session) :
  current_session (self w) = Some cur ->
  cur <> "" ->
  observations (self w) !! cur = Some sess ->
  session_exit clock w = (Ok tt, closed clock cur sess w).
Proof.
  intros Hcur Hne Hsess.
  unfold session_exit, bind, get_self, ret, datetime_now, put_self.
  rewrite Hcur. cbn [no_session]. apply String.eqb_neq in Hne. rewrite Hne.
  cbn. rewrite Hcur. cbn. rewrite Hsess. reflexivity.
Qed.

(** *** What a block without nested scopes leaves alone *)

Lemma keeps_refl (w : World) : keeps w w.
Proof. repeat split; eauto. Qed.

Lemma keeps_trans (w1 w2 w3 : World) : keeps w1 w2 -> keeps w2 w3 -> keeps w1 w3.
Proof.
  intros (Hc1 & Hn1 & Hs1) (Hc2 & Hn2 & Hs2).
  split; [congruence|]. split; [lia|].
  intros sid s Hs.
  destruct (Hs1 sid s Hs) as (s' & Hs' & Hst & Hen).
  destruct (Hs2 sid s' Hs') as (s'' & Hs'' & Hst' & Hen').
  exists s''. split; [assumption|]. split; congruence.
Qed.

Lemma keeps_tick (w : World) :
  keeps w {| self := self w; now_calls := S (now_calls w); uuid_calls := uuid_calls w |}.
Proof. repeat split; cbn; eauto. Qed.

Lemma track_decision_keeps (a : string) (i o : gmap string Value)
    (m : option (gmap string Value)) (w w' : World) (r : Result unit) :
  track_decision clock a i o m w = (r, w') -> keeps w w'.
Proof.
  unfold track_decision, bind, get_self, raise, datetime_now, put_self.
  destruct (no_session (current_session (self w))).
  { intros [= <- <-]. apply keeps_refl. }
  cbn.
  destruct (current_session (self w)) as [cur|] eqn:Hcur; cbn.
  2:{ intros [= <- <-]. apply keeps_tick. }
  destruct (observations (self w) !! cur) as [sess|] eqn:Hsess; cbn.
  2:{ intros [= <- <-]. apply keeps_tick. }
  intros [= <- <-].
  split; [cbn; congruence|]. split; [cbn; lia|].
  intros sid s Hs. cbn.
  destruct (decide (cur = sid)) as [->|Hne].
  - rewrite lookup_insert_eq. eexists. split; [reflexivity|].
    rewrite Hsess in Hs. injection Hs as <-. split; reflexivity.
  - rewrite lookup_insert_ne by assumption. eauto.
Qed.

Lemma get_session_metrics_keeps (sid : string) (w w' : World) (r : Result Metrics) :
  get_session_metrics clock sid w = (r, w') -> keeps w w'.
Proof.
  unfold get_session_metrics, bind, get_self, raise, ret, datetime_now.
  destruct (observations (self w) !! sid) as [sess|].
  2:{ intros [= <- <-]. apply keeps_refl. }
  destruct (end_time sess); cbn;
    destruct (_calculate_averages (decisions sess));
    intros [= <- <-]; auto using keeps_refl, keeps_tick.
Qed.

Lemma flat_stmt_keeps (st : Stmt) (w w' : World) (r : Result Flow) :
  opens_scope st = false ->
  exec clock uuid4 st w = (r, w') -> keeps w w'.
Proof.
  destruct st as [a i o m|sid|name body| |e]; cbn [opens_scope exec]; intros Hflat;
    try discriminate.
  - unfold bind. destruct (track_decision clock a i o m w) as [[[]|e] w1] eqn:E;
      intros [= <- <-]; eapply track_decision_keeps; eassumption.
  - unfold bind. destruct (get_session_metrics clock sid w) as [[x|e] w1] eqn:E;
      intros [= <- <-]; eapply get_session_metrics_keeps; eassumption.
  - intros [= <- <-]. apply keeps_refl.
  - intros [= <- <-]. apply keeps_refl.
Qed.

Lemma flat_block_keeps (body : list Stmt) (w w' : World) (r : Result Flow) :
  flat body ->
  exec_block clock uuid4 body w = (r, w') -> keeps w w'.
Proof.
  intros Hflat. revert w.
  induction Hflat as [|st rest Hst _ IH]; intros w.
  - intros [= <- <-]. apply keeps_refl.
  - cbn [exec_block]. unfold bind at 1.
    destruct (exec clock uuid4 st w) as [[f|e] w1] eqn:E.
    + pose proof (flat_stmt_keeps _ _ _ _ Hst E) as K1.
      destruct f.
      * intros Hrest. eapply keeps_trans; [exact K1|]. eapply IH; eassumption.
      * intros [= <- <-]. exact K1.
    + intros [= <- <-]. eapply flat_stmt_keeps; eassumption.
Qed.

(** *** What every block preserves clock *)

Hypothesis clock_monotone : forall i j, (i <= j)%nat -> clock i <= clock j.

Lemma preserves_refl (w : World) : preserves clock w w.
Proof. split; [lia|]. split; auto. Qed.

Lemma preserves_trans (w1 w2 w3 : World) :
  preserves clock w1 w2 -> preserves clock w2 w3 -> preserves clock w1 w3.
Proof. intros (? & ? & ?) (? & ? & ?). split; [lia|]. split; auto. Qed.

Lemma timely_later (w w' : World) :
  observations (self w') = observations (self w) ->
  (now_calls w <= now_calls w')%nat ->
  timely clock w -> timely clock w'.
Proof.
  intros Hobs Hn Ht sid s Hs. rewrite Hobs in Hs.
  destruct (Ht sid s Hs) as [Hstart Hend].
  split; [|exact Hend].
  etransitivity; [exact Hstart|]. apply clock_monotone. exact Hn.
Qed.

Lemma preserves_tick (w : World) :
  preserves clock w {| self := self w; now_calls := S (now_calls w); uuid_calls := uuid_calls w |}.
Proof.
  split; [cbn; lia|]. split; [auto|].
  apply timely_later; cbn; [reflexivity | lia].
Qed.

Lemma track_decision_preserves (a : string) (i o : gmap string Value)
    (m : option (gmap string Value)) (w w' : World) (r : Result unit) :
  track_decision clock a i o m w = (r, w') -> preserves clock w w'.
Proof.
  unfold track_decision, bind, get_self, raise, datetime_now, put_self.
  destruct (no_session (current_session (self w))).
  { intros [= <- <-]. apply preserves_refl. }
  cbn.
  destruct (current_session (self w)) as [cur|] eqn:Hcur; cbn.
  2:{ intros [= <- <-]. apply preserves_tick. }
  destruct (observations (self w) !! cur) as [sess|] eqn:Hsess; cbn.
  2:{ intros [= <- <-]. apply preserves_tick. }
  intros [= <- <-].
  split; [cbn; lia|]. split.
  - unfold pointer_valid. cbn. rewrite Hcur. intros [Hne _]. split; [exact Hne|].
    rewrite lookup_insert_eq. eauto.
  - intros Ht sid s. cbn.
    destruct (decide (cur = sid)) as [->|Hne].
    + rewrite lookup_insert_eq. intros [= <-]. cbn.
      destruct (Ht sid sess Hsess) as [Hstart Hend].
      split; [|exact Hend].
      etransitivity; [exact Hstart|]. apply clock_monotone. lia.
    + rewrite lookup_insert_ne by assumption. intros Hs.
      destruct (Ht sid s Hs) as [Hstart Hend].
      split; [|exact Hend].
      etransitivity; [exact Hstart|]. apply clock_monotone. lia.
Qed.

Lemma get_session_metrics_preserves (sid : string) (w w' : World) (r : Result Metrics) :
  get_session_metrics clock sid w = (r, w') -> preserves clock w w'.
Proof.
  unfold get_session_metrics, bind, get_self, raise, ret, datetime_now.
  destruct (observations (self w) !! sid) as [sess|].
  2:{ intros [= <- <-]. apply preserves_refl. }
  destruct (end_time sess); cbn;
    destruct (_calculate_averages (decisions sess));
    intros [= <- <-]; auto using preserves_refl, preserves_tick.
Qed.

Lemma entered_valid (name : option string) (w : World) :
  pointer_valid (entered clock uuid4 name w).
Proof.
  unfold pointer_valid, entered. cbn.
  split; [apply chosen_id_nonempty|]. rewrite lookup_insert_eq. eauto.
Qed.

Lemma entered_timely (name : option string) (w : World) :
  timely clock w -> timely clock (entered clock uuid4 name w).
Proof.
  intros Ht sid s. unfold entered. cbn.
  destruct (decide (chosen_id uuid4 name w = sid)) as [->|Hne].
  - rewrite lookup_insert_eq. intros [= <-]. cbn.
    split; [apply clock_monotone; lia | discriminate].
  - rewrite lookup_insert_ne by assumption. intros Hs.
    destruct (Ht sid s Hs) as [Hstart Hend].
    split; [|exact Hend].
    etransitivity; [exact Hstart|]. apply clock_monotone. lia.
Qed.

Lemma closed_timely (cur : string) (sess : Session) (w : World) :
  observations (self w) !! cur = Some sess ->
  timely clock w -> timely clock (closed clock cur sess w).
Proof.
  intros Hsess Ht sid s. unfold closed. cbn.
  destruct (decide (cur = sid)) as [->|Hne].
  - rewrite lookup_insert_eq. intros [= <-]. cbn.
    destruct (Ht sid sess Hsess) as [Hstart _].
    split.
    + etransitivity; [exact Hstart|]. apply clock_monotone. lia.
    + intros e [= <-]. exact Hstart.
  - rewrite lookup_insert_ne by assumption. intros Hs.
    destruct (Ht sid s Hs) as [Hstart Hend].
    split; [|exact Hend].
    etransitivity; [exact Hstart|]. apply clock_monotone. lia.
Qed.

(** From a world with a valid pointer the [finally] block never raises,
    and it leaves no session current. *)
Lemma session_exit_valid (w : World) :
  pointer_valid w ->
  exists w', session_exit clock w = (Ok tt, w')
             /\ current_session (self w') = None
             /\ (now_calls w <= now_calls w')%nat
             /\ (timely clock w -> timely clock w').
Proof.
  unfold pointer_valid.
  destruct (current_session (self w)) as [cur|] eqn:Hcur.
  - intros [Hne [sess Hsess]].
    exists (closed clock cur sess w).
    split; [apply session_exit_some; assumption|].
    split; [reflexivity|]. split; [cbn; lia|].
    apply closed_timely. exact Hsess.
  - intros _. exists w.
    split; [apply session_exit_none; assumption|]. auto.
Qed.

Lemma block_preserves (body : list Stmt) :
  Forall (fun st => forall w r w', exec clock uuid4 st w = (r, w') -> preserves clock w w') body ->
  forall w r w', exec_block clock uuid4 body w = (r, w') -> preserves clock w w'.
Proof.
  induction 1 as [|st rest Hst _ IH]; intros w r w'.
  - intros [= <- <-]. apply preserves_refl.
  - cbn [exec_block]. unfold bind at 1.
    destruct (exec clock uuid4 st w) as [[f|e] w1] eqn:E.
    + pose proof (Hst _ _ _ E) as K1.
      destruct f.
      * intros Hrest. eapply preserves_trans; [exact K1|]. eapply IH; eassumption.
      * intros [= <- <-]. exact K1.
    + intros [= <- <-]. eapply Hst; eassumption.
Qed.

(** A session scope, whatever it encloses, ends with no session current. *)
Lemma with_session_outcome (name : option string) (body : list Stmt) (w w' : World)
    (r : Result Flow) :
  (forall w1 r1 w2, exec_block clock uuid4 body w1 = (r1, w2) -> preserves clock w1 w2) ->
  exec clock uuid4 (WithSession name body) w = (r, w') ->
  current_session (self w') = None
  /\ (now_calls w <= now_calls w')%nat
  /\ (timely clock w -> timely clock w').
Proof.
  intros Hbody. rewrite exec_with. unfold session, bind.
  rewrite session_enter_spec. unfold try_finally.
  destruct (exec_block clock uuid4 body (entered clock uuid4 name w)) as [rb w2] eqn:Eb.
  destruct (Hbody _ _ _ Eb) as (Hn & Hv & Ht).
  destruct (session_exit_valid w2 (Hv (entered_valid name w)))
    as (w3 & Eexit & Hcur & Hn3 & Ht3).
  rewrite Eexit. intros [= <- <-].
  split; [exact Hcur|]. split; [cbn in Hn; lia|].
  intros Htw. apply Ht3, Ht, entered_timely, Htw.
Qed.

Lemma exec_preserves (st : Stmt) :
  forall w r w', exec clock uuid4 st w = (r, w') -> preserves clock w w'.
Proof.
  induction st as [a i o m|sid|name body IH| |e] using Stmt_nested_ind; intros w r w'.
  - cbn [exec]. unfold bind.
    destruct (track_decision clock a i o m w) as [[[]|e] w1] eqn:E;
      intros [= <- <-]; eapply track_decision_preserves; eassumption.
  - cbn [exec]. unfold bind.
    destruct (get_session_metrics clock sid w) as [[x|e] w1] eqn:E;
      intros [= <- <-]; eapply get_session_metrics_preserves; eassumption.
  - intros E.
    destruct (with_session_outcome name body w w' r (block_preserves body IH) E)
      as (Hcur & Hn & Ht).
    split; [exact Hn|]. split; [|exact Ht].
    intros _. unfold pointer_valid. rewrite Hcur. exact I.
  - intros [= <- <-]. apply preserves_refl.
  - intros [= <- <-]. apply preserves_refl.
Qed.

Lemma exec_block_preserves (body : list Stmt) :
  forall w r w', exec_block clock uuid4 body w = (r, w') -> preserves clock w w'.
Proof.
  apply block_preserves. apply Forall_forall. intros st _. apply exec_preserves.
Qed.


End ScopeFacts.

(** * The observer on concrete runs *)

Lemma second_clock_monotone (i j : nat) : (i <= j)%nat -> second_clock i <= second_clock j.
Proof. unfold second_clock. lia. Qed.

Example scenario_stored :
  observations (self after_scenario) !! "s1" = Some scenario_session.
Proof. vm_compute. reflexivity. Qed.

(** The expected metrics of the scenario: two decisions, one agent, a mean
    response time of 2.0 and a success rate of 50.0. *)
Example scenario_metrics :
  exists m art atu rate,
    fst (get_session_metrics second_clock "s1" after_scenario) = Ok m
    /\ decision_count m = 2%nat
    /\ agents m = {["agentA"]}
    /\ duration m = Finite (inject_Z 3000000 / inject_Z 1000000)
    /\ averages m = {| avg_response_time := VFloat (Finite art);
                       avg_token_usage := VFloat (Finite atu);
                       success_rate := VFloat (Finite rate) |}
    /\ (art == 2)%Q /\ (atu == 0)%Q /\ (rate == 50)%Q.
Proof.
  eexists _, _, _, _.
  split; [vm_compute; reflexivity|].
  split; [reflexivity|].
  split; [apply set_eq; intros x; vm_compute; set_solver|].
  repeat split; reflexivity.
Qed.

Lemma track_decision_requires_session_witness :
  current_session (self fresh_world) = None
  /\ track_decision second_clock "agentA" ∅ ∅ None fresh_world
     = (Raise (RuntimeError "No active session. Use 'with observer.session():' to create one."),
        fresh_world).
Proof.
  split; [reflexivity|].
  apply (track_decision_requires_session second_clock fresh_world "agentA" ∅ ∅ None).
  reflexivity.
Defined.

Lemma get_session_metrics_unknown_witness :
  observations (self after_scenario) !! "s2" = None
  /\ get_session_metrics second_clock "s2" after_scenario
     = (Raise (KeyError "Session s2 not found"), after_scenario).
Proof.
  split; [vm_compute; reflexivity|].
  apply (get_session_metrics_unknown second_clock after_scenario "s2").
  vm_compute. reflexivity.
Defined.

Lemma get_session_metrics_empty_witness :
  observations (self after_idle_session) !! "idle"
  = Some {| start_time := 0; end_time := Some 1000000; decisions := [];
            metrics := {| total_tokens := 0; total_time := 0;
                          success_count := 0; failure_count := 0 |} |}
  /\ exists (m : Metrics) (w' : World),
      get_session_metrics second_clock "idle" after_idle_session = (Ok m, w')
      /\ decision_count m = O
      /\ agents m = ∅
      /\ averages m = zero_averages
      /\ self w' = self after_idle_session.
Proof.
  split; [vm_compute; reflexivity|].
  apply (get_session_metrics_empty second_clock after_idle_session "idle"
           {| start_time := 0; end_time := Some 1000000; decisions := [];
              metrics := {| total_tokens := 0; total_time := 0;
                            success_count := 0; failure_count := 0 |} |}).
  - vm_compute. reflexivity.
  - reflexivity.
Defined.

Lemma scenario_numeric : Forall numeric_metadata (decisions scenario_session).
Proof.
  repeat constructor;
    intros v; vm_compute; intros [= <-]; eauto.
Defined.

(** The numbers of the scenario are floats as they stand: 1, 3, their
    sums 1 and 4, the means 2 and 0, the share 1/2 and the rate 50. *)
Lemma scenario_exact : exact_averages (decisions scenario_session).
Proof.
  repeat split;
    first [ exists 0, 0; vm_compute; repeat split; congruence
          | exists 1, 0; vm_compute; repeat split; congruence
          | exists 2, 0; vm_compute; repeat split; congruence
          | exists 3, 0; vm_compute; repeat split; congruence
          | exists 4, 0; vm_compute; repeat split; congruence
          | exists 1, (-1); vm_compute; repeat split; congruence
          | exists 50, 0; vm_compute; repeat split; congruence ].
Defined.



Lemma session_reopen_replaces_witness :
  "s1" <> ""
  /\ is_Some (observations (self after_scenario) !! "s1")
  /\ session_enter second_clock counting_uuid (Some "s1") after_scenario
     = (Ok "s1",
        {| self := {| observations :=
                        <["s1" := new_session (second_clock (now_calls after_scenario))]>
                          (observations (self after_scenario));
                      current_session := Some "s1" |};
           now_calls := S (now_calls after_scenario);
           uuid_calls := uuid_calls after_scenario |}).
Proof.
  split; [discriminate|].
  split; [vm_compute; eauto|].
  apply (session_reopen_replaces second_clock counting_uuid after_scenario "s1").
  - discriminate.
  - vm_compute. eauto.
Defined.


(** The three ways out of a scope: falling off its end, [return], and an
    exception.  The end time is recorded each time. *)
Example scope_exit_paths :
  let run body := exec second_clock counting_uuid (WithSession (Some "s1") body) fresh_world in
  let ended res := end_time <$> observations (self (snd res)) !! "s1" in
  fst (run [TrackDecision "agentA" ∅ ∅ None]) = Ok Fallthrough
  /\ ended (run [TrackDecision "agentA" ∅ ∅ None]) = Some (Some 2000000)
  /\ fst (run [Return; TrackDecision "agentA" ∅ ∅ None]) = Ok Returned
  /\ ended (run [Return; TrackDecision "agentA" ∅ ∅ None]) = Some (Some 1000000)
  /\ fst (run [RaiseStmt (Exception "agent failed")]) = Raise (Exception "agent failed")
  /\ ended (run [RaiseStmt (Exception "agent failed")]) = Some (Some 1000000).
Proof. vm_compute. repeat split; reflexivity. Qed.


(** * Facts about the string methods *)

Section StringFacts.

Import PyStr.

Lemma append_assoc (a b c : string) : (a ++ b) ++ c = a ++ b ++ c.
Proof.
  induction a as [|x a IH]; [reflexivity|].
  change (String x ((a ++ b) ++ c) = String x (a ++ b ++ c)). rewrite IH. reflexivity.
Qed.

Lemma prefix_empty (s : string) : String.prefix "" s = true.
Proof. destruct s; reflexivity. Qed.

Lemma prefix_app (p s : string) : String.prefix p (p ++ s) = true.
Proof.
  induction p as [|c p IH]; [apply prefix_empty|].
  change (String.prefix (String c p) (String c (p ++ s)) = true).
  cbn [String.prefix]. destruct (ascii_dec c c); [exact IH | congruence].
Qed.

Lemma prefix_split (p s : string) :
  String.prefix p s = true -> exists back, s = p ++ back.
Proof.
  revert s. induction p as [|c p IH]; intros s.
  - intros _. exists s. reflexivity.
  - destruct s as [|d s]; [discriminate|]. cbn [String.prefix].
    destruct (ascii_dec c d) as [->|]; [|discriminate].
    intros H. destruct (IH s H) as [back ->]. exists back. reflexivity.
Qed.

Lemma contains_unfold (sep s : string) :
  contains sep s
  = if String.prefix sep s then true
    else match s with
         | String _ rest => contains sep rest
         | EmptyString => false
         end.
Proof. destruct s; reflexivity. Qed.

Lemma contains_occurs (sep s : string) :
  contains sep s = true <-> occurs sep s.
Proof.
  split.
  - induction s as [|c s IH]; rewrite contains_unfold.
    + destruct (String.prefix sep "") eqn:E; [|discriminate].
      intros _. destruct (prefix_split _ _ E) as [back Hb].
      exists "", back. exact Hb.
    + destruct (String.prefix sep (String c s)) eqn:E.
      * intros _. destruct (prefix_split _ _ E) as [back Hb].
        exists "", back. exact Hb.
      * intros H. destruct (IH H) as (front & back & ->).
        exists (String c front), back. reflexivity.
  - intros (front & back & ->).
    induction front as [|c front IH].
    + change ("" ++ sep ++ back) with (sep ++ back).
      rewrite contains_unfold, prefix_app. reflexivity.
    + change (String c front ++ sep ++ back) with (String c (front ++ sep ++ back)).
      rewrite contains_unfold.
      destruct (String.prefix sep (String c (front ++ sep ++ back))); [reflexivity|].
      exact IH.
Qed.

Lemma occurs_after_prefix (sep p s : string) :
  occurs sep p -> String.prefix p s = true -> occurs sep s.
Proof.
  intros (front & back & ->) H.
  destruct (prefix_split _ _ H) as [rest ->].
  exists front, (back ++ rest).
  rewrite !append_assoc. reflexivity.
Qed.

Lemma after_unfold (sep s : string) :
  after sep s
  = if String.prefix sep s then Ok (drop (String.length sep) s)
    else match s with
         | String _ rest => after sep rest
         | EmptyString => Raise IndexError
         end.
Proof. destruct s; reflexivity. Qed.

(** [s.split(sep, 1)[1]] exists as soon as [sep] is in [s]. *)
Lemma after_defined (sep s : string) :
  contains sep s = true -> exists text, after sep s = Ok text.
Proof.
  induction s as [|c s IH]; rewrite contains_unfold, after_unfold.
  - destruct (String.prefix sep ""); [eauto | discriminate].
  - destruct (String.prefix sep (String c s)); [eauto | exact IH].
Qed.

(** A line that starts with a label ending in a colon has a second part. *)
Lemma after_colon_defined (label line : string) :
  contains ":" label = true ->
  startswith line label = true ->
  exists text, after ":" line = Ok text.
Proof.
  intros Hlabel Hline. apply after_defined, contains_occurs.
  apply contains_occurs in Hlabel.
  eapply occurs_after_prefix; eassumption.
Qed.

End StringFacts.

(** * Properties of the adapters *)

Section SwarmFacts.

Import SwarmAdapter.

Lemma less_than_finite (confidence : Value) (c bound : Q) :
  Q_of_value confidence = Some c ->
  less_than confidence bound = Ok (if Qlt_le_dec c bound then true else false).
Proof.
  destruct confidence as [|[]| |[]| | |]; try discriminate;
    cbn; intros [= <-]; reflexivity.
Qed.


End SwarmFacts.


(** * Feasibility lines *)

Section FeasibilityFacts.

Import PyStr EnhancedAgent.

Lemma app_cons (c : ascii) (a b : string) : String c a ++ b = String c (a ++ b).
Proof. reflexivity. Qed.

Lemma app_empty (b : string) : "" ++ b = b.
Proof. reflexivity. Qed.

Lemma digit_facts (c : ascii) :
  is_digit c = true ->
  is_space c = false /\ is_cspace c = false /\ blank_wide c = c
  /\ c <> "/"%char /\ c <> "o"%char /\ c <> "+"%char /\ c <> "-"%char /\ c <> "_"%char.
Proof.
  destruct c as [[] [] [] [] [] [] [] []]; cbv; intros H; try discriminate H;
    repeat split; congruence.
Qed.

Lemma digitpart_digits (s : string) (acc : Z) (count : nat) :
  all_digits s = true ->
  digitpart s acc count true = Some (decimal_value s acc, (count + String.length s)%nat).
Proof.
  revert acc count. induction s as [|c s IH]; intros acc count.
  - intros _. cbn. rewrite Nat.add_0_r. reflexivity.
  - cbn [all_digits]. intros [Hc Hs]%andb_prop.
    cbn [digitpart decimal_value String.length]. rewrite Hc, (IH _ _ Hs).
    f_equal. f_equal. lia.
Qed.

Lemma unsigned_int_numeral (s : string) :
  numeral s ->
  (String.length s <= int_max_str_digits)%nat ->
  unsigned_int s = Some (decimal_value s 0).
Proof.
  intros [Hne Hd] Hlen. destruct s as [|c s]; [congruence|].
  cbn [all_digits] in Hd. apply andb_prop in Hd as [Hc Hs].
  unfold unsigned_int. cbn [digitpart]. rewrite Hc, (digitpart_digits _ _ _ Hs).
  cbn [String.length] in Hlen.
  destruct (Nat.leb_spec (1 + String.length s) int_max_str_digits); [reflexivity | lia].
Qed.

Lemma map_blank_digits (s : string) :
  all_digits s = true -> map_chars blank_wide s = s.
Proof.
  induction s as [|c s IH]; [reflexivity|].
  cbn [all_digits]. intros [Hc Hs]%andb_prop.
  cbn [map_chars]. fold (map_chars blank_wide).
  destruct (digit_facts c Hc) as (_ & _ & -> & _). rewrite (IH Hs). reflexivity.
Qed.

Lemma ltrim_digits (s : string) : all_digits s = true -> ltrim s = s.
Proof.
  destruct s as [|c s]; [reflexivity|].
  cbn [all_digits]. intros [Hc _]%andb_prop.
  cbn [ltrim]. destruct (digit_facts c Hc) as (_ & -> & _). reflexivity.
Qed.

Lemma rtrim_digits (s : string) : all_digits s = true -> rtrim s = s.
Proof.
  induction s as [|c s IH]; [reflexivity|].
  cbn [all_digits]. intros [Hc Hs]%andb_prop.
  cbn [rtrim]. rewrite (IH Hs).
  destruct (digit_facts c Hc) as (_ & -> & _). destruct s; reflexivity.
Qed.

Lemma lstrip_digits (s : string) : all_digits s = true -> lstrip s = s.
Proof.
  destruct s as [|c s]; [reflexivity|].
  cbn [all_digits]. intros [Hc _]%andb_prop.
  cbn [lstrip]. destruct (digit_facts c Hc) as (-> & _). reflexivity.
Qed.

Lemma rstrip_digits (s : string) : all_digits s = true -> rstrip s = s.
Proof.
  induction s as [|c s IH]; [reflexivity|].
  cbn [all_digits]. intros [Hc Hs]%andb_prop.
  cbn [rstrip]. rewrite (IH Hs).
  destruct (digit_facts c Hc) as (-> & _). destruct s; reflexivity.
Qed.

Lemma strip_digits (s : string) : all_digits s = true -> strip s = s.
Proof.
  intros H. unfold strip. rewrite (lstrip_digits s H). apply rstrip_digits, H.
Qed.

(** Blanks after a numeral are stripped. *)
Lemma rstrip_digits_blank (s : string) :
  all_digits s = true -> rstrip (s ++ " ") = s.
Proof.
  induction s as [|c s IH]; [reflexivity|].
  cbn [all_digits]. intros [Hc Hs]%andb_prop.
  rewrite app_cons. cbn [rstrip]. rewrite (IH Hs).
  destruct (digit_facts c Hc) as (-> & _). destruct s; reflexivity.
Qed.

Lemma strip_digits_blank (s : string) :
  numeral s -> strip (s ++ " ") = s.
Proof.
  intros [Hne Hd]. unfold strip.
  destruct s as [|c s]; [congruence|].
  rewrite app_cons. cbn [lstrip].
  pose proof Hd as Hd'. cbn [all_digits] in Hd'. apply andb_prop in Hd' as [Hc _].
  destruct (digit_facts c Hc) as (-> & _).
  rewrite <- app_cons. apply rstrip_digits_blank, Hd.
Qed.

(** [int] reads a numeral of at most 4300 digits as its value. *)
Lemma int_numeral (s : string) :
  numeral s ->
  (String.length s <= int_max_str_digits)%nat ->
  int s = Some (decimal_value s 0).
Proof.
  intros Hnum Hlen. pose proof Hnum as [Hne Hd].
  unfold int, trim.
  rewrite (map_blank_digits s Hd), (ltrim_digits s Hd), (rtrim_digits s Hd).
  rewrite <- (unsigned_int_numeral s Hnum Hlen).
  destruct s as [|c s]; [congruence|].
  cbn [all_digits] in Hd. apply andb_prop in Hd as [Hc _].
  destruct (digit_facts c Hc) as (_ & _ & _ & _ & _ & Hplus & Hminus & _).
  destruct c as [[] [] [] [] [] [] [] []]; try reflexivity; congruence.
Qed.

Lemma prefix_other_char (sep : string) (a c : ascii) (s : string) :
  a <> c -> String.prefix (String a sep) (String c s) = false.
Proof.
  intros Hne. cbn [String.prefix]. destruct (ascii_dec a c); [congruence | reflexivity].
Qed.

Lemma before_unfold (sep s : string) :
  before sep s
  = if String.prefix sep s then EmptyString
    else match s with
         | String c rest => String c (before sep rest)
         | EmptyString => EmptyString
         end.
Proof. destruct s; reflexivity. Qed.

(** The text before the first slash of [numeral/rest] is the numeral. *)
Lemma before_slash (s rest : string) :
  all_digits s = true -> before "/" (s ++ "/" ++ rest) = s.
Proof.
  induction s as [|c s IH].
  - intros _. rewrite app_empty, before_unfold, prefix_app. reflexivity.
  - cbn [all_digits]. intros [Hc Hs]%andb_prop.
    destruct (digit_facts c Hc) as (_ & _ & _ & Hslash & _).
    rewrite app_cons, before_unfold, prefix_other_char by congruence.
    rewrite (IH Hs). reflexivity.
Qed.

(** The text before the first "out of" of [numeral out of rest] is the
    numeral and a blank. *)
Lemma before_out_of (s rest : string) :
  all_digits s = true -> before "out of" (s ++ " out of " ++ rest) = s ++ " ".
Proof.
  induction s as [|c s IH].
  - intros _. rewrite app_empty.
    change (" out of " ++ rest) with (String " " ("out of" ++ " " ++ rest)).
    rewrite before_unfold, prefix_other_char by discriminate.
    rewrite before_unfold, prefix_app. reflexivity.
  - cbn [all_digits]. intros [Hc Hs]%andb_prop.
    destruct (digit_facts c Hc) as (_ & _ & _ & _ & Ho & _).
    rewrite (app_cons c s), (app_cons c s), before_unfold, prefix_other_char by congruence.
    rewrite (IH Hs). reflexivity.
Qed.

(** A one-character separator is in [a ++ b] when it is in [a] or in [b]. *)
Lemma contains_char_app (ch : ascii) (a b : string) :
  contains (String ch "") (a ++ b)
  = contains (String ch "") a || contains (String ch "") b.
Proof.
  induction a as [|c a IH].
  - rewrite app_empty. reflexivity.
  - rewrite app_cons, (contains_unfold _ (String c (a ++ b))),
      (contains_unfold _ (String c a)).
    cbn [String.prefix]. destruct (ascii_dec ch c).
    + rewrite !prefix_empty. reflexivity.
    + exact IH.
Qed.

Lemma digits_no_slash (s : string) :
  all_digits s = true -> contains "/" s = false.
Proof.
  induction s as [|c s IH]; [reflexivity|].
  cbn [all_digits]. intros [Hc Hs]%andb_prop.
  destruct (digit_facts c Hc) as (_ & _ & _ & Hslash & _).
  rewrite contains_unfold, prefix_other_char by congruence. exact (IH Hs).
Qed.

(** C7, first form: [numeral/anything] is read as the numeral. *)
Lemma parse_feasibility_slash (s rest : string) :
  numeral s ->
  (String.length s <= int_max_str_digits)%nat ->
  parse_feasibility (s ++ "/" ++ rest) = decimal_value s 0.
Proof.
  intros Hnum Hlen. pose proof Hnum as [_ Hd].
  unfold parse_feasibility.
  assert (Hin : contains "/" (s ++ "/" ++ rest) = true).
  { apply contains_occurs. exists s, rest. reflexivity. }
  rewrite Hin, (before_slash s rest Hd), (strip_digits s Hd), (int_numeral s Hnum Hlen).
  reflexivity.
Qed.

(** C7, second form: [numeral out of anything], without a slash, is read
    as the numeral. *)
Lemma parse_feasibility_out_of (s rest : string) :
  numeral s ->
  (String.length s <= int_max_str_digits)%nat ->
  contains "/" rest = false ->
  parse_feasibility (s ++ " out of " ++ rest) = decimal_value s 0.
Proof.
  intros Hnum Hlen Hrest. pose proof Hnum as [_ Hd].
  unfold parse_feasibility.
  assert (Hslash : contains "/" (s ++ " out of " ++ rest) = false).
  { rewrite !contains_char_app, (digits_no_slash s Hd), Hrest. reflexivity. }
  assert (Hin : contains "out of" (s ++ " out of " ++ rest) = true).
  { apply contains_occurs. exists (s ++ " "), (" " ++ rest).
    rewrite append_assoc. reflexivity. }
  rewrite Hslash, Hin, (before_out_of s rest Hd), (strip_digits_blank s Hnum),
    (int_numeral s Hnum Hlen).
  reflexivity.
Qed.

(** *** The loop never raises *)

Lemma alternatives_line_total (line : string) (st : AltLoop) :
  exists st', alternatives_line line st = Ok st'.
Proof.
  unfold alternatives_line.
  destruct (startswith line "START_ALTERNATIVE"); [eauto|].
  destruct (startswith line "Approach:") eqn:E1.
  { destruct (after_colon_defined "Approach:" line eq_refl E1) as [text ->]. cbn. eauto. }
  destruct (startswith line "Advantages:") eqn:E2.
  { destruct (after_colon_defined "Advantages:" line eq_refl E2) as [text ->]. cbn. eauto. }
  destruct (startswith line "Disadvantages:") eqn:E3.
  { destruct (after_colon_defined "Disadvantages:" line eq_refl E3) as [text ->]. cbn. eauto. }
  destruct (startswith line "Feasibility:") eqn:E4.
  { destruct (after_colon_defined "Feasibility:" line eq_refl E4) as [text ->]. cbn. eauto. }
  destruct (startswith line "END_ALTERNATIVE"); eauto.
Qed.

Lemma alternatives_lines_total (lines : list string) (st : AltLoop) :
  exists st', alternatives_lines lines st = Ok st'.
Proof.
  revert st. induction lines as [|line rest IH]; intros st; cbn [alternatives_lines].
  - eauto.
  - destruct (alternatives_line_total line st) as [st1 ->]. cbn. apply IH.
Qed.

Lemma parse_alternatives_total (alternatives_text : string) :
  exists parsed, _parse_alternatives alternatives_text = Ok parsed.
Proof.
  unfold _parse_alternatives.
  destruct (alternatives_lines_total (split "010" alternatives_text)
              {| heap := [∅]; current_alt := 0; alternatives := [] |}) as [st ->].
  cbn. eauto.
Qed.

(** What a feasibility line does: it stores an integer under
    ["feasibility"] in the current dictionary, whatever the text. *)
Lemma feasibility_line_stores (line : string) (st : AltLoop) :
  startswith line "Feasibility:" = true ->
  exists text,
    after ":" line = Ok text
    /\ alternatives_line line st
       = Ok (store "feasibility" (VInt (parse_feasibility (strip text))) st).
Proof.
  intros Hline.
  destruct (after_colon_defined "Feasibility:" line eq_refl Hline) as [text Htext].
  exists text. split; [exact Htext|].
  destruct (prefix_split _ _ Hline) as [back ->].
  unfold alternatives_line. rewrite Hline, Htext. reflexivity.
Qed.

(** The result of the [try] block is what [int] read in the part of the
    text that the branch selects, or 5. *)
Lemma parse_feasibility_cases (feasibility_text : string) :
  parse_feasibility feasibility_text
  = default 5 (int (if contains "/" feasibility_text
                    then strip (before "/" feasibility_text)
                    else if contains "out of" feasibility_text
                         then strip (before "out of" feasibility_text)
                         else feasibility_text)).
Proof.
  unfold parse_feasibility.
  destruct (contains "/" feasibility_text);
    [|destruct (contains "out of" feasibility_text)];
    match goal with
    | |- context [int ?n] => destruct (int n); reflexivity
    end.
Qed.

(** *** Texts without a digit *)

Lemma space_facts (c : ascii) :
  (is_space c = true -> is_digit c = false)
  /\ (is_cspace c = true -> is_digit c = false)
  /\ is_digit (blank_wide c) = is_digit c.
Proof.
  destruct c as [[] [] [] [] [] [] [] []]; cbv; repeat split; congruence.
Qed.

Lemma has_digit_blank_wide (s : string) :
  has_digit (map_chars blank_wide s) = has_digit s.
Proof.
  induction s as [|c s IH]; [reflexivity|].
  cbn [map_chars has_digit]. fold (map_chars blank_wide s).
  destruct (space_facts c) as (_ & _ & ->). rewrite IH. reflexivity.
Qed.

Lemma has_digit_ltrim (s : string) : has_digit (ltrim s) = has_digit s.
Proof.
  induction s as [|c s IH]; [reflexivity|].
  cbn [ltrim]. destruct (is_cspace c) eqn:E; [|reflexivity].
  cbn [has_digit]. destruct (space_facts c) as (_ & Hc & _). rewrite (Hc E), IH. reflexivity.
Qed.

Lemma has_digit_lstrip (s : string) : has_digit (lstrip s) = has_digit s.
Proof.
  induction s as [|c s IH]; [reflexivity|].
  cbn [lstrip]. destruct (is_space c) eqn:E; [|reflexivity].
  cbn [has_digit]. destruct (space_facts c) as (Hc & _ & _). rewrite (Hc E), IH. reflexivity.
Qed.

Lemma has_digit_rtrim (s : string) : has_digit (rtrim s) = true -> has_digit s = true.
Proof.
  induction s as [|c s IH]; [discriminate|].
  cbn [rtrim has_digit]. destruct (rtrim s) as [|k kept].
  - destruct (is_cspace c); [discriminate|]. cbn [has_digit].
    rewrite orb_false_r. intros ->. reflexivity.
  - change (has_digit (String c (String k kept)))
      with (is_digit c || has_digit (String k kept)).
    intros [->| H]%orb_true_iff; [reflexivity|]. rewrite (IH H). apply orb_true_r.
Qed.

Lemma has_digit_rstrip (s : string) : has_digit (rstrip s) = true -> has_digit s = true.
Proof.
  induction s as [|c s IH]; [discriminate|].
  cbn [rstrip has_digit]. destruct (rstrip s) as [|k kept].
  - destruct (is_space c); [discriminate|]. cbn [has_digit].
    rewrite orb_false_r. intros ->. reflexivity.
  - change (has_digit (String c (String k kept)))
      with (is_digit c || has_digit (String k kept)).
    intros [->| H]%orb_true_iff; [reflexivity|]. rewrite (IH H). apply orb_true_r.
Qed.

Lemma has_digit_strip (s : string) : has_digit (strip s) = true -> has_digit s = true.
Proof.
  unfold strip. intros H%has_digit_rstrip. rewrite has_digit_lstrip in H. exact H.
Qed.

Lemma has_digit_before (sep s : string) :
  has_digit (before sep s) = true -> has_digit s = true.
Proof.
  induction s as [|c s IH].
  - cbn [before]. destruct (String.prefix sep ""); discriminate.
  - cbn [before]. destruct (String.prefix sep (String c s)); [discriminate|].
    cbn [has_digit]. intros [->| H]%orb_true_iff; [reflexivity|].
    rewrite (IH H). apply orb_true_r.
Qed.

Lemma unsigned_int_has_digit (s : string) (v : Z) :
  unsigned_int s = Some v -> has_digit s = true.
Proof.
  unfold unsigned_int. destruct s as [|c rest]; [discriminate|].
  cbn [digitpart has_digit]. destruct (is_digit c); [reflexivity|].
  destruct (Ascii.eqb c "_"); discriminate.
Qed.

(** What [int] reads holds a digit. *)
Lemma int_has_digit (s : string) (v : Z) : int s = Some v -> has_digit s = true.
Proof.
  unfold int, trim. intros Hint.
  rewrite <- has_digit_blank_wide, <- has_digit_ltrim. apply has_digit_rtrim.
  destruct (rtrim (ltrim (map_chars blank_wide s))) as [|c rest];
    [discriminate Hint|].
  destruct (Ascii.eqb_spec c "+") as [->|Hplus].
  { apply unsigned_int_has_digit in Hint. exact Hint. }
  destruct (Ascii.eqb_spec c "-") as [->|Hminus].
  { destruct (unsigned_int rest) as [u|] eqn:E; [|discriminate Hint].
    apply unsigned_int_has_digit in E. exact E. }
  assert (Hsame : unsigned_int (String c rest) = Some v).
  { revert Hint.
    destruct c as [[] [] [] [] [] [] [] []]; try (intros H; exact H); congruence. }
  exact (unsigned_int_has_digit _ _ Hsame).
Qed.

(** A text without a digit is unparseable, whichever branch reads it. *)
Lemma parse_feasibility_without_digit (feasibility_text : string) :
  has_digit feasibility_text = false -> parse_feasibility feasibility_text = 5.
Proof.
  intros Hnone. rewrite parse_feasibility_cases.
  match goal with
  | |- context [int ?n] =>
      destruct (int n) as [v|] eqn:E; [|reflexivity];
        apply int_has_digit in E
  end.
  exfalso.
  destruct (contains "/" feasibility_text);
    [|destruct (contains "out of" feasibility_text)].
  - apply has_digit_strip, has_digit_before in E. congruence.
  - apply has_digit_strip, has_digit_before in E. congruence.
  - congruence.
Qed.

(** The dictionary under construction is one object: written after it was
    appended, it changes in the list as well. *)
Example parse_alternatives_shares_dictionary :
  _parse_alternatives
    (text_of ["Approach: pilot first"; "END_ALTERNATIVE"; "Feasibility: 3"; "END_ALTERNATIVE"])
  = Ok [ {[ "approach" := VStr "pilot first"; "feasibility" := VInt 3 ]};
         {[ "approach" := VStr "pilot first"; "feasibility" := VInt 3 ]} ].
Proof. vm_compute. reflexivity. Qed.

(** C7. Parsing an alternatives block never raises.  A line that starts
    with "Feasibility:" always stores an integer: "8/10" gives 8 and, more
    generally, a numeral followed by a slash gives the value of the
    numeral; "8 out of 10" gives 8 and, more generally, a numeral followed
    by " out of " gives its value; "high" and, more generally, every text
    without a digit gives the default 5; for every text the integer is
    what [int] reads in the part before the slash, else before "out of",
    else in the whole text, and 5 when [int] rejects that part.  The rest
    of the block is parsed as usual.  (A numeral is read up to the 4300
    digits that [int] accepts.) *)
Theorem feasibility_parsing_best_effort :
  (forall alternatives_text, exists parsed, _parse_alternatives alternatives_text = Ok parsed)
  /\ (forall line st,
        startswith line "Feasibility:" = true ->
        exists text,
          after ":" line = Ok text
          /\ alternatives_line line st
             = Ok (store "feasibility" (VInt (parse_feasibility (strip text))) st))
  /\ parse_feasibility "8/10" = 8
  /\ parse_feasibility "8 out of 10" = 8
  /\ parse_feasibility "high" = 5
  /\ (forall s rest,
        numeral s -> (String.length s <= int_max_str_digits)%nat ->
        parse_feasibility (s ++ "/" ++ rest) = decimal_value s 0)
  /\ (forall s rest,
        numeral s -> (String.length s <= int_max_str_digits)%nat ->
        contains "/" rest = false ->
        parse_feasibility (s ++ " out of " ++ rest) = decimal_value s 0)
  /\ (forall feasibility_text,
        has_digit feasibility_text = false -> parse_feasibility feasibility_text = 5)
  /\ (forall feasibility_text,
        parse_feasibility feasibility_text
        = default 5 (int (if contains "/" feasibility_text
                          then strip (before "/" feasibility_text)
                          else if contains "out of" feasibility_text
                               then strip (before "out of" feasibility_text)
                               else feasibility_text)))
  /\ _parse_alternatives
       (text_of ["START_ALTERNATIVE"; "Approach: pilot first"; "Advantages: cheap";
                 "Disadvantages: slow"; "Feasibility: high"; "END_ALTERNATIVE";
                 "START_ALTERNATIVE"; "Approach: full rollout"; "Feasibility: 8/10";
                 "END_ALTERNATIVE"])
     = Ok [ {[ "approach" := VStr "pilot first"; "advantages" := VStr "cheap";
               "disadvantages" := VStr "slow"; "feasibility" := VInt 5 ]};
            {[ "approach" := VStr "full rollout"; "feasibility" := VInt 8 ]} ].
Proof.
  split; [exact parse_alternatives_total|].
  split; [exact feasibility_line_stores|].
  split; [reflexivity|]. split; [reflexivity|]. split; [reflexivity|].
  split; [exact parse_feasibility_slash|].
  split; [exact parse_feasibility_out_of|].
  split; [exact parse_feasibility_without_digit|].
  split; [exact parse_feasibility_cases|].
  vm_compute. reflexivity.
Qed.

End FeasibilityFacts.

Lemma feasibility_parsing_best_effort_witness :
  numeral "7"
  /\ (String.length "7" <= PyStr.int_max_str_digits)%nat
  /\ EnhancedAgent.parse_feasibility ("7" ++ "/" ++ "10") = decimal_value "7" 0
  /\ decimal_value "7" 0 = 7
  /\ has_digit "fairly high / ten" = false
  /\ EnhancedAgent.parse_feasibility "fairly high / ten" = 5.
Proof.
  assert (Hnum : numeral "7") by (split; [discriminate | reflexivity]).
  assert (Hlen : (String.length "7" <= PyStr.int_max_str_digits)%nat)
    by (unfold PyStr.int_max_str_digits; cbn; lia).
  destruct feasibility_parsing_best_effort
    as (_ & _ & _ & _ & _ & Hslash & _ & Hnone & _).
  split; [exact Hnum|]. split; [exact Hlen|].
  split; [exact (Hslash "7" "10" Hnum Hlen)|].
  split; [reflexivity|]. split; [reflexivity|].
  exact (Hnone "fairly high / ten" eq_refl).
Defined.

(** * Confidence levels from text *)

Section ConfidenceFacts.

Import PyStr.

Lemma contains_false (sep s : string) : contains sep s = false <-> ~ occurs sep s.
Proof.
  rewrite <- contains_occurs. destruct (contains sep s); split; congruence.
Qed.

(** C8 (as amended). The classifier of [EnhancedAgent] looks at the
    lower-cased text: it returns LOW when "uncertain" or "unclear" occurs
    in it; otherwise MEDIUM when "likely" or "probably" occurs in it; and
    HIGH, its default, when none of the four words occurs.  The classifier
    of [GenericAgentAdapter] reads no text: it returns the label stored
    under the step's key "confidence" when that is LOW, MEDIUM or HIGH in
    any letter case, and MEDIUM, its default, when the key is missing or
    holds another string. *)
Theorem determine_confidence_rules (text : string) :
  let t := lower text in
  (occurs "uncertain" t \/ occurs "unclear" t ->
   EnhancedAgent._determine_confidence text = LOW)
  /\ (~ occurs "uncertain" t -> ~ occurs "unclear" t ->
      occurs "likely" t \/ occurs "probably" t ->
      EnhancedAgent._determine_confidence text = MEDIUM)
  /\ (~ occurs "uncertain" t -> ~ occurs "unclear" t ->
      ~ occurs "likely" t -> ~ occurs "probably" t ->
      EnhancedAgent._determine_confidence text = HIGH)
  /\ (forall step : gmap string Value,
        step !! "confidence" = None ->
        GenericAgentAdapter._determine_confidence step = Ok MEDIUM)
  /\ (forall (step : gmap string Value) (label : string),
        step !! "confidence" = Some (VStr label) ->
        GenericAgentAdapter._determine_confidence step
        = Ok (if String.eqb (upper label) "LOW" then LOW
              else if String.eqb (upper label) "HIGH" then HIGH
              else MEDIUM)).
Proof.
  intros t. unfold EnhancedAgent._determine_confidence. fold t.
  split; [|split; [|split; [|split]]].
  - intros [H|H]; apply contains_occurs in H; rewrite H; [reflexivity|].
    rewrite orb_true_r. reflexivity.
  - intros H1%contains_false H2%contains_false [H|H];
      apply contains_occurs in H; rewrite H1, H2, H; [reflexivity|].
    cbn. rewrite orb_true_r. reflexivity.
  - intros H1%contains_false H2%contains_false H3%contains_false H4%contains_false.
    rewrite H1, H2, H3, H4. reflexivity.
  - intros step Hstep. unfold GenericAgentAdapter._determine_confidence.
    rewrite Hstep. reflexivity.
  - intros step label Hstep. unfold GenericAgentAdapter._determine_confidence.
    rewrite Hstep. change (default (VStr "") (Some (VStr label))) with (VStr label).
    cbv beta iota zeta.
    destruct (String.eqb (upper label) "LOW") eqn:Elow; [reflexivity|].
    destruct (String.eqb (upper label) "MEDIUM") eqn:Emed.
    + apply String.eqb_eq in Emed. rewrite Emed. reflexivity.
    + destruct (String.eqb (upper label) "HIGH"); reflexivity.
Qed.

End ConfidenceFacts.

Lemma determine_confidence_rules_witness :
  occurs "unclear" (PyStr.lower "It is UNCLEAR whether demand will hold.")
  /\ EnhancedAgent._determine_confidence "It is UNCLEAR whether demand will hold." = LOW.
Proof.
  assert (H : occurs "unclear" (PyStr.lower "It is UNCLEAR whether demand will hold.")).
  { exists "it is ", " whether demand will hold.". reflexivity. }
  split; [exact H|].
  destruct (determine_confidence_rules "It is UNCLEAR whether demand will hold.")
    as (Hlow & _).
  apply Hlow. right. exact H.
Defined.

(** C8, the claim as stated, fails: a text with none of the marker words is
    classified HIGH, so MEDIUM is not the default of the lexical
    classifier. *)
Lemma determine_confidence_default_is_high :
  let text := "Revenue grew in every quarter." in
  PyStr.contains "uncertain" (PyStr.lower text) = false
  /\ PyStr.contains "unclear" (PyStr.lower text) = false
  /\ EnhancedAgent._determine_confidence text = HIGH
  /\ EnhancedAgent._determine_confidence text <> MEDIUM
  /\ EnhancedAgent._determine_confidence "" = HIGH.
Proof. cbv. repeat split; congruence. Qed.

(** * The confidence score of a decision path *)

Section ScoreFacts.

Import PyStr EnhancedAgent.

Lemma zero_in_unit_interval : in_unit_interval (VFloat (Finite 0)).
Proof. exists 0%Q. split; [reflexivity|]. split; discriminate. Qed.

Lemma final_decision_line_confidence (all : list string) (line : string) (data : DecisionData) :
  In line all ->
  confidence_from all (data_confidence data) ->
  exists data', final_decision_line line data = Ok data'
                /\ confidence_from all (data_confidence data').
Proof.
  intros Hin Hdata. unfold final_decision_line.
  destruct (startswith line "Decision:") eqn:E1.
  { destruct (after_colon_defined "Decision:" line eq_refl E1) as [text ->]. cbn. eauto. }
  destruct (startswith line "Confidence:") eqn:E2.
  { destruct (after_colon_defined "Confidence:" line eq_refl E2) as [text Htext].
    rewrite Htext. cbn [and_then]. eexists. split; [reflexivity|]. cbn [data_confidence].
    destruct (float (strip text)) as [value|] eqn:Ef.
    - right. exists line, text. auto.
    - left. reflexivity. }
  destruct (startswith line "Reasoning:") eqn:E3.
  { destruct (after_colon_defined "Reasoning:" line eq_refl E3) as [text ->]. cbn. eauto. }
  eauto.
Qed.

Lemma final_decision_lines_confidence (all lines : list string) (data : DecisionData) :
  (forall line, In line lines -> In line all) ->
  confidence_from all (data_confidence data) ->
  exists data', final_decision_lines lines data = Ok data'
                /\ confidence_from all (data_confidence data').
Proof.
  revert data. induction lines as [|line rest IH]; intros data Hsub Hdata.
  - cbn. eauto.
  - cbn [final_decision_lines].
    destruct (final_decision_line_confidence all line data) as (data1 & -> & H1);
      [apply Hsub; left; reflexivity | exact Hdata |].
    cbn [and_then]. apply IH; [|exact H1].
    intros l Hl. apply Hsub. right. exact Hl.
Qed.

Lemma parse_final_decision_confidence (decision_text : string) :
  exists data,
    _parse_final_decision decision_text = Ok data
    /\ confidence_from (split "010" decision_text) (data_confidence data).
Proof.
  unfold _parse_final_decision.
  apply final_decision_lines_confidence; [auto|]. left. reflexivity.
Qed.

Lemma analyze_task_score (task : string) (context : gmap string Value)
    (initial_analysis alternatives tradeoff_analysis final_decision : string) :
  exists path data,
    analyze_task task context initial_analysis alternatives tradeoff_analysis final_decision
    = Ok path
    /\ _parse_final_decision final_decision = Ok data
    /\ confidence_score path = VFloat (data_confidence data)
    /\ confidence_from (split "010" final_decision) (data_confidence data).
Proof.
  unfold analyze_task.
  destruct (parse_alternatives_total alternatives) as [parsed ->].
  destruct (parse_final_decision_confidence final_decision) as (data & -> & Hfrom).
  cbn [and_then]. eexists _, data.
  split; [reflexivity|]. split; [reflexivity|]. split; [reflexivity | exact Hfrom].
Qed.

Lemma stated_confidence_in_range (lines : list string) (value : pyfloat) :
  confidence_from lines value ->
  (forall line text stated,
      In line lines ->
      startswith line "Confidence:" = true ->
      after ":" line = Ok text ->
      float (strip text) = Some stated ->
      in_unit_interval (VFloat stated)) ->
  in_unit_interval (VFloat value).
Proof.
  intros [->|(line & text & Hin & Hstart & Hafter & Hfloat)] Hrange.
  - apply zero_in_unit_interval.
  - eapply Hrange; eassumption.
Qed.


End ScoreFacts.


Lemma unit_answer_states_in_range (line text : string) (value : pyfloat) :
  In line (PyStr.split "010" unit_answer) ->
  PyStr.startswith line "Confidence:" = true ->
  PyStr.after ":" line = Ok text ->
  PyStr.float (PyStr.strip text) = Some value ->
  in_unit_interval (VFloat value).
Proof.
  intros Hin Hstart Hafter Hfloat. vm_compute in Hin.
  destruct Hin as [<-|[<-|[<-|[<-|[<-|[]]]]]]; vm_compute in Hstart; try discriminate Hstart.
  vm_compute in Hafter. injection Hafter as <-.
  vm_compute in Hfloat. injection Hfloat as <-.
  eexists. split; [reflexivity|]. split; discriminate.
Defined.


(** * Further properties of the observer *)

Section ObserverExtra.

Variable clock : nat -> Z.
Variable uuid4 : nat -> N.

Lemma track_decision_current (w : World) (cur : string) (sess : Session) (c : Call) :
  current_session (self w) = Some cur ->
  cur <> "" ->
  observations (self w) !! cur = Some sess ->
  track_decision clock (call_agent c) (call_inputs c) (call_outputs c) (call_metadata c) w
  = (Ok tt,
     {| self := {| observations :=
                     <[cur := {| start_time := start_time sess;
                                 end_time := end_time sess;
                                 decisions := decisions sess ++ records clock (now_calls w) [c];
                                 metrics := metrics sess |}]> (observations (self w));
                   current_session := Some cur |};
        now_calls := S (now_calls w);
        uuid_calls := uuid_calls w |}).
Proof.
  intros Hcur Hne Hsess.
  unfold track_decision, bind, get_self, datetime_now, put_self.
  rewrite Hcur. cbn [no_session]. apply String.eqb_neq in Hne. rewrite Hne.
  cbn. rewrite Hcur. cbn. rewrite Hsess. reflexivity.
Qed.

Lemma track_block_current (calls : list Call) (w : World) (cur : string) (sess : Session) :
  current_session (self w) = Some cur ->
  cur <> "" ->
  observations (self w) !! cur = Some sess ->
  exec_block clock uuid4 (track <$> calls) w
  = (Ok Fallthrough,
     {| self := {| observations :=
                     <[cur := {| start_time := start_time sess;
                                 end_time := end_time sess;
                                 decisions := decisions sess ++ records clock (now_calls w) calls;
                                 metrics := metrics sess |}]> (observations (self w));
                   current_session := Some cur |};
        now_calls := (now_calls w + length calls)%nat;
        uuid_calls := uuid_calls w |}).
Proof.
  revert w sess. induction calls as [|c calls IH]; intros w sess Hcur Hne Hsess.
  - cbn. rewrite app_nil_r, Nat.add_0_r. f_equal.
    destruct w as [[obs cur'] n u]. cbn in *. subst cur'. f_equal. f_equal.
    rewrite insert_id; [reflexivity|]. rewrite Hsess. destruct sess; reflexivity.
  - rewrite fmap_cons. cbn [exec_block]. unfold bind at 1. cbn [exec track].
    unfold bind at 1. rewrite (track_decision_current w cur sess c Hcur Hne Hsess).
    cbn [ret]. erewrite IH; [|reflexivity|exact Hne|apply lookup_insert_eq].
    cbn. rewrite insert_insert_eq, <- app_assoc. repeat f_equal. lia.
Qed.

Lemma keeps_pointer (w w' : World) : keeps w w' -> pointer_valid w -> pointer_valid w'.
Proof.
  intros (Hc & _ & Hs). unfold pointer_valid. rewrite Hc.
  destruct (current_session (self w)) as [cur|]; [|auto].
  intros [Hne [sess Hsess]]. split; [exact Hne|].
  destruct (Hs _ _ Hsess) as (s' & Hs' & _). eauto.
Qed.

(** Every statement keeps the current-session pointer valid; no
    assumption on the clock is needed for that. *)
Lemma stmt_keeps_pointer (st : Stmt) :
  forall w r w', exec clock uuid4 st w = (r, w') -> pointer_valid w -> pointer_valid w'.
Proof.
  induction st as [a i o m|sid|name body IH| |e] using Stmt_nested_ind; intros w r w'.
  - intros E. eapply keeps_pointer, flat_stmt_keeps; [|exact E]. reflexivity.
  - intros E. eapply keeps_pointer, flat_stmt_keeps; [|exact E]. reflexivity.
  - rewrite exec_with. unfold session, bind. rewrite session_enter_spec.
    unfold try_finally.
    destruct (exec_block clock uuid4 body (entered clock uuid4 name w)) as [rb w2] eqn:Eb.
    intros E _.
    assert (Hv2 : pointer_valid w2).
    { clear E. revert Eb. generalize (entered_valid clock uuid4 name w).
      generalize (entered clock uuid4 name w). revert rb w2.
      induction IH as [|st rest Hst _ IHrest]; intros rb w2 w0 Hv.
      - intros [= <- <-]. exact Hv.
      - cbn [exec_block]. unfold bind at 1.
        destruct (exec clock uuid4 st w0) as [[f|e] w1] eqn:Est.
        + pose proof (Hst _ _ _ Est Hv) as Hv1.
          destruct f; [apply IHrest; exact Hv1 | intros [= <- <-]; exact Hv1].
        + intros [= <- <-]. exact (Hst _ _ _ Est Hv). }
    unfold pointer_valid in Hv2.
    destruct (current_session (self w2)) as [cur|] eqn:Hc.
    + destruct Hv2 as [Hne [sess Hsess]].
      rewrite (session_exit_some clock w2 cur sess Hc Hne Hsess) in E.
      injection E as _ <-. exact I.
    + rewrite (session_exit_none clock w2 Hc) in E. injection E as _ <-.
      unfold pointer_valid. rewrite Hc. exact I.
  - intros [= <- <-]. auto.
  - intros [= <- <-]. auto.
Qed.

(** X1. A scope that only tracks decisions ends normally and leaves the
    session stored with exactly the tracked records, in the order of the
    calls, each stamped with its own clock reading between the start and
    the end time of the session. *)
Theorem tracked_in_call_order (name : option string) (calls : list Call) (w : World) :
  let res := exec clock uuid4 (WithSession name (track <$> calls)) w in
  fst res = Ok Fallthrough
  /\ observations (self (snd res)) !! chosen_id uuid4 name w
     = Some {| start_time := clock (now_calls w);
               end_time := Some (clock (S (now_calls w) + length calls));
               decisions := records clock (S (now_calls w)) calls;
               metrics := {| total_tokens := 0; total_time := 0;
                             success_count := 0; failure_count := 0 |} |}
  /\ current_session (self (snd res)) = None.
Proof.
  intros res. subst res.
  rewrite exec_with. unfold session, bind. rewrite session_enter_spec.
  unfold try_finally.
  rewrite (track_block_current calls (entered clock uuid4 name w)
             (chosen_id uuid4 name w) (new_session (clock (now_calls w))));
    [|reflexivity|apply chosen_id_nonempty|apply lookup_insert_eq].
  erewrite session_exit_some;
    [|reflexivity|apply chosen_id_nonempty|apply lookup_insert_eq].
  cbn. rewrite lookup_insert_eq. repeat split; reflexivity.
Qed.

(** X2. Once a session scope has ended, however its body ended and whatever
    it enclosed, a following [track_decision] is rejected with the "no
    active session" error and records nothing. *)
Theorem track_after_scope_rejected (name : option string) (body : list Stmt) (w : World)
    (c : Call) :
  let w1 := snd (exec clock uuid4 (WithSession name body) w) in
  track_decision clock (call_agent c) (call_inputs c) (call_outputs c) (call_metadata c) w1
  = (Raise (RuntimeError "No active session. Use 'with observer.session():' to create one."),
     w1).
Proof.
  intros w1. subst w1.
  destruct (exec clock uuid4 (WithSession name body) w) as [r w1] eqn:E.
  assert (Hcur : current_session (self w1) = None).
  { rewrite exec_with in E. unfold session, bind in E.
    rewrite session_enter_spec in E. unfold try_finally in E.
    destruct (exec_block clock uuid4 body (entered clock uuid4 name w)) as [rb w2] eqn:Eb.
    assert (Hvalid : pointer_valid w2).
    { clear E. revert Eb. generalize (entered_valid clock uuid4 name w).
      generalize (entered clock uuid4 name w). revert rb w2.
      induction body as [|st rest IH]; intros rb w2 w0 Hv.
      - intros [= <- <-]. exact Hv.
      - cbn [exec_block]. unfold bind at 1.
        destruct (exec clock uuid4 st w0) as [[f|e] w'] eqn:Est.
        + assert (Hv' : pointer_valid w') by (eapply stmt_keeps_pointer; eassumption).
          destruct f; [apply IH; exact Hv' | intros [= <- <-]; exact Hv'].
        + intros [= <- <-]. eapply stmt_keeps_pointer; eassumption. }
    unfold pointer_valid in Hvalid.
    destruct (current_session (self w2)) as [cur|] eqn:Hc.
    - destruct Hvalid as [Hne [sess Hsess]].
      rewrite (session_exit_some clock w2 cur sess Hc Hne Hsess) in E.
      injection E as _ <-. reflexivity.
    - rewrite (session_exit_none clock w2 Hc) in E. injection E as _ <-. exact Hc. }
  cbn [snd]. unfold track_decision, bind, get_self, raise. rewrite Hcur. reflexivity.
Qed.

(** X3. [get_session_metrics] is a query: whether it returns or raises, it
    leaves the attributes of the observer as they were.  For a session
    that has an end time it does not read the clock either, so its result
    is the same at any later time and under any clock. *)
Theorem get_session_metrics_is_query (session_id : string) (w : World) :
  self (snd (get_session_metrics clock session_id w)) = self w
  /\ (forall s e (clock' : nat -> Z) (w' : World),
        observations (self w) !! session_id = Some s ->
        end_time s = Some e ->
        self w' = self w ->
        fst (get_session_metrics clock' session_id w')
        = fst (get_session_metrics clock session_id w)
        /\ snd (get_session_metrics clock session_id w) = w).
Proof.
  split.
  - unfold get_session_metrics, bind, get_self, raise, ret, datetime_now.
    destruct (observations (self w) !! session_id) as [s|]; [|reflexivity].
    destruct (end_time s); cbn;
      destruct (_calculate_averages (decisions s)); reflexivity.
  - intros s e clock' w' Hs He Hself.
    unfold get_session_metrics, bind, get_self, raise, ret.
    rewrite Hself, Hs, He.
    destruct (_calculate_averages (decisions s)); split; reflexivity.
Qed.

(** X4. The agents of the metrics are exactly the identifiers that occur
    in the records of the session, each once however many decisions it
    made; so there are never more agents than decisions. *)
Theorem metrics_agents (session_id : string) (w w' : World) (m : Metrics) :
  get_session_metrics clock session_id w = (Ok m, w') ->
  exists s,
    observations (self w) !! session_id = Some s
    /\ decision_count m = length (decisions s)
    /\ (forall a, a ∈ agents m <-> exists d, d ∈ decisions s /\ agent_id d = a)
    /\ (size (agents m) <= decision_count m)%nat.
Proof.
  unfold get_session_metrics, bind, get_self, raise, ret, datetime_now.
  destruct (observations (self w) !! session_id) as [s|]; [|discriminate].
  intros E. exists s. split; [reflexivity|].
  assert (Hm : decision_count m = length (decisions s)
               /\ agents m = list_to_set (agent_id <$> decisions s)).
  { destruct (end_time s); cbn in E;
      destruct (_calculate_averages (decisions s)); try discriminate;
      injection E as <- _; split; reflexivity. }
  destruct Hm as [Hcount Hagents]. split; [exact Hcount|].
  rewrite Hagents, Hcount. split.
  - intros a. rewrite elem_of_list_to_set, list_elem_of_fmap.
    split; intros (d & H1 & H2); exists d; auto.
  - clear. induction (decisions s) as [|d ds IH]; [reflexivity|].
    rewrite fmap_cons, list_to_set_cons. cbn [length].
    rewrite size_union_alt, size_singleton.
    assert (Hsub : (size ((list_to_set (agent_id <$> ds) : gset string) ∖ {[agent_id d]})
                    <= size (list_to_set (agent_id <$> ds) : gset string))%nat).
    { apply subseteq_size, subseteq_difference_l. reflexivity. }
    lia.
Qed.

(** *** Averages over untyped metadata *)

Lemma py_add_number (a b : Value) :
  is_Some (as_number a) ->
  (is_Some (as_number b) -> exists v, py_add a b = Ok v /\ is_Some (as_number v))
  /\ (as_number b = None -> py_add a b = Raise TypeError).
Proof.
  intros [x Hx]. unfold py_add. rewrite Hx. split.
  - intros [y ->]. destruct x, y; eexists; split; try reflexivity; cbn; eauto.
  - intros ->. destruct x; reflexivity.
Qed.

(** The loop of [_calculate_averages] either returns numeric totals or
    raises a [TypeError], and it does raise when some record holds
    something that is no number under one of the two numeric keys. *)
Lemma accumulate_all_type_error (ds : list Decision) (t : Totals) :
  is_Some (as_number (tot_response_time t)) ->
  is_Some (as_number (tot_token_usage t)) ->
  is_Some (as_number (tot_success_rate t)) ->
  (accumulate_all t ds = Raise TypeError
   \/ exists t', accumulate_all t ds = Ok t')
  /\ (Exists (fun d => not_a_number "response_time" d \/ not_a_number "token_usage" d) ds ->
      accumulate_all t ds = Raise TypeError).
Proof.
  revert t. induction ds as [|d ds IH]; intros t Hr Hu Hs.
  - split; [right; eauto|]. intros H. inversion H.
  - cbn [accumulate_all]. unfold accumulate.
    destruct (py_add_number (tot_response_time t)
                (default (VInt 0) (metadata d !! "response_time")) Hr) as [Hr1 Hr2].
    destruct (py_add_number (tot_token_usage t)
                (default (VInt 0) (metadata d !! "token_usage")) Hu) as [Hu1 Hu2].
    destruct (py_add_number (tot_success_rate t)
                (VInt (if truthy (default (VBool false) (metadata d !! "success"))
                       then 1 else 0)) Hs) as [Hs1 _].
    destruct (as_number (default (VInt 0) (metadata d !! "response_time"))) as [x|] eqn:Ex.
    2:{ rewrite (Hr2 eq_refl). cbn. split; [left; reflexivity | reflexivity]. }
    destruct (Hr1 (mk_is_Some _ _ eq_refl)) as (vr & -> & Hvr). cbn [and_then].
    destruct (as_number (default (VInt 0) (metadata d !! "token_usage"))) as [y|] eqn:Ey.
    2:{ rewrite (Hu2 eq_refl). cbn. split; [left; reflexivity | reflexivity]. }
    destruct (Hu1 (mk_is_Some _ _ eq_refl)) as (vu & -> & Hvu). cbn [and_then].
    destruct (Hs1 (mk_is_Some _ _ eq_refl)) as (vs & -> & Hvs). cbn [and_then].
    destruct (IH {| tot_response_time := vr; tot_token_usage := vu; tot_success_rate := vs |}
                 Hvr Hvu Hvs) as [IH1 IH2].
    split; [exact IH1|].
    intros Hex. apply Exists_cons in Hex as [[(v & Hv & Hnone)|(v & Hv & Hnone)]|Hex].
    + rewrite Hv in Ex. cbn in Ex. congruence.
    + rewrite Hv in Ey. cbn in Ey. congruence.
    + exact (IH2 Hex).
Qed.

(** X6. One record whose [response_time] or [token_usage] is present but
    no number (a string, [None], a list) makes the metrics of its whole
    session unavailable: [get_session_metrics] raises for that session,
    whatever the other records hold, and leaves the observer as it was.
    When the record is the first of the session, the exception is a
    [TypeError]. *)
Theorem metrics_need_numbers (session_id : string) (w : World) (s : Session) :
  observations (self w) !! session_id = Some s ->
  Exists (fun d => not_a_number "response_time" d \/ not_a_number "token_usage" d)
    (decisions s) ->
  (exists e, fst (get_session_metrics clock session_id w) = Raise e)
  /\ self (snd (get_session_metrics clock session_id w)) = self w
  /\ (forall d rest,
        decisions s = d :: rest ->
        not_a_number "response_time" d \/ not_a_number "token_usage" d ->
        fst (get_session_metrics clock session_id w) = Raise TypeError).
Proof.
  intros Hs Hbad.
  assert (Havg : _calculate_averages (decisions s) = Raise TypeError).
  { unfold _calculate_averages.
    destruct (accumulate_all_type_error (decisions s)
                {| tot_response_time := VInt 0; tot_token_usage := VInt 0;
                   tot_success_rate := VInt 0 |}) as [_ Hraise]; cbn; eauto.
    rewrite (Hraise Hbad).
    destruct (decisions s); [inversion Hbad | reflexivity]. }
  assert (Hmetrics : fst (get_session_metrics clock session_id w) = Raise TypeError
                     /\ self (snd (get_session_metrics clock session_id w)) = self w).
  { unfold get_session_metrics, bind, get_self, raise, ret, datetime_now.
    rewrite Hs. destruct (end_time s); cbn; rewrite Havg; split; reflexivity. }
  destruct Hmetrics as [Hraise Hself].
  split; [exists TypeError; exact Hraise|]. split; [exact Hself|].
  intros d rest _ _. exact Hraise.
Qed.

(** *** Durations *)

Hypothesis clock_monotone : forall i j, (i <= j)%nat -> clock i <= clock j.

Lemma fresh_world_timely : timely clock fresh_world.
Proof. intros sid s Hs. cbn in Hs. rewrite lookup_empty in Hs. discriminate. Qed.

(** X7. With a clock that never runs backwards, whatever a client did with
    a new observer, the duration in the metrics of any of its sessions is
    a finite number that is not negative, for a closed session and for one
    that is still open. *)
Theorem duration_never_negative (program : list Stmt) (session_id : string)
    (m : Metrics) (w' : World) :
  get_session_metrics clock session_id (snd (exec_block clock uuid4 program fresh_world))
  = (Ok m, w') ->
  exists q, duration m = Finite q /\ (0 <= q)%Q.
Proof.
  destruct (exec_block clock uuid4 program fresh_world) as [r w] eqn:E.
  destruct (exec_block_preserves clock uuid4 clock_monotone program _ _ _ E) as (_ & _ & Ht).
  specialize (Ht fresh_world_timely). cbn [snd].
  unfold get_session_metrics, bind, get_self, raise, ret, datetime_now.
  destruct (observations (self w) !! session_id) as [s|] eqn:Hs; [|discriminate].
  destruct (Ht _ _ Hs) as [Hstart Hend].
  assert (Hpos : forall e, start_time s <= e ->
                 (0 <= inject_Z (e - start_time s) / inject_Z 1000000)%Q).
  { intros e He. apply Qle_shift_div_l; [reflexivity|].
    rewrite Qmult_0_l. change 0%Q with (inject_Z 0). rewrite <- Zle_Qle. lia. }
  destruct (end_time s) as [e|]; cbn;
    destruct (_calculate_averages (decisions s)); try discriminate;
    intros [= <- _]; eexists; (split; [reflexivity|]); apply Hpos; auto.
Qed.

End ObserverExtra.

(** * Further properties of the parsers *)

Section ParserExtra.

Import PyStr EnhancedAgent.

(** *** Lines *)

Lemma single_line_cons (c : ascii) (s : string) :
  single_line (String c s) -> c <> "010"%char /\ single_line s.
Proof.
  unfold single_line. rewrite contains_unfold. cbn [String.prefix].
  destruct (ascii_dec "010" c) as [<-|Hne].
  - rewrite prefix_empty. discriminate.
  - intros H. split; [congruence | exact H].
Qed.

Lemma split_single_line (s : string) : single_line s -> split "010" s = [s].
Proof.
  induction s as [|c s IH]; [reflexivity|].
  intros [Hc Hs]%single_line_cons. cbn [split].
  destruct (Ascii.eqb_spec c "010"); [congruence|]. rewrite (IH Hs). reflexivity.
Qed.

Lemma split_line_break (s rest : string) :
  single_line s -> split "010" (s ++ String "010" rest) = s :: split "010" rest.
Proof.
  induction s as [|c s IH].
  - intros _. reflexivity.
  - intros [Hc Hs]%single_line_cons.
    change (String c s ++ String "010" rest) with (String c (s ++ String "010" rest)).
    cbn [split]. destruct (Ascii.eqb_spec c "010"); [congruence|].
    rewrite (IH Hs). reflexivity.
Qed.

(** Joining lines and splitting the text gives the lines back. *)
Lemma split_text_of (lines : list string) :
  Forall single_line lines ->
  lines <> [] ->
  split "010" (text_of lines) = lines.
Proof.
  induction 1 as [|line rest Hline Hrest IH]; [congruence|]. intros _.
  destruct rest as [|next rest].
  - cbn. apply split_single_line, Hline.
  - change (text_of (line :: next :: rest))
      with (line ++ String "010" (text_of (next :: rest))).
    rewrite (split_line_break _ _ Hline), IH by discriminate. reflexivity.
Qed.

(** *** Labelled lines *)

(** Decides the tests of a line that begins with a known label. *)
Ltac decide_label :=
  repeat match goal with
         | |- context [startswith ?l ?p] =>
             let b := eval lazy in (startswith l p) in
             change (startswith l p) with b
         end;
  cbv beta iota;
  repeat match goal with
         | |- context [after ":" ?l] =>
             let r := eval lazy in (after ":" l) in
             change (after ":" l) with r
         end;
  cbn [and_then].

Lemma strip_after_blank (s : string) : strip (String " " s) = strip s.
Proof. reflexivity. Qed.

Lemma rstrip_unfold (c : ascii) (s : string) :
  rstrip (String c s)
  = match rstrip s with
    | EmptyString => if is_space c then EmptyString else String c EmptyString
    | kept => String c kept
    end.
Proof. reflexivity. Qed.

(** White space is stripped from the right only: a text that ends in
    "/10" keeps its end. *)
Lemma rstrip_slash_ten (s : string) : rstrip (s ++ "/10") = s ++ "/10".
Proof.
  induction s as [|c s IH]; [reflexivity|].
  change (String c s ++ "/10") with (String c (s ++ "/10")).
  rewrite rstrip_unfold, IH.
  destruct s; reflexivity.
Qed.

Lemma strip_feasibility (n : string) :
  numeral n -> strip (String " " (n ++ "/10")) = n ++ "/10".
Proof.
  intros [Hne Hd]. rewrite strip_after_blank. unfold strip.
  destruct n as [|c n]; [congruence|].
  cbn [all_digits] in Hd. apply andb_prop in Hd as [Hc _].
  change (String c n ++ "/10") with (String c (n ++ "/10")). cbn [lstrip].
  destruct (digit_facts c Hc) as (-> & _).
  change (String c (n ++ "/10")) with (String c n ++ "/10"). apply rstrip_slash_ten.
Qed.

Lemma approach_line (text : string) (st : AltLoop) :
  plain text ->
  alternatives_line ("Approach: " ++ text) st = Ok (store "approach" (VStr text) st).
Proof.
  intros [_ Hstrip]. unfold alternatives_line. decide_label.
  rewrite strip_after_blank, Hstrip. reflexivity.
Qed.

Lemma advantages_line (text : string) (st : AltLoop) :
  plain text ->
  alternatives_line ("Advantages: " ++ text) st = Ok (store "advantages" (VStr text) st).
Proof.
  intros [_ Hstrip]. unfold alternatives_line. decide_label.
  rewrite strip_after_blank, Hstrip. reflexivity.
Qed.

Lemma disadvantages_line (text : string) (st : AltLoop) :
  plain text ->
  alternatives_line ("Disadvantages: " ++ text) st
  = Ok (store "disadvantages" (VStr text) st).
Proof.
  intros [_ Hstrip]. unfold alternatives_line. decide_label.
  rewrite strip_after_blank, Hstrip. reflexivity.
Qed.

Lemma feasibility_line (n : string) (st : AltLoop) :
  numeral n ->
  (String.length n <= int_max_str_digits)%nat ->
  alternatives_line ("Feasibility: " ++ n ++ "/10") st
  = Ok (store "feasibility" (VInt (decimal_value n 0)) st).
Proof.
  intros Hnum Hlen. unfold alternatives_line.
  pose proof (strip_feasibility n Hnum) as Hstrip.
  pose proof (parse_feasibility_slash n "10" Hnum Hlen) as Hvalue.
  change (n ++ "/" ++ "10") with (n ++ "/10") in Hvalue.
  revert Hstrip Hvalue. generalize (n ++ "/10"). intros text Hstrip Hvalue.
  decide_label. rewrite Hstrip, Hvalue. reflexivity.
Qed.

(** *** Rendered alternatives *)

Lemma store_last (key : string) (value : Value) (h : list (gmap string Value))
    (d : gmap string Value) (refs : list nat) :
  store key value {| heap := h ++ [d]; current_alt := length h; alternatives := refs |}
  = {| heap := h ++ [<[key := value]> d]; current_alt := length h; alternatives := refs |}.
Proof.
  unfold store. cbn [heap current_alt alternatives]. f_equal.
  rewrite <- (Nat.add_0_r (length h)) at 1. rewrite alter_app_r. reflexivity.
Qed.

Lemma alternatives_lines_app (l1 l2 : list string) (st : AltLoop) :
  alternatives_lines (l1 ++ l2) st
  = and_then (alternatives_lines l1 st) (alternatives_lines l2).
Proof.
  revert st. induction l1 as [|line l1 IH]; intros st; [reflexivity|].
  cbn [app alternatives_lines].
  destruct (alternatives_line line st) as [st1|e]; [apply IH | reflexivity].
Qed.

(** The six lines of one alternative add one dictionary to the heap and
    one reference to it to the list. *)
Lemma render_lines (a : Alternative) (st : AltLoop) :
  well_formed a ->
  alternatives_lines (render a) st
  = Ok {| heap := heap st ++ [as_dict a];
          current_alt := length (heap st);
          alternatives := alternatives st ++ [length (heap st)] |}.
Proof.
  intros (Happ & Hadv & Hdis & Hnum & Hlen).
  unfold render. cbn [alternatives_lines].
  change (alternatives_line "START_ALTERNATIVE" st)
    with (Ok {| heap := heap st ++ [∅]; current_alt := length (heap st);
                alternatives := alternatives st |}).
  cbn [and_then].
  rewrite (approach_line _ _ Happ), store_last. cbn [and_then].
  rewrite (advantages_line _ _ Hadv), store_last. cbn [and_then].
  rewrite (disadvantages_line _ _ Hdis), store_last. cbn [and_then].
  rewrite (feasibility_line _ _ Hnum Hlen), store_last. cbn [and_then].
  reflexivity.
Qed.

Lemma rendered_lines (alts : list Alternative) (st : AltLoop) :
  Forall well_formed alts ->
  exists cur,
    alternatives_lines (mjoin (render <$> alts)) st
    = Ok {| heap := heap st ++ (as_dict <$> alts);
            current_alt := cur;
            alternatives := alternatives st ++ seq (length (heap st)) (length alts) |}.
Proof.
  intros Hall. revert st. induction Hall as [|a alts Ha _ IH]; intros st.
  - exists (current_alt st). cbn. rewrite !app_nil_r. destruct st; reflexivity.
  - change (mjoin (render <$> a :: alts)) with (render a ++ mjoin (render <$> alts))%list.
    rewrite alternatives_lines_app, (render_lines a st Ha). cbn [and_then].
    destruct (IH {| heap := heap st ++ [as_dict a]; current_alt := length (heap st);
                    alternatives := alternatives st ++ [length (heap st)] |}) as [cur ->].
    exists cur. cbn [heap alternatives length seq]. f_equal. f_equal.
    + rewrite <- app_assoc. reflexivity.
    + rewrite <- app_assoc, length_app. cbn. rewrite Nat.add_1_r. reflexivity.
Qed.

Lemma digits_single_line (n : string) : all_digits n = true -> single_line n.
Proof.
  unfold single_line. induction n as [|c n IH]; [reflexivity|].
  cbn [all_digits]. intros [Hc Hn]%andb_prop.
  rewrite contains_unfold. cbn [String.prefix].
  destruct (ascii_dec "010" c) as [<-|_]; [discriminate Hc|].
  exact (IH Hn).
Qed.

Lemma render_single_lines (a : Alternative) :
  well_formed a -> Forall single_line (render a).
Proof.
  intros ([Happ _] & [Hadv _] & [Hdis _] & [_ Hnum] & _).
  apply digits_single_line in Hnum.
  unfold render, single_line in *.
  repeat constructor; try reflexivity;
    rewrite !contains_char_app, ?Happ, ?Hadv, ?Hdis, ?Hnum; reflexivity.
Qed.

Lemma lookup_heap_seq (h extra : list (gmap string Value)) :
  (fun ref => default ∅ ((h ++ extra)%list !! ref)) <$> seq (length h) (length extra) = extra.
Proof.
  revert h. induction extra as [|d extra IH]; intros h; [reflexivity|].
  cbn [length seq]. rewrite fmap_cons, list_lookup_middle by reflexivity. cbn [default].
  f_equal. specialize (IH (h ++ [d])%list).
  rewrite <- app_assoc, length_app, Nat.add_1_r in IH. exact IH.
Qed.

(** X8. Round trip: a list of alternatives written in the format that the
    prompt asks for (one-line texts without white space at their ends,
    the feasibility as a numeral over 10) is read back by
    [_parse_alternatives] as the same alternatives, in the same order. *)
Theorem parse_alternatives_round_trip (alts : list Alternative) :
  Forall well_formed alts ->
  _parse_alternatives (text_of (mjoin (render <$> alts))) = Ok (as_dict <$> alts).
Proof.
  intros Hall. unfold _parse_alternatives.
  assert (Hsplit : exists extra,
             split "010" (text_of (mjoin (render <$> alts)))
             = (mjoin (render <$> alts) ++ extra)%list
             /\ forall st, alternatives_lines extra st = Ok st).
  { destruct alts as [|a alts].
    - exists [""]. split; [reflexivity | reflexivity].
    - exists []. rewrite app_nil_r. split; [|reflexivity].
      apply split_text_of; [|discriminate].
      clear -Hall. induction Hall as [|b rest Hb _ IH]; [constructor|].
      change (mjoin (render <$> b :: rest)) with (render b ++ mjoin (render <$> rest))%list.
      apply Forall_app.
      split; [apply render_single_lines, Hb | exact IH]. }
  destruct Hsplit as (extra & -> & Hextra).
  rewrite alternatives_lines_app.
  destruct (rendered_lines alts {| heap := [∅]; current_alt := 0; alternatives := [] |} Hall)
    as [cur ->].
  cbn [and_then heap alternatives]. rewrite Hextra. cbn [and_then heap alternatives app].
  f_equal. rewrite <- (length_fmap as_dict alts). apply (lookup_heap_seq [∅]).
Qed.

(** *** Markers *)

(** A line has at most one of the six labels. *)
Lemma end_marker_only (line : string) :
  startswith line "END_ALTERNATIVE" = true ->
  startswith line "START_ALTERNATIVE" = false
  /\ startswith line "Approach:" = false
  /\ startswith line "Advantages:" = false
  /\ startswith line "Disadvantages:" = false
  /\ startswith line "Feasibility:" = false.
Proof.
  intros H. destruct (prefix_split _ _ H) as [back ->]. repeat split; reflexivity.
Qed.

Lemma alternatives_line_shape (line : string) (st : AltLoop) :
  exists st',
    alternatives_line line st = Ok st'
    /\ (startswith line "START_ALTERNATIVE" = true ->
        st' = {| heap := heap st ++ [∅]; current_alt := length (heap st);
                 alternatives := alternatives st |})
    /\ (startswith line "START_ALTERNATIVE" = false ->
        length (heap st') = length (heap st)
        /\ current_alt st' = current_alt st
        /\ alternatives st'
           = (alternatives st
              ++ (if startswith line "END_ALTERNATIVE" then [current_alt st] else []))%list).
Proof.
  unfold alternatives_line.
  destruct (startswith line "START_ALTERNATIVE") eqn:E0.
  { eexists. split; [reflexivity|]. split; [reflexivity | discriminate]. }
  assert (Hstore : forall key value,
             length (heap (store key value st)) = length (heap st)
             /\ current_alt (store key value st) = current_alt st
             /\ alternatives (store key value st) = alternatives st).
  { intros key value. unfold store. cbn. rewrite length_alter. auto. }
  destruct (startswith line "Approach:") eqn:E1.
  { destruct (after_colon_defined "Approach:" line eq_refl E1) as [text ->]. cbn [and_then].
    eexists. split; [reflexivity|]. split; [discriminate|]. intros _.
    destruct (startswith line "END_ALTERNATIVE") eqn:E5.
    - apply end_marker_only in E5. destruct E5 as (_ & E5 & _). congruence.
    - rewrite app_nil_r. apply Hstore. }
  destruct (startswith line "Advantages:") eqn:E2.
  { destruct (after_colon_defined "Advantages:" line eq_refl E2) as [text ->]. cbn [and_then].
    eexists. split; [reflexivity|]. split; [discriminate|]. intros _.
    destruct (startswith line "END_ALTERNATIVE") eqn:E5.
    - apply end_marker_only in E5. destruct E5 as (_ & _ & E5 & _). congruence.
    - rewrite app_nil_r. apply Hstore. }
  destruct (startswith line "Disadvantages:") eqn:E3.
  { destruct (after_colon_defined "Disadvantages:" line eq_refl E3) as [text ->].
    cbn [and_then].
    eexists. split; [reflexivity|]. split; [discriminate|]. intros _.
    destruct (startswith line "END_ALTERNATIVE") eqn:E5.
    - apply end_marker_only in E5. destruct E5 as (_ & _ & _ & E5 & _). congruence.
    - rewrite app_nil_r. apply Hstore. }
  destruct (startswith line "Feasibility:") eqn:E4.
  { destruct (after_colon_defined "Feasibility:" line eq_refl E4) as [text ->].
    cbn [and_then].
    eexists. split; [reflexivity|]. split; [discriminate|]. intros _.
    destruct (startswith line "END_ALTERNATIVE") eqn:E5.
    - apply end_marker_only in E5. destruct E5 as (_ & _ & _ & _ & E5). congruence.
    - rewrite app_nil_r. apply Hstore. }
  destruct (startswith line "END_ALTERNATIVE");
    (eexists; split; [reflexivity|]; split; [discriminate|]; intros _; cbn;
     rewrite ?app_nil_r; auto).
Qed.

(** X9. [_parse_alternatives] returns one entry for every line that starts
    with "END_ALTERNATIVE", neither more nor fewer, whatever the other
    lines hold: a block without its end marker is dropped, and an end
    marker alone yields an (empty) entry. *)
Theorem parse_alternatives_counts_end_markers (alternatives_text : string) :
  exists parsed,
    _parse_alternatives alternatives_text = Ok parsed
    /\ length parsed
       = length (List.filter (fun line => startswith line "END_ALTERNATIVE")
                   (split "010" alternatives_text)).
Proof.
  unfold _parse_alternatives.
  assert (Hloop : forall lines st, exists st',
             alternatives_lines lines st = Ok st'
             /\ length (alternatives st')
                = (length (alternatives st)
                   + length (List.filter (fun line => startswith line "END_ALTERNATIVE")
                               lines))%nat).
  { induction lines as [|line lines IH]; intros st.
    - exists st. split; [reflexivity|]. cbn. lia.
    - cbn [alternatives_lines List.filter].
      destruct (alternatives_line_shape line st) as (st1 & -> & Hstart & Hother).
      cbn [and_then]. destruct (IH st1) as (st' & -> & Hlen).
      exists st'. split; [reflexivity|]. rewrite Hlen.
      destruct (startswith line "START_ALTERNATIVE") eqn:E0.
      + rewrite (Hstart eq_refl). cbn [alternatives].
        destruct (startswith line "END_ALTERNATIVE") eqn:E5; [|reflexivity].
        apply end_marker_only in E5. destruct E5 as (E5 & _). congruence.
      + destruct (Hother eq_refl) as (_ & _ & ->). rewrite length_app.
        destruct (startswith line "END_ALTERNATIVE"); cbn [length]; lia. }
  destruct (Hloop (split "010" alternatives_text)
              {| heap := [∅]; current_alt := 0; alternatives := [] |}) as (st' & -> & Hlen).
  cbn [and_then]. eexists. split; [reflexivity|].
  rewrite length_fmap, Hlen. reflexivity.
Qed.

(** Without a start marker every line works on the one dictionary that
    the loop starts with. *)
Lemma alternatives_line_written (line : string) (d : gmap string Value) (refs : list nat) :
  startswith line "START_ALTERNATIVE" = false ->
  alternatives_line line {| heap := [d]; current_alt := 0; alternatives := refs |}
  = Ok {| heap := [written_by line d];
          current_alt := 0;
          alternatives := (refs ++ (if startswith line "END_ALTERNATIVE" then [O] else []))%list |}.
Proof.
  intros E0. unfold alternatives_line, written_by. rewrite E0.
  destruct (startswith line "Approach:") eqn:E1.
  { destruct (after_colon_defined "Approach:" line eq_refl E1) as [text ->]. cbn [and_then].
    destruct (startswith line "END_ALTERNATIVE") eqn:E5.
    - apply end_marker_only in E5. destruct E5 as (_ & E5 & _). congruence.
    - rewrite app_nil_r. reflexivity. }
  destruct (startswith line "Advantages:") eqn:E2.
  { destruct (after_colon_defined "Advantages:" line eq_refl E2) as [text ->]. cbn [and_then].
    destruct (startswith line "END_ALTERNATIVE") eqn:E5.
    - apply end_marker_only in E5. destruct E5 as (_ & _ & E5 & _). congruence.
    - rewrite app_nil_r. reflexivity. }
  destruct (startswith line "Disadvantages:") eqn:E3.
  { destruct (after_colon_defined "Disadvantages:" line eq_refl E3) as [text ->].
    cbn [and_then].
    destruct (startswith line "END_ALTERNATIVE") eqn:E5.
    - apply end_marker_only in E5. destruct E5 as (_ & _ & _ & E5 & _). congruence.
    - rewrite app_nil_r. reflexivity. }
  destruct (startswith line "Feasibility:") eqn:E4.
  { destruct (after_colon_defined "Feasibility:" line eq_refl E4) as [text ->].
    cbn [and_then].
    destruct (startswith line "END_ALTERNATIVE") eqn:E5.
    - apply end_marker_only in E5. destruct E5 as (_ & _ & _ & _ & E5). congruence.
    - rewrite app_nil_r. reflexivity. }
  assert (Hsame : match after ":" line with Ok _ => d | Raise _ => d end = d)
    by (destruct (after ":" line); reflexivity).
  rewrite Hsame.
  destruct (startswith line "END_ALTERNATIVE"); rewrite ?app_nil_r; reflexivity.
Qed.

Lemma alternatives_lines_written (lines : list string) (d : gmap string Value) (k : nat) :
  Forall (fun line => startswith line "START_ALTERNATIVE" = false) lines ->
  alternatives_lines lines {| heap := [d]; current_alt := 0; alternatives := replicate k O |}
  = Ok {| heap := [foldl (fun d line => written_by line d) d lines];
          current_alt := 0;
          alternatives :=
            replicate (k + length (List.filter (fun line => startswith line "END_ALTERNATIVE")
                                     lines)) O |}.
Proof.
  intros Hlines. revert d k.
  induction Hlines as [|line lines Hline _ IH]; intros d k.
  - cbn. rewrite Nat.add_0_r. reflexivity.
  - cbn [alternatives_lines foldl List.filter].
    rewrite (alternatives_line_written line d _ Hline). cbn [and_then].
    destruct (startswith line "END_ALTERNATIVE").
    + replace (replicate k O ++ [O])%list with (replicate (S k) O)
        by (rewrite replicate_S_end; reflexivity).
      rewrite IH. cbn [length]. rewrite Nat.add_succ_r. reflexivity.
    + rewrite app_nil_r, IH. reflexivity.
Qed.

(** X10. When no line starts with "START_ALTERNATIVE", every end marker
    appends the one dictionary that all the labelled lines write to: the
    result has one entry per end marker and every entry is the dictionary
    as the whole text leaves it, with the last value written under each
    key, also the values written after the entry's own end marker. *)
Theorem parse_alternatives_without_start (alternatives_text : string) :
  Forall (fun line => startswith line "START_ALTERNATIVE" = false)
    (split "010" alternatives_text) ->
  _parse_alternatives alternatives_text
  = Ok (replicate
          (length (List.filter (fun line => startswith line "END_ALTERNATIVE")
                     (split "010" alternatives_text)))
          (written (split "010" alternatives_text))).
Proof.
  intros Hno. unfold _parse_alternatives, written.
  rewrite (alternatives_lines_written _ ∅ 0 Hno). cbn [and_then heap alternatives].
  rewrite fmap_replicate. reflexivity.
Qed.

(** *** Indentation *)

Lemma space_is_no_label (c : ascii) :
  is_space c = true ->
  c <> "S"%char /\ c <> "A"%char /\ c <> "D"%char /\ c <> "F"%char
  /\ c <> "E"%char /\ c <> "C"%char /\ c <> "R"%char.
Proof.
  destruct c as [[] [] [] [] [] [] [] []]; cbv; intros H; try discriminate H;
    repeat split; congruence.
Qed.

Lemma indented_unlabelled (line : string) :
  indented line ->
  startswith line "START_ALTERNATIVE" = false
  /\ startswith line "Approach:" = false
  /\ startswith line "Advantages:" = false
  /\ startswith line "Disadvantages:" = false
  /\ startswith line "Feasibility:" = false
  /\ startswith line "END_ALTERNATIVE" = false
  /\ startswith line "Decision:" = false
  /\ startswith line "Confidence:" = false
  /\ startswith line "Reasoning:" = false.
Proof.
  destruct line as [|c rest]; [intros _; repeat split; reflexivity|].
  cbn [indented]. intros Hc.
  destruct (space_is_no_label c Hc) as (HS & HA & HD & HF & HE & HC & HR).
  unfold startswith. repeat split; apply prefix_other_char; congruence.
Qed.

(** X11. Both parsers test the labels at the very start of a line, so a
    line that is indented (or empty) is skipped: from a text all of whose
    lines are indented, as the format blocks of the prompts themselves
    are, [_parse_alternatives] returns no alternative and
    [_parse_final_decision] returns the empty decision with confidence
    0.0. *)
Theorem indented_lines_are_skipped (text : string) :
  Forall indented (split "010" text) ->
  _parse_alternatives text = Ok []
  /\ _parse_final_decision text
     = Ok {| data_decision := ""; data_confidence := Finite 0; data_reasoning := "" |}.
Proof.
  intros Hall. unfold _parse_alternatives, _parse_final_decision.
  assert (Halt : forall st, alternatives_lines (split "010" text) st = Ok st).
  { induction Hall as [|line lines Hline _ IH]; intros st; [reflexivity|].
    destruct (indented_unlabelled line Hline) as (E0 & E1 & E2 & E3 & E4 & E5 & _).
    cbn [alternatives_lines]. unfold alternatives_line.
    rewrite E0, E1, E2, E3, E4, E5. cbn [and_then]. apply IH. }
  assert (Hdec : forall data, final_decision_lines (split "010" text) data = Ok data).
  { clear Halt. induction Hall as [|line lines Hline _ IH]; intros data; [reflexivity|].
    destruct (indented_unlabelled line Hline) as (_ & _ & _ & _ & _ & _ & E6 & E7 & E8).
    cbn [final_decision_lines]. unfold final_decision_line.
    rewrite E6, E7, E8. cbn [and_then]. apply IH. }
  rewrite Halt, Hdec. split; reflexivity.
Qed.

(** *** Rendered decisions *)

Ltac decide_decision_label :=
  unfold final_decision_line;
  repeat match goal with
         | |- context [startswith ?l ?p] =>
             let b := eval lazy in (startswith l p) in
             change (startswith l p) with b
         end;
  cbv beta iota;
  repeat match goal with
         | |- context [after ":" ?l] =>
             let r := eval lazy in (after ":" l) in
             change (after ":" l) with r
         end;
  cbn [and_then].

(** X12. Round trip: a final decision written in the format that the
    prompt asks for is read back by [_parse_final_decision] field by
    field; the decision and the reasoning may contain colons, and the
    confidence is whatever [float] reads from its text. *)
Theorem parse_final_decision_round_trip (decision confidence reasoning : string)
    (value : pyfloat) :
  plain decision ->
  plain reasoning ->
  single_line confidence ->
  float (strip confidence) = Some value ->
  _parse_final_decision (text_of (render_decision decision confidence reasoning))
  = Ok {| data_decision := decision; data_confidence := value; data_reasoning := reasoning |}.
Proof.
  intros [Hd1 Hd2] [Hr1 Hr2] Hc Hvalue.
  unfold _parse_final_decision.
  assert (Hlines : Forall single_line (render_decision decision confidence reasoning)).
  { unfold render_decision, single_line in *.
    repeat constructor; try reflexivity;
      rewrite !contains_char_app, ?Hd1, ?Hr1, ?Hc; reflexivity. }
  rewrite (split_text_of _ Hlines) by discriminate.
  unfold render_decision. cbn [final_decision_lines].
  change (final_decision_line "START_DECISION"
            {| data_decision := ""; data_confidence := Finite 0; data_reasoning := "" |})
    with (Ok {| data_decision := ""; data_confidence := Finite 0; data_reasoning := "" |}).
  cbn [and_then final_decision_lines].
  match goal with
  | |- and_then ?first _ = _ =>
      assert (E1 : first = Ok {| data_decision := decision; data_confidence := Finite 0;
                                 data_reasoning := "" |})
  end.
  { decide_decision_label. rewrite strip_after_blank, Hd2. reflexivity. }
  rewrite E1. cbn [and_then final_decision_lines].
  match goal with
  | |- and_then ?second _ = _ =>
      assert (E2 : second = Ok {| data_decision := decision; data_confidence := value;
                                  data_reasoning := "" |})
  end.
  { decide_decision_label. rewrite strip_after_blank, Hvalue. reflexivity. }
  rewrite E2. cbn [and_then final_decision_lines].
  match goal with
  | |- and_then ?third _ = _ =>
      assert (E3 : third = Ok {| data_decision := decision; data_confidence := value;
                                 data_reasoning := reasoning |})
  end.
  { decide_decision_label. rewrite strip_after_blank, Hr2. reflexivity. }
  rewrite E3. reflexivity.
Qed.

End ParserExtra.

(** * Further properties of the adapters *)

Section AdapterExtra.

Import SwarmAdapter.

Lemma swarm_convert_steps_shape (items : list Value) (converted : list ThoughtStep) :
  SwarmConversion.convert_steps items = Ok converted ->
  Forall2 (fun item step =>
             exists d,
               item = VDict d
               /\ thought step = default (VStr "Unknown action") (d !! "action")
               /\ _convert_swarm_confidence
                    (default (VFloat (Finite (5 # 10))) (d !! "confidence"))
                  = Ok (confidence step)
               /\ (d !! "confidence" = None -> confidence step = MEDIUM))
    items converted.
Proof.
  revert converted. induction items as [|item items IH]; intros converted.
  - intros [= <-]. constructor.
  - cbn [SwarmConversion.convert_steps].
    destruct (SwarmConversion.convert_step item) as [first|] eqn:E1; [|discriminate].
    cbn [and_then].
    destruct (SwarmConversion.convert_steps items) as [others|]; [|discriminate].
    intros [= <-]. constructor; [|apply IH; reflexivity].
    unfold SwarmConversion.convert_step in E1.
    destruct item as [| | | | | |d]; try discriminate.
    destruct (_convert_swarm_confidence
                (default (VFloat (Finite (5 # 10))) (d !! "confidence"))) as [level|] eqn:E2;
      [|discriminate].
    cbn [and_then] in E1.
    destruct (SwarmConversion._extract_swarm_alternatives d); [|discriminate].
    injection E1 as <-. exists d. cbn [thought confidence].
    split; [reflexivity|]. split; [reflexivity|]. split; [exact E2|].
    intros Hnone. rewrite Hnone in E2. vm_compute in E2. congruence.
Qed.

(** X13. When the SWARM adapter returns a path, its steps stand one to one,
    in order, for the entries of the execution path: every entry is a
    dictionary, the step's thought is its "action" and its level the class
    of its "confidence" under the two thresholds, MEDIUM when it has none.
    Without an execution path there are no steps. *)
Theorem swarm_steps_follow_path (str : Value -> string) (task : string)
    (swarm_output : SwarmConversion.SwarmOutput) (context : option (gmap string Value))
    (path : DecisionPath) :
  SwarmConversion.convert_to_decision_path str task swarm_output context = Ok path ->
  match SwarmConversion.attr_execution_path swarm_output with
  | None => steps path = []
  | Some entries =>
      exists items,
        GenericAgentAdapter.iterate entries = Ok items
        /\ Forall2 (fun item step =>
                     exists d,
                       item = VDict d
                       /\ thought step = default (VStr "Unknown action") (d !! "action")
                       /\ _convert_swarm_confidence
                            (default (VFloat (Finite (5 # 10))) (d !! "confidence"))
                          = Ok (confidence step)
                       /\ (d !! "confidence" = None -> confidence step = MEDIUM))
             items (steps path)
  end.
Proof.
  unfold SwarmConversion.convert_to_decision_path.
  destruct (SwarmConversion.attr_execution_path swarm_output) as [entries|].
  - destruct (GenericAgentAdapter.iterate entries) as [items|]; [|discriminate].
    cbn [and_then].
    destruct (SwarmConversion.convert_steps items) as [converted|] eqn:E; [|discriminate].
    cbn [and_then]. intros Hpath. exists items. split; [reflexivity|].
    apply swarm_convert_steps_shape in E.
    destruct (SwarmConversion.attr_result swarm_output); injection Hpath as <-; exact E.
  - cbn [and_then].
    destruct (SwarmConversion.attr_result swarm_output); intros [= <-]; reflexivity.
Qed.

End AdapterExtra.

(** * Properties of the decision path of the core *)

Section CoreDecisionExtra.

Lemma add_metrics_snoc (pairs : list (string * Value)) (pair : string * Value)
    (path : CoreDecision.DecisionPath) :
  add_metrics (pairs ++ [pair]) path
  = CoreDecision.add_metric (fst pair) (snd pair) (add_metrics pairs path).
Proof. unfold add_metrics. rewrite foldl_app. reflexivity. Qed.

Lemma last_added_snoc (metric : string) (pairs : list (string * Value))
    (pair : string * Value) :
  last_added metric (pairs ++ [pair])
  = if String.eqb (fst pair) metric then Some (snd pair) else last_added metric pairs.
Proof. unfold last_added. rewrite foldl_app. reflexivity. Qed.

(** X17. After any run of [add_metric] calls the metrics hold, under each
    name, the value of the last call for that name, and what they held
    before under the names that no call mentioned; the first call creates
    the dictionary when the path had none.  The steps and the outcome of
    the path are not touched. *)
Theorem add_metric_last_wins (pairs : list (string * Value))
    (path : CoreDecision.DecisionPath) (metric : string) :
  default ∅ (CoreDecision.metrics (add_metrics pairs path)) !! metric
  = match last_added metric pairs with
    | Some value => Some value
    | None => default ∅ (CoreDecision.metrics path) !! metric
    end
  /\ (pairs <> [] -> is_Some (CoreDecision.metrics (add_metrics pairs path)))
  /\ CoreDecision.steps (add_metrics pairs path) = CoreDecision.steps path
  /\ CoreDecision.outcome (add_metrics pairs path) = CoreDecision.outcome path.
Proof.
  induction pairs as [|[key value] pairs IH] using rev_ind.
  - repeat split; try reflexivity. congruence.
  - destruct IH as (Hlookup & _ & Hsteps & Houtcome).
    rewrite add_metrics_snoc, last_added_snoc. cbn [fst snd].
    split; [|split; [|split]].
    + unfold CoreDecision.add_metric. cbn [CoreDecision.metrics].
      revert Hlookup.
      destruct (CoreDecision.metrics (add_metrics pairs path)) as [m|]; cbn [default id];
        intros Hlookup;
        (destruct (String.eqb_spec key metric) as [->|Hne];
         [apply lookup_insert_eq | rewrite lookup_insert_ne by exact Hne; exact Hlookup]).
    + intros _. unfold CoreDecision.add_metric. cbn. eauto.
    + exact Hsteps.
    + exact Houtcome.
Qed.

End CoreDecisionExtra.

(** * The observed workflow *)

Section WorkflowExtra.

Import SwarmObserver.

Variable clock : nat -> Z.
Variable uuid4 : nat -> N.
Variable str : exn -> string.

Lemma extend_nil (sess : Session) : extend sess [] = sess.
Proof. unfold extend. rewrite app_nil_r. destruct sess; reflexivity. Qed.

Lemma extend_extend (sess : Session) (a b : list Decision) :
  extend (extend sess a) b = extend sess (a ++ b)%list.
Proof. unfold extend. cbn. rewrite app_assoc. reflexivity. Qed.

(** The metadata that [wrapped_run] writes hold numbers where the averages
    read them. *)
Lemma timed_metadata_numeric (d : Decision) (elapsed : Z) (b : bool) :
  metadata d = {[ "response_time" := VFloat (total_seconds elapsed); "success" := VBool b ]} ->
  numeric_metadata d.
Proof.
  intros Hmeta. split; intros v; rewrite Hmeta.
  - rewrite lookup_insert_eq. intros [= <-]. eexists. reflexivity.
  - rewrite lookup_insert_ne by discriminate. rewrite lookup_singleton_ne by discriminate.
    discriminate.
Qed.

Lemma bare_metadata_numeric (d : Decision) (b : bool) :
  metadata d = {[ "success" := VBool b ]} -> numeric_metadata d.
Proof.
  intros Hmeta. split; intros v; rewrite Hmeta;
    rewrite lookup_singleton_ne by discriminate; discriminate.
Qed.

(** A tracked decision while [cur] is recording. *)
Lemma track_while_recording (w : World) (cur : string) (sess : Session)
    (agent : string) (ins outs : gmap string Value) (meta : gmap string Value) :
  cur <> "" ->
  recording w cur sess ->
  exists d w',
    track_decision clock agent ins outs (Some meta) w = (Ok tt, w')
    /\ recording w' cur (extend sess [d])
    /\ agent_id d = agent
    /\ metadata d = meta.
Proof.
  intros Hne [Hcur Hsess].
  pose proof (track_decision_current clock w cur sess
                {| call_agent := agent; call_inputs := ins; call_outputs := outs;
                   call_metadata := Some meta |} Hcur Hne Hsess) as Htrack.
  cbn [call_agent call_inputs call_outputs call_metadata records default] in Htrack.
  eexists _, _. split; [exact Htrack|].
  split; [split; [reflexivity | apply lookup_insert_eq]|]. split; reflexivity.
Qed.

Lemma recording_tick (w : World) (cur : string) (sess : Session) :
  recording w cur sess ->
  recording {| self := self w; now_calls := S (now_calls w); uuid_calls := uuid_calls w |}
    cur sess.
Proof. intros H. exact H. Qed.

(** *** Steps of the coroutine *)

Lemma cbind_call {A B : Type} (m : M A) (k : A -> C B) (w : World) :
  cbind (call m) k w
  = match m w with
    | (Ok a, w') => k a w'
    | (Raise e, w') => (Settled (Raise e), w')
    end.
Proof. unfold cbind, call. destruct (m w) as [[a|e] w']; reflexivity. Qed.

Lemma cbind_await {A B : Type} (outcome : awaited A) (k : A -> C B) (w : World) :
  cbind (await outcome) k w
  = match outcome with
    | Settled (Ok a) => k a w
    | Settled (Raise e) => (Settled (Raise e), w)
    | Interrupted name => (Interrupted name, w)
    end.
Proof. unfold cbind, await. destruct outcome as [[a|e]|name]; reflexivity. Qed.

Lemma cbind_attribute {A B : Type} (value : option A) (k : A -> C B) (w : World) :
  cbind (attribute value) k w
  = match value with
    | Some a => k a w
    | None => (Settled (Raise AttributeError), w)
    end.
Proof. destruct value; reflexivity. Qed.

Lemma run_agent_returns (task : string) (agent : Agent) (w : World) (cur : string)
    (sess : Session) :
  cur <> "" ->
  recording w cur sess ->
  returns agent ->
  exists more w',
    run_agent clock str task agent w = (Settled (Ok tt), w')
    /\ recording w' cur (extend sess more)
    /\ summary <$> more = successes_of [agent]
    /\ Forall numeric_metadata more.
Proof.
  intros Hne Hrec Hret. unfold run_agent, successes_of. cbn [omap list_omap].
  destruct (has_run agent) eqn:Hrun.
  - destruct (Hret Hrun) as (name & value & Hname & Hvalue).
    rewrite cbind_call. cbn [datetime_now]. unfold try_except.
    rewrite cbind_await, Hvalue, cbind_attribute, Hname, cbind_call.
    cbn [datetime_now fmap option_fmap option_map]. unfold call.
    match goal with
    | |- context [track_decision clock name ?i ?o (Some ?m) ?w0] =>
        destruct (track_while_recording w0 cur sess name i o m Hne)
          as (d & w' & Htrack & Hrec' & Hagent & Hmeta)
    end.
    { exact Hrec. }
    rewrite Htrack. exists [d], w'. split; [reflexivity|]. split; [exact Hrec'|].
    split.
    + cbn. unfold summary. rewrite Hagent, Hmeta. reflexivity.
    + constructor; [|constructor]. eapply timed_metadata_numeric, Hmeta.
  - exists [], w. split; [reflexivity|]. rewrite extend_nil.
    split; [exact Hrec|]. split; [reflexivity | constructor].
Qed.

Lemma successes_of_cons (agent : Agent) (agents : list Agent) :
  successes_of (agent :: agents) = (successes_of [agent] ++ successes_of agents)%list.
Proof.
  unfold successes_of. cbn [omap list_omap].
  destruct (if has_run agent then _ else _); reflexivity.
Qed.

Lemma run_agents_return (task : string) (agents : list Agent) (w : World) (cur : string)
    (sess : Session) :
  cur <> "" ->
  recording w cur sess ->
  Forall returns agents ->
  exists more w',
    run_agents clock str task agents w = (Settled (Ok tt), w')
    /\ recording w' cur (extend sess more)
    /\ summary <$> more = successes_of agents
    /\ Forall numeric_metadata more.
Proof.
  intros Hne Hrec Hall. revert w sess Hrec.
  induction Hall as [|agent agents Hagent _ IH]; intros w sess Hrec.
  - exists [], w. rewrite extend_nil. split; [reflexivity|]. split; [exact Hrec|].
    split; [reflexivity | constructor].
  - cbn [run_agents]. unfold cbind at 1.
    destruct (run_agent_returns task agent w cur sess Hne Hrec Hagent)
      as (more1 & w1 & -> & Hrec1 & Hsum1 & Hnum1).
    destruct (IH w1 _ Hrec1) as (more2 & w2 & -> & Hrec2 & Hsum2 & Hnum2).
    exists (more1 ++ more2)%list, w2. split; [reflexivity|].
    rewrite extend_extend in Hrec2. split; [exact Hrec2|]. split.
    + rewrite fmap_app, Hsum1, Hsum2, (successes_of_cons agent agents). reflexivity.
    + apply Forall_app. split; assumption.
Qed.

Lemma run_agent_raises (task : string) (agent : Agent) (w : World) (cur : string)
    (sess : Session) (name : string) (e : exn) :
  cur <> "" ->
  recording w cur sess ->
  has_run agent = true ->
  agent_name agent = Some name ->
  run agent = Raise e ->
  exists d w',
    run_agent clock str task agent w = (Settled (Raise e), w')
    /\ recording w' cur (extend sess [d])
    /\ summary d = (name, Some (VBool false))
    /\ numeric_metadata d.
Proof.
  intros Hne Hrec Hrun Hname Hraise. unfold run_agent. rewrite Hrun.
  rewrite cbind_call. cbn [datetime_now]. unfold try_except.
  rewrite cbind_await, Hraise, cbind_attribute, Hname, cbind_call.
  cbn [datetime_now]. unfold cbind, call.
  match goal with
  | |- context [track_decision clock name ?i ?o (Some ?m) ?w0] =>
      destruct (track_while_recording w0 cur sess name i o m Hne)
        as (d & w' & Htrack & Hrec' & Hagent & Hmeta)
  end.
  { exact Hrec. }
  rewrite Htrack. exists d, w'. split; [reflexivity|]. split; [exact Hrec'|].
  split; [|eapply timed_metadata_numeric, Hmeta].
  unfold summary. rewrite Hagent, Hmeta. reflexivity.
Qed.

(** An interruption passes the handler by: only the clock was read. *)
Lemma run_agent_interrupted (task : string) (agent : Agent) (w : World) (cur : string)
    (sess : Session) (name : string) :
  recording w cur sess ->
  has_run agent = true ->
  run agent = Interrupted name ->
  exists w',
    run_agent clock str task agent w = (Interrupted name, w')
    /\ recording w' cur sess.
Proof.
  intros Hrec Hrun Hstop. unfold run_agent. rewrite Hrun.
  rewrite cbind_call. cbn [datetime_now]. unfold try_except.
  rewrite cbind_await, Hstop. eexists. split; [reflexivity|]. exact Hrec.
Qed.

(** The handler of the outer [try]: one record for the workflow, and the
    exception again. *)
Lemma workflow_failure_recorded (task : string) (e : exn) (w : World) (cur : string)
    (sess : Session) :
  cur <> "" ->
  recording w cur sess ->
  exists d w',
    (call (track_decision clock "workflow" {[ "task" := VStr task ]}
             {[ "error" := VStr (str e) ]} (Some {[ "success" := VBool false ]})) ;;;
     call (raise e)) w
    = (@Settled Value (Raise e), w')
    /\ recording w' cur (extend sess [d])
    /\ summary d = ("workflow", Some (VBool false))
    /\ numeric_metadata d.
Proof.
  intros Hne Hrec. rewrite cbind_call.
  destruct (track_while_recording w cur sess "workflow" {[ "task" := VStr task ]}
              {[ "error" := VStr (str e) ]} {[ "success" := VBool false ]} Hne Hrec)
    as (d & w' & -> & Hrec' & Hagent & Hmeta).
  exists d, w'. split; [reflexivity|]. split; [exact Hrec'|].
  split; [|eapply bare_metadata_numeric, Hmeta].
  unfold summary. rewrite Hagent, Hmeta. reflexivity.
Qed.

(** The agents up to one that does not return, and that one. *)
Lemma run_agents_stop (task : string) (before after : list Agent) (failing : Agent)
    (w w1 w2 : World) (ending : awaited unit) :
  run_agents clock str task before w = (Settled (Ok tt), w1) ->
  run_agent clock str task failing w1 = (ending, w2) ->
  ending <> Settled (Ok tt) ->
  run_agents clock str task (before ++ failing :: after) w = (ending, w2).
Proof.
  intros Hbefore Hfail Hending. revert w Hbefore.
  induction before as [|agent before IH]; intros w.
  - intros [= <-]. cbn [app run_agents]. unfold cbind. rewrite Hfail.
    destruct ending as [[[]|e]|name]; [congruence | reflexivity | reflexivity].
  - cbn [app run_agents]. unfold cbind.
    destruct (run_agent clock str task agent w) as [[[[]|e0]|name0] w0]; try discriminate.
    apply IH.
Qed.

(** A scope around a body that leaves its session recording. *)
Lemma scope_around {A : Type} (name : string) (body : string -> C A) (w w2 : World)
    (r : awaited A) (more : list Decision) :
  name <> "" ->
  body name (entered clock uuid4 (Some name) w) = (r, w2) ->
  recording w2 name (extend (new_session (clock (now_calls w))) more) ->
  fst (with_session clock uuid4 (Some name) body w) = r
  /\ current_session (self (snd (with_session clock uuid4 (Some name) body w))) = None
  /\ observations (self (snd (with_session clock uuid4 (Some name) body w))) !! name
     = Some {| start_time := clock (now_calls w);
               end_time := Some (clock (now_calls w2));
               decisions := more;
               metrics := {| total_tokens := 0; total_time := 0;
                             success_count := 0; failure_count := 0 |} |}.
Proof.
  intros Hne Hbody [Hcur Hsess].
  assert (Hid : chosen_id uuid4 (Some name) w = name).
  { unfold chosen_id. apply String.eqb_neq in Hne. rewrite Hne. reflexivity. }
  unfold with_session. rewrite cbind_call, session_enter_spec, Hid. unfold cfinally.
  rewrite Hbody, (session_exit_some clock w2 name _ Hcur Hne Hsess).
  cbn. rewrite lookup_insert_eq. repeat split; reflexivity.
Qed.

Lemma entered_recording (name : string) (w : World) :
  name <> "" ->
  recording (entered clock uuid4 (Some name) w) name
    (extend (new_session (clock (now_calls w))) []).
Proof.
  intros Hne. rewrite extend_nil. unfold recording, entered, chosen_id.
  apply String.eqb_neq in Hne. rewrite Hne. cbn. split; [reflexivity|].
  apply lookup_insert_eq.
Qed.

Lemma workflow_name (workflow : Workflow) : "workflow_" ++ id_text workflow <> "".
Proof. discriminate. Qed.

(** The session that a run without failure leaves. *)
Lemma clean_run_session (workflow : Workflow) (task : string) (w : World) (value : Value) :
  Forall returns (agents workflow) ->
  original_run workflow = Ok value ->
  exists more finish,
    fst (wrapped_run clock uuid4 str workflow task w) = Ok value
    /\ current_session (self (snd (wrapped_run clock uuid4 str workflow task w))) = None
    /\ observations (self (snd (wrapped_run clock uuid4 str workflow task w)))
         !! ("workflow_" ++ id_text workflow)
       = Some {| start_time := clock (now_calls w);
                 end_time := Some finish;
                 decisions := more;
                 metrics := {| total_tokens := 0; total_time := 0;
                               success_count := 0; failure_count := 0 |} |}
    /\ summary <$> more = successes_of (agents workflow)
    /\ Forall numeric_metadata more.
Proof.
  intros Hall Hrun. unfold wrapped_run.
  pose proof (workflow_name workflow) as Hne.
  destruct (run_agents_return task (agents workflow) _ _ _ Hne
              (entered_recording _ w Hne) Hall) as (more & w2 & Hagents & Hrec & Hsum & Hnum).
  rewrite extend_extend in Hrec. cbn [app] in Hrec.
  match goal with
  | |- context [with_session clock uuid4 (Some ?n) ?body w] =>
      destruct (scope_around n body w w2 (Settled (Ok value)) more Hne)
        as (Hres & Hcur & Hsess);
        [|exact Hrec|]
  end.
  { unfold try_except. unfold cbind at 1. rewrite Hagents.
    rewrite cbind_await, Hrun. reflexivity. }
  exists more, (clock (now_calls w2)). auto.
Qed.

(** The session that the failure of an agent leaves. *)
Lemma agent_failure_session (workflow : Workflow) (task : string) (w : World)
    (before after : list Agent) (failing : Agent) (name : string) (e : exn) :
  agents workflow = (before ++ failing :: after)%list ->
  Forall returns before ->
  has_run failing = true ->
  agent_name failing = Some name ->
  run failing = Raise e ->
  exists more finish,
    fst (wrapped_run clock uuid4 str workflow task w) = Raise e
    /\ current_session (self (snd (wrapped_run clock uuid4 str workflow task w))) = None
    /\ observations (self (snd (wrapped_run clock uuid4 str workflow task w)))
         !! ("workflow_" ++ id_text workflow)
       = Some {| start_time := clock (now_calls w);
                 end_time := Some finish;
                 decisions := more;
                 metrics := {| total_tokens := 0; total_time := 0;
                               success_count := 0; failure_count := 0 |} |}
    /\ summary <$> more
       = (successes_of before
          ++ [(name, Some (VBool false)); ("workflow", Some (VBool false))])%list
    /\ Forall numeric_metadata more.
Proof.
  intros Hagents Hall Hrun Hname Hraise. unfold wrapped_run.
  pose proof (workflow_name workflow) as Hne.
  destruct (run_agents_return task before _ _ _ Hne (entered_recording _ w Hne) Hall)
    as (more & w1 & Hbefore & Hrec1 & Hsum & Hnum).
  destruct (run_agent_raises task failing w1 _ _ name e Hne Hrec1 Hrun Hname Hraise)
    as (d1 & w2 & Hfail & Hrec2 & Hd1 & Hnum1).
  destruct (workflow_failure_recorded task e w2 _ _ Hne Hrec2)
    as (d2 & w3 & Hhandler & Hrec3 & Hd2 & Hnum2).
  rewrite !extend_extend in Hrec3. cbn [app] in Hrec3.
  pose proof (run_agents_stop task before after failing _ _ _ _ Hbefore Hfail
                ltac:(discriminate)) as Hloop.
  match goal with
  | |- context [with_session clock uuid4 (Some ?n) ?body w] =>
      destruct (scope_around n body w w3 (Settled (Raise e)) (more ++ [d1; d2])%list Hne)
        as (Hres & Hcur & Hsess);
        [|exact Hrec3|]
  end.
  { unfold try_except. unfold cbind at 1. rewrite Hagents, Hloop. exact Hhandler. }
  exists (more ++ [d1; d2])%list, (clock (now_calls w3)).
  split; [exact Hres|]. split; [exact Hcur|]. split; [exact Hsess|]. split.
  - rewrite !fmap_app, Hsum. cbn. rewrite Hd1, Hd2. reflexivity.
  - apply Forall_app. split; [exact Hnum|].
    apply List.Forall_cons; [exact Hnum1|]. apply List.Forall_cons; [exact Hnum2|].
    constructor.
Qed.

(** The metrics of a closed session whose records hold numbers. *)
Lemma closed_session_metrics (session_id : string) (w : World) (s : Session) (finish : Z) :
  observations (self w) !! session_id = Some s ->
  end_time s = Some finish ->
  decisions s <> [] ->
  Forall numeric_metadata (decisions s) ->
  exists art atu rate,
    get_session_metrics clock session_id w
    = (Ok {| duration := total_seconds (finish - start_time s);
             decision_count := length (decisions s);
             Observer.agents := list_to_set (agent_id <$> decisions s);
             averages := {| avg_response_time := VFloat (Finite art);
                            avg_token_usage := VFloat (Finite atu);
                            success_rate := VFloat (Finite rate) |} |}, w)
    /\ (rate == 100 * inject_Z (Z.of_nat (length (List.filter counted (decisions s))))
                / inject_Z (Z.of_nat (length (decisions s))))%Q.
Proof.
  intros Hs Hend Hne Hty.
  destruct (accumulate_all_counts (decisions s)
              {| tot_response_time := VInt 0; tot_token_usage := VInt 0;
                 tot_success_rate := VInt 0 |} 0 0 0 Hty eq_refl eq_refl eq_refl)
    as (t & r & u & k & Eall & Hr & Hu & Hk & _ & _ & Sk).
  assert (Hcount : Z.of_nat (length (decisions s)) <> 0)
    by (destruct (decisions s); [congruence | cbn; lia]).
  destruct (py_truediv_finite _ _ _ Hr Hcount) as (art & Eart & _).
  destruct (py_truediv_finite _ _ _ Hu Hcount) as (atu & Eatu & _).
  destruct (py_truediv_finite _ _ _ Hk Hcount) as (ratio & Eratio & Qratio).
  exists art, atu, (ratio * inject_Z 100)%Q.
  split.
  { assert (Eavg : _calculate_averages (decisions s)
                   = Ok {| avg_response_time := VFloat (Finite art);
                           avg_token_usage := VFloat (Finite atu);
                           success_rate := VFloat (Finite (ratio * inject_Z 100)) |}).
    { unfold _calculate_averages. destruct (decisions s) as [|d ds'] eqn:E; [congruence|].
      rewrite Eall. cbn [and_then]. rewrite Eart. cbn [and_then].
      rewrite Eatu. cbn [and_then]. rewrite Eratio. reflexivity. }
    unfold get_session_metrics, bind, get_self, raise, ret, datetime_now.
    rewrite Hs, Hend, Eavg. reflexivity. }
  assert (Hn : ~ (inject_Z (Z.of_nat (length (decisions s))) == 0)%Q).
  { change 0%Q with (inject_Z 0). rewrite inject_Z_injective. exact Hcount. }
  rewrite Qratio, Sk. change (inject_Z 100) with 100%Q.
  revert Hn. generalize (inject_Z (Z.of_nat (length (List.filter counted (decisions s))))).
  generalize (inject_Z (Z.of_nat (length (decisions s)))). clear. intros n c Hn. field. exact Hn.
Qed.

Lemma successes_of_true (agents : list Agent) :
  Forall (fun entry => snd entry = Some (VBool true)) (successes_of agents).
Proof.
  induction agents as [|agent agents IH]; [constructor|].
  rewrite successes_of_cons. apply Forall_app. split; [|exact IH].
  unfold successes_of. cbn [omap list_omap].
  destruct (has_run agent); [|constructor].
  destruct (agent_name agent); repeat constructor.
Qed.

(** How many of the records count as successes is read off their
    summaries. *)
Lemma counted_by_summary (ds : list Decision) :
  length (List.filter counted ds)
  = length (List.filter (fun entry => truthy (default (VBool false) (snd entry)))
              (summary <$> ds)).
Proof.
  induction ds as [|d ds IH]; [reflexivity|].
  rewrite fmap_cons. cbn [List.filter]. unfold summary at 1. cbn [snd]. fold (counted d).
  destruct (counted d); cbn [length]; rewrite IH; reflexivity.
Qed.

Lemma successes_all_count (entries : list (string * option Value)) :
  Forall (fun entry => snd entry = Some (VBool true)) entries ->
  List.filter (fun entry => truthy (default (VBool false) (snd entry))) entries = entries.
Proof.
  induction 1 as [|entry entries Hentry _ IH]; [reflexivity|].
  cbn [List.filter]. rewrite Hentry. cbn. rewrite IH. reflexivity.
Qed.

Lemma agents_by_summary (ds : list Decision) :
  agent_id <$> ds = fst <$> (summary <$> ds).
Proof. rewrite <- list_fmap_compose. reflexivity. Qed.

(** X18. When every agent of the workflow returns and the workflow itself
    returns, the observed run returns what the workflow returned; its
    session is closed and holds exactly one successful record for each
    agent that has a [run], in the order of the agents, and none for the
    workflow itself. *)
Theorem observed_workflow_success (workflow : Workflow) (task : string) (w : World)
    (value : Value) :
  Forall returns (agents workflow) ->
  original_run workflow = Ok value ->
  let res := wrapped_run clock uuid4 str workflow task w in
  fst res = Ok value
  /\ current_session (self (snd res)) = None
  /\ exists s finish,
       observations (self (snd res)) !! ("workflow_" ++ id_text workflow) = Some s
       /\ end_time s = Some finish
       /\ summary <$> decisions s = successes_of (agents workflow).
Proof.
  intros Hall Hrun res. subst res.
  destruct (clean_run_session workflow task w value Hall Hrun)
    as (more & finish & Hres & Hcur & Hsess & Hsum & _).
  split; [exact Hres|]. split; [exact Hcur|].
  eexists _, finish. split; [exact Hsess|]. split; [reflexivity | exact Hsum].
Qed.

(** X19. When an agent raises an exception of the class [Exception],
    after the agents before it returned, the observed run raises the same
    exception.  Its session is closed all
    the same and holds the successful records of the agents before, then
    two failed records for the one failure: one under the name of the
    agent and one under "workflow".  The agents after it are not run and
    leave no record. *)
Theorem observed_workflow_agent_failure (workflow : Workflow) (task : string) (w : World)
    (before after : list Agent) (failing : Agent) (name : string) (e : exn) :
  agents workflow = (before ++ failing :: after)%list ->
  Forall returns before ->
  has_run failing = true ->
  agent_name failing = Some name ->
  run failing = Raise e ->
  let res := wrapped_run clock uuid4 str workflow task w in
  fst res = Raise e
  /\ current_session (self (snd res)) = None
  /\ exists s finish,
       observations (self (snd res)) !! ("workflow_" ++ id_text workflow) = Some s
       /\ end_time s = Some finish
       /\ summary <$> decisions s
          = (successes_of before
             ++ [(name, Some (VBool false)); ("workflow", Some (VBool false))])%list.
Proof.
  intros Hagents Hall Hrun Hname Hraise res. subst res.
  destruct (agent_failure_session workflow task w before after failing name e
              Hagents Hall Hrun Hname Hraise)
    as (more & finish & Hres & Hcur & Hsess & Hsum & _).
  split; [exact Hres|]. split; [exact Hcur|].
  eexists _, finish. split; [exact Hsess|]. split; [reflexivity | exact Hsum].
Qed.

(** X20. When every agent returns but the workflow itself raises an
    exception of the class [Exception], the observed run raises the same
    exception; its session is closed and holds the successful records of
    the agents and, last, one failed record under "workflow". *)
Theorem observed_workflow_own_failure (workflow : Workflow) (task : string) (w : World)
    (e : exn) :
  Forall returns (agents workflow) ->
  original_run workflow = Raise e ->
  let res := wrapped_run clock uuid4 str workflow task w in
  fst res = Raise e
  /\ current_session (self (snd res)) = None
  /\ exists s finish,
       observations (self (snd res)) !! ("workflow_" ++ id_text workflow) = Some s
       /\ end_time s = Some finish
       /\ summary <$> decisions s
          = (successes_of (agents workflow) ++ [("workflow", Some (VBool false))])%list.
Proof.
  intros Hall Hraise res. subst res. unfold wrapped_run.
  pose proof (workflow_name workflow) as Hne.
  destruct (run_agents_return task (agents workflow) _ _ _ Hne
              (entered_recording _ w Hne) Hall) as (more & w1 & Hagents & Hrec1 & Hsum & _).
  destruct (workflow_failure_recorded task e w1 _ _ Hne Hrec1)
    as (d & w2 & Hhandler & Hrec2 & Hd & _).
  rewrite !extend_extend in Hrec2. cbn [app] in Hrec2.
  match goal with
  | |- context [with_session clock uuid4 (Some ?n) ?body w] =>
      destruct (scope_around n body w w2 (Settled (Raise e)) (more ++ [d])%list Hne)
        as (Hres & Hcur & Hsess);
        [|exact Hrec2|]
  end.
  { unfold try_except. unfold cbind at 1. rewrite Hagents.
    rewrite cbind_await, Hraise. exact Hhandler. }
  split; [exact Hres|]. split; [exact Hcur|].
  eexists _, _. split; [exact Hsess|]. split; [reflexivity|].
  cbn [decisions]. rewrite fmap_app, Hsum. cbn. rewrite Hd. reflexivity.
Qed.

(** X21. After a run in which nothing failed and at least one agent had a
    [run], [get_metrics] for the session of the workflow returns, without
    changing the observer: as many decisions as agents with a [run],
    their names as the agents, and a success rate of 100. *)
Theorem observed_workflow_clean_metrics (workflow : Workflow) (task : string) (w : World)
    (value : Value) :
  Forall returns (agents workflow) ->
  original_run workflow = Ok value ->
  successes_of (agents workflow) <> [] ->
  let w1 := snd (wrapped_run clock uuid4 str workflow task w) in
  exists m art atu rate,
    get_metrics clock ("workflow_" ++ id_text workflow) w1 = (Ok m, w1)
    /\ decision_count m = length (successes_of (agents workflow))
    /\ Observer.agents m = list_to_set (fst <$> successes_of (agents workflow))
    /\ averages m = {| avg_response_time := VFloat (Finite art);
                       avg_token_usage := VFloat (Finite atu);
                       success_rate := VFloat (Finite rate) |}
    /\ (rate == 100)%Q.
Proof.
  intros Hall Hrun Hsome w1. subst w1.
  destruct (clean_run_session workflow task w value Hall Hrun)
    as (more & finish & _ & _ & Hsess & Hsum & Hnum).
  assert (Hmore : more <> []).
  { intros ->. apply Hsome. rewrite <- Hsum. reflexivity. }
  destruct (closed_session_metrics _ _ _ finish Hsess eq_refl Hmore Hnum)
    as (art & atu & rate & Hmetrics & Hrate).
  cbn [decisions start_time] in Hmetrics, Hrate.
  eexists _, art, atu, rate. unfold get_metrics.
  split; [exact Hmetrics|]. cbn [decision_count Observer.agents averages].
  rewrite <- Hsum, length_fmap, <- agents_by_summary.
  split; [reflexivity|]. split; [reflexivity|]. split; [reflexivity|].
  rewrite Hrate, counted_by_summary, Hsum, (successes_all_count _ (successes_of_true _)).
  rewrite <- Hsum, length_fmap.
  assert (Hn : ~ (inject_Z (Z.of_nat (length more)) == 0)%Q).
  { change 0%Q with (inject_Z 0). rewrite inject_Z_injective.
    destruct more; [congruence | cbn; lia]. }
  revert Hn. generalize (inject_Z (Z.of_nat (length more))). clear. intros n Hn.
  field. exact Hn.
Qed.

(** X24. An interruption is not recorded as a failure.  When awaiting
    the [run] of an agent, or of the workflow itself, ends with an
    exception outside the class [Exception] (a cancellation), no handler
    of [wrapped_run] runs: the interruption goes on to the caller, the
    session is closed all the same, and it holds only the successful
    records of the agents that returned before. *)
Theorem observed_workflow_interrupted (workflow : Workflow) (task : string) (w : World)
    (name : string) :
  (forall before after stopped,
      agents workflow = (before ++ stopped :: after)%list ->
      Forall returns before ->
      has_run stopped = true ->
      run stopped = Interrupted name ->
      let res := wrapped_run clock uuid4 str workflow task w in
      fst res = Interrupted name
      /\ current_session (self (snd res)) = None
      /\ exists s finish,
           observations (self (snd res)) !! ("workflow_" ++ id_text workflow) = Some s
           /\ end_time s = Some finish
           /\ summary <$> decisions s = successes_of before)
  /\ (Forall returns (agents workflow) ->
      original_run workflow = Interrupted name ->
      let res := wrapped_run clock uuid4 str workflow task w in
      fst res = Interrupted name
      /\ current_session (self (snd res)) = None
      /\ exists s finish,
           observations (self (snd res)) !! ("workflow_" ++ id_text workflow) = Some s
           /\ end_time s = Some finish
           /\ summary <$> decisions s = successes_of (agents workflow)).
Proof.
  pose proof (workflow_name workflow) as Hne. split.
  - intros before after stopped Hagents Hall Hrun Hstop res. subst res. unfold wrapped_run.
    destruct (run_agents_return task before _ _ _ Hne (entered_recording _ w Hne) Hall)
      as (more & w1 & Hbefore & Hrec1 & Hsum & _).
    destruct (run_agent_interrupted task stopped w1 _ _ name Hrec1 Hrun Hstop)
      as (w2 & Hstopped & Hrec2).
    rewrite extend_extend in Hrec2. cbn [app] in Hrec2.
    pose proof (run_agents_stop task before after stopped _ _ _ _ Hbefore Hstopped
                  ltac:(discriminate)) as Hloop.
    match goal with
    | |- context [with_session clock uuid4 (Some ?n) ?body w] =>
        destruct (scope_around n body w w2 (Interrupted name) more Hne)
          as (Hres & Hcur & Hsess);
          [|exact Hrec2|]
    end.
    { unfold try_except. unfold cbind at 1. rewrite Hagents, Hloop. reflexivity. }
    split; [exact Hres|]. split; [exact Hcur|].
    eexists _, _. split; [exact Hsess|]. split; [reflexivity | exact Hsum].
  - intros Hall Hstop res. subst res. unfold wrapped_run.
    destruct (run_agents_return task (agents workflow) _ _ _ Hne
                (entered_recording _ w Hne) Hall) as (more & w1 & Hagents & Hrec1 & Hsum & _).
    rewrite extend_extend in Hrec1. cbn [app] in Hrec1.
    match goal with
    | |- context [with_session clock uuid4 (Some ?n) ?body w] =>
        destruct (scope_around n body w w1 (Interrupted name) more Hne)
          as (Hres & Hcur & Hsess);
          [|exact Hrec1|]
    end.
    { unfold try_except. unfold cbind at 1. rewrite Hagents.
      rewrite cbind_await, Hstop. reflexivity. }
    split; [exact Hres|]. split; [exact Hcur|].
    eexists _, _. split; [exact Hsess|]. split; [reflexivity | exact Hsum].
Qed.

End WorkflowExtra.

(** * Failed calls of the language model *)

Section LanguageModelExtra.

Import PyStr EnhancedAgent.

Variable str : exn -> string.

Lemma single_line_prepend (c : ascii) (s : string) :
  c <> "010"%char -> single_line s -> single_line (String c s).
Proof.
  unfold single_line. intros Hc Hs. rewrite contains_unfold. cbn [String.prefix].
  destruct (ascii_dec "010" c) as [<-|Hne]; [congruence | exact Hs].
Qed.

Lemma error_answer_single_line (message : string) :
  single_line message -> single_line ("Error: " ++ message).
Proof.
  intros Hmessage.
  change ("Error: " ++ message)
    with (String "E" (String "r" (String "r" (String "o" (String "r" (String ":"
            (String " " message))))))).
  repeat (apply single_line_prepend; [discriminate|]). exact Hmessage.
Qed.

(** Decides the label tests of a line whose beginning is known. *)
Ltac decide_tests :=
  repeat match goal with
         | |- context [startswith ?l ?p] =>
             let b := eval lazy in (startswith l p) in
             change (startswith l p) with b
         end;
  cbv beta iota; cbn [and_then].

(** Both parsers find nothing in the answer that stands for a failed
    call. *)
Lemma error_answer_unread (message : string) :
  single_line message ->
  _parse_alternatives ("Error: " ++ message) = Ok []
  /\ _parse_final_decision ("Error: " ++ message)
     = Ok {| data_decision := ""; data_confidence := Finite 0; data_reasoning := "" |}.
Proof.
  intros Hmessage. unfold _parse_alternatives, _parse_final_decision.
  rewrite (split_single_line _ (error_answer_single_line message Hmessage)).
  cbn [alternatives_lines final_decision_lines].
  unfold alternatives_line, final_decision_line.
  revert Hmessage. generalize message. clear. intros message _.
  decide_tests. split; reflexivity.
Qed.


End LanguageModelExtra.

(** * The further properties on concrete runs *)

Lemma metrics_agents_witness :
  exists m w',
    get_session_metrics second_clock "s1" after_scenario = (Ok m, w')
    /\ exists s,
         observations (self after_scenario) !! "s1" = Some s
         /\ decision_count m = length (decisions s)
         /\ (forall a, a ∈ agents m <-> exists d, d ∈ decisions s /\ agent_id d = a)
         /\ (size (agents m) <= decision_count m)%nat.
Proof.
  eexists _, _. split; [vm_compute; reflexivity|].
  eapply (metrics_agents second_clock "s1" after_scenario).
  vm_compute. reflexivity.
Defined.

Lemma metrics_need_numbers_witness :
  observations (self after_text_time) !! "s3" = Some text_time_session
  /\ Exists (fun d => not_a_number "response_time" d \/ not_a_number "token_usage" d)
       (decisions text_time_session)
  /\ fst (get_session_metrics second_clock "s3" after_text_time) = Raise TypeError
  /\ self (snd (get_session_metrics second_clock "s3" after_text_time)) = self after_text_time.
Proof.
  assert (Hs : observations (self after_text_time) !! "s3" = Some text_time_session)
    by (vm_compute; reflexivity).
  assert (Hfirst : not_a_number "response_time"
                     {| timestamp := 1000000; agent_id := "agentA"; inputs := ∅;
                        outputs := ∅;
                        metadata := {[ "response_time" := VStr "fast" ]} |}
                   \/ not_a_number "token_usage"
                        {| timestamp := 1000000; agent_id := "agentA"; inputs := ∅;
                           outputs := ∅;
                           metadata := {[ "response_time" := VStr "fast" ]} |}).
  { left. exists (VStr "fast"). split; vm_compute; reflexivity. }
  assert (Hbad : Exists (fun d => not_a_number "response_time" d
                                  \/ not_a_number "token_usage" d)
                   (decisions text_time_session)).
  { apply Exists_cons_hd. exact Hfirst. }
  split; [exact Hs|]. split; [exact Hbad|].
  destruct (metrics_need_numbers second_clock "s3" after_text_time text_time_session Hs Hbad)
    as (_ & Hself & Htype).
  split; [exact (Htype _ _ eq_refl Hfirst) | exact Hself].
Defined.

Lemma duration_never_negative_witness :
  (forall i j, (i <= j)%nat -> second_clock i <= second_clock j)
  /\ exists m w',
       get_session_metrics second_clock "s1"
         (snd (exec_block second_clock counting_uuid [scenario] fresh_world)) = (Ok m, w')
       /\ exists q, duration m = Finite q /\ (0 <= q)%Q.
Proof.
  split; [exact second_clock_monotone|].
  eexists _, _. split; [vm_compute; reflexivity|].
  eapply (duration_never_negative second_clock counting_uuid second_clock_monotone
            [scenario] "s1").
  vm_compute. reflexivity.
Defined.

Lemma two_alternatives_well_formed : Forall well_formed two_alternatives.
Proof.
  repeat constructor; try discriminate; cbn; unfold PyStr.int_max_str_digits; lia.
Defined.

Lemma parse_alternatives_round_trip_witness :
  Forall well_formed two_alternatives
  /\ EnhancedAgent._parse_alternatives (text_of (mjoin (render <$> two_alternatives)))
     = Ok (as_dict <$> two_alternatives).
Proof.
  split; [exact two_alternatives_well_formed|].
  exact (parse_alternatives_round_trip two_alternatives two_alternatives_well_formed).
Defined.

Lemma unmarked_answer_has_no_start :
  Forall (fun line => PyStr.startswith line "START_ALTERNATIVE" = false)
    (PyStr.split "010" unmarked_answer).
Proof. vm_compute. repeat constructor. Defined.

Lemma parse_alternatives_without_start_witness :
  Forall (fun line => PyStr.startswith line "START_ALTERNATIVE" = false)
    (PyStr.split "010" unmarked_answer)
  /\ EnhancedAgent._parse_alternatives unmarked_answer
     = Ok (replicate
             (length (List.filter (fun line => PyStr.startswith line "END_ALTERNATIVE")
                        (PyStr.split "010" unmarked_answer)))
             (written (PyStr.split "010" unmarked_answer)))
  /\ replicate
       (length (List.filter (fun line => PyStr.startswith line "END_ALTERNATIVE")
                  (PyStr.split "010" unmarked_answer)))
       (written (PyStr.split "010" unmarked_answer))
     = [ {[ "approach" := VStr "full rollout"; "feasibility" := VInt 8 ]};
         {[ "approach" := VStr "full rollout"; "feasibility" := VInt 8 ]} ].
Proof.
  split; [exact unmarked_answer_has_no_start|].
  split; [|vm_compute; reflexivity].
  exact (parse_alternatives_without_start unmarked_answer unmarked_answer_has_no_start).
Defined.

Lemma indented_answer_lines : Forall indented (PyStr.split "010" indented_answer).
Proof. vm_compute. repeat constructor. Defined.

Lemma indented_lines_are_skipped_witness :
  Forall indented (PyStr.split "010" indented_answer)
  /\ EnhancedAgent._parse_alternatives indented_answer = Ok []
  /\ EnhancedAgent._parse_final_decision indented_answer
     = Ok {| EnhancedAgent.data_decision := "";
             EnhancedAgent.data_confidence := Finite 0;
             EnhancedAgent.data_reasoning := "" |}.
Proof.
  split; [exact indented_answer_lines|].
  exact (indented_lines_are_skipped indented_answer indented_answer_lines).
Defined.

Lemma parse_final_decision_round_trip_witness :
  exists value,
    plain "invest"
    /\ plain "margins up: 12%"
    /\ single_line "0.8"
    /\ PyStr.float (PyStr.strip "0.8") = Some value
    /\ EnhancedAgent._parse_final_decision
         (text_of (render_decision "invest" "0.8" "margins up: 12%"))
       = Ok {| EnhancedAgent.data_decision := "invest";
               EnhancedAgent.data_confidence := value;
               EnhancedAgent.data_reasoning := "margins up: 12%" |}.
Proof.
  assert (Hd : plain "invest") by (split; reflexivity).
  assert (Hr : plain "margins up: 12%") by (split; reflexivity).
  assert (Hc : single_line "0.8") by reflexivity.
  eexists. split; [exact Hd|]. split; [exact Hr|]. split; [exact Hc|].
  assert (Hvalue : PyStr.float (PyStr.strip "0.8")
                   = Some (Finite (inject_Z 8 * Qpower (inject_Z 10) (0 - 1)))).
  { reflexivity. }
  split; [exact Hvalue|].
  exact (parse_final_decision_round_trip "invest" "0.8" "margins up: 12%" _ Hd Hr Hc Hvalue).
Defined.

Lemma swarm_steps_follow_path_witness :
  exists path,
    SwarmConversion.convert_to_decision_path swarm_text "rank offers" swarm_two_steps None
    = Ok path
    /\ (confidence <$> steps path) = [HIGH; MEDIUM]
    /\ exists items,
         GenericAgentAdapter.iterate
           (VList [ VDict {[ "action" := VStr "search";
                             "confidence" := VFloat (Finite (9 # 10)) ]};
                    VDict {[ "action" := VStr "rank" ]} ]) = Ok items
         /\ Forall2 (fun item step =>
                      exists d,
                        item = VDict d
                        /\ thought step = default (VStr "Unknown action") (d !! "action")
                        /\ SwarmAdapter._convert_swarm_confidence
                             (default (VFloat (Finite (5 # 10))) (d !! "confidence"))
                           = Ok (confidence step)
                        /\ (d !! "confidence" = None -> confidence step = MEDIUM))
              items (steps path).
Proof.
  eexists. split; [vm_compute; reflexivity|]. split; [reflexivity|].
  refine (swarm_steps_follow_path swarm_text "rank offers" swarm_two_steps None _ _).
  vm_compute. reflexivity.
Defined.

Lemma good_agents_return : Forall returns good_agents.
Proof.
  repeat constructor; intros Hrun; try discriminate Hrun;
    eexists _, _; split; reflexivity.
Defined.

Lemma observed_workflow_success_witness :
  Forall returns (SwarmObserver.agents good_workflow)
  /\ SwarmObserver.original_run good_workflow = Ok (VStr "report")
  /\ successes_of (SwarmObserver.agents good_workflow)
     = [("planner", Some (VBool true)); ("writer", Some (VBool true))]
  /\ let res := SwarmObserver.wrapped_run second_clock counting_uuid exception_text
                  good_workflow "write a report" fresh_world in
     fst res = Ok (VStr "report")
     /\ current_session (self (snd res)) = None
     /\ exists s finish,
          observations (self (snd res)) !! ("workflow_" ++ SwarmObserver.id_text good_workflow)
          = Some s
          /\ end_time s = Some finish
          /\ summary <$> decisions s = successes_of (SwarmObserver.agents good_workflow).
Proof.
  split; [exact good_agents_return|]. split; [reflexivity|]. split; [reflexivity|].
  exact (observed_workflow_success second_clock counting_uuid exception_text good_workflow
           "write a report" fresh_world (VStr "report") good_agents_return eq_refl).
Defined.

Lemma observed_workflow_agent_failure_witness :
  SwarmObserver.agents agent_failure_workflow
  = (good_agents ++ failing_agent :: good_agents)%list
  /\ Forall returns good_agents
  /\ SwarmObserver.has_run failing_agent = true
  /\ SwarmObserver.agent_name failing_agent = Some "critic"
  /\ SwarmObserver.run failing_agent = Raise (Exception "timeout")
  /\ let res := SwarmObserver.wrapped_run second_clock counting_uuid exception_text
                  agent_failure_workflow "write a report" fresh_world in
     fst res = Raise (Exception "timeout")
     /\ current_session (self (snd res)) = None
     /\ exists s finish,
          observations (self (snd res))
            !! ("workflow_" ++ SwarmObserver.id_text agent_failure_workflow) = Some s
          /\ end_time s = Some finish
          /\ summary <$> decisions s
             = (successes_of good_agents
                ++ [("critic", Some (VBool false)); ("workflow", Some (VBool false))])%list.
Proof.
  split; [reflexivity|]. split; [exact good_agents_return|].
  split; [reflexivity|]. split; [reflexivity|]. split; [reflexivity|].
  exact (observed_workflow_agent_failure second_clock counting_uuid exception_text
           agent_failure_workflow "write a report" fresh_world good_agents good_agents
           failing_agent "critic" (Exception "timeout") eq_refl good_agents_return
           eq_refl eq_refl eq_refl).
Defined.

Lemma observed_workflow_own_failure_witness :
  Forall returns (SwarmObserver.agents own_failure_workflow)
  /\ SwarmObserver.original_run own_failure_workflow = Raise (Exception "no quorum")
  /\ let res := SwarmObserver.wrapped_run second_clock counting_uuid exception_text
                  own_failure_workflow "write a report" fresh_world in
     fst res = Raise (Exception "no quorum")
     /\ current_session (self (snd res)) = None
     /\ exists s finish,
          observations (self (snd res))
            !! ("workflow_" ++ SwarmObserver.id_text own_failure_workflow) = Some s
          /\ end_time s = Some finish
          /\ summary <$> decisions s
             = (successes_of (SwarmObserver.agents own_failure_workflow)
                ++ [("workflow", Some (VBool false))])%list.
Proof.
  split; [exact good_agents_return|]. split; [reflexivity|].
  exact (observed_workflow_own_failure second_clock counting_uuid exception_text
           own_failure_workflow "write a report" fresh_world (Exception "no quorum")
           good_agents_return eq_refl).
Defined.

Lemma observed_workflow_clean_metrics_witness :
  Forall returns (SwarmObserver.agents good_workflow)
  /\ SwarmObserver.original_run good_workflow = Ok (VStr "report")
  /\ successes_of (SwarmObserver.agents good_workflow) <> []
  /\ let w1 := snd (SwarmObserver.wrapped_run second_clock counting_uuid exception_text
                      good_workflow "write a report" fresh_world) in
     exists m art atu rate,
       SwarmObserver.get_metrics second_clock
         ("workflow_" ++ SwarmObserver.id_text good_workflow) w1 = (Ok m, w1)
       /\ decision_count m = length (successes_of (SwarmObserver.agents good_workflow))
       /\ agents m = list_to_set (fst <$> successes_of (SwarmObserver.agents good_workflow))
       /\ averages m = {| avg_response_time := VFloat (Finite art);
                          avg_token_usage := VFloat (Finite atu);
                          success_rate := VFloat (Finite rate) |}
       /\ (rate == 100)%Q.
Proof.
  assert (Hsome : successes_of (SwarmObserver.agents good_workflow) <> [])
    by (vm_compute; discriminate).
  split; [exact good_agents_return|]. split; [reflexivity|]. split; [exact Hsome|].
  exact (observed_workflow_clean_metrics second_clock counting_uuid exception_text
           good_workflow "write a report" fresh_world (VStr "report")
           good_agents_return eq_refl Hsome).
Defined.

Lemma observed_workflow_interrupted_witness :
  SwarmObserver.agents cancelled_workflow
  = (good_agents ++ cancelled_agent :: good_agents)%list
  /\ Forall returns good_agents
  /\ SwarmObserver.has_run cancelled_agent = true
  /\ SwarmObserver.run cancelled_agent = Interrupted "CancelledError"
  /\ let res := SwarmObserver.wrapped_run second_clock counting_uuid exception_text
                  cancelled_workflow "write a report" fresh_world in
     fst res = Interrupted "CancelledError"
     /\ current_session (self (snd res)) = None
     /\ exists s finish,
          observations (self (snd res))
            !! ("workflow_" ++ SwarmObserver.id_text cancelled_workflow) = Some s
          /\ end_time s = Some finish
          /\ summary <$> decisions s = successes_of good_agents.
Proof.
  split; [reflexivity|]. split; [exact good_agents_return|].
  split; [reflexivity|]. split; [reflexivity|].
  destruct (observed_workflow_interrupted second_clock counting_uuid exception_text
              cancelled_workflow "write a report" fresh_world "CancelledError")
    as [Hagent _].
  exact (Hagent good_agents good_agents cancelled_agent eq_refl good_agents_return
           eq_refl eq_refl).
Defined.

Lemma get_session_metrics_is_query_witness :
  observations (self after_scenario) !! "s1" = Some scenario_session
  /\ end_time scenario_session = Some 3000000
  /\ self (snd (get_session_metrics second_clock "s1" after_scenario)) = self after_scenario
  /\ fst (get_session_metrics (fun _ => 0) "s1" after_scenario)
     = fst (get_session_metrics second_clock "s1" after_scenario)
  /\ snd (get_session_metrics second_clock "s1" after_scenario) = after_scenario.
Proof.
  assert (Hs : observations (self after_scenario) !! "s1" = Some scenario_session)
    by (vm_compute; reflexivity).
  split; [exact Hs|]. split; [reflexivity|].
  destruct (get_session_metrics_is_query second_clock "s1" after_scenario) as [Hself Hquery].
  split; [exact Hself|].
  exact (Hquery scenario_session 3000000 (fun _ => 0) after_scenario Hs eq_refl eq_refl).
Defined.

Lemma add_metric_last_wins_witness :
  three_metrics <> []
  /\ default ∅ (CoreDecision.metrics (add_metrics three_metrics blank_path)) !! "latency"
     = Some (VInt 5)
  /\ is_Some (CoreDecision.metrics (add_metrics three_metrics blank_path)).
Proof.
  assert (Hsome : three_metrics <> []) by discriminate.
  split; [exact Hsome|].
  destruct (add_metric_last_wins three_metrics blank_path "latency") as (Hlast & Hmade & _).
  split; [exact Hlast | exact (Hmade Hsome)].
Defined.

